(** * ecowitt backend_v2: rain rollover engine, daily summary store,
      history queries

    Shallow embedding of [state_v2.cpp] and [api_v2.cpp].

    The C++ [double] is an interface ([Double]) with two instances: IEEE
    binary64 (Rocq's primitive floats) and exact rationals with a NaN.
    Everything that only depends on the control flow of the program is
    proved for every instance; the one arithmetic identity is proved for
    the exact instance.

    [std::time_t] and [int] values are integers of [Z]; the conversions
    that the program performs between integer widths are written out
    ([wrap_int], [wrap_int64], [wrap_uint64]).  The C library's
    [localtime_r] and [mktime] are an interface ([Libc]), with a UTC
    instance used for concrete runs.

    The globals [g_state] and [g_db] and the snapshot file are passed
    explicitly ([World]); the current time [std::time(nullptr)] is the
    argument [now].  A JSON document is its parsed value; the SQLite table
    is the list of its rows, and a statement is run by filtering, sorting
    and slicing that list.  Writes to the file and to the database are
    taken to succeed when the file or database is available. *)

From Stdlib Require Import ZArith QArith List String Ascii Bool Lia.
From Stdlib Require Import Floats.PrimFloat Floats.SpecFloat Floats.FloatOps.
From Stdlib Require Import Sorting.Sorted Sorting.Permutation.
Import ListNotations.

Set Warnings "-register-all,-inexact-float".

Local Open Scope string_scope.
Local Open Scope list_scope.
Local Open Scope Z_scope.

(** ** Integer widths *)

Definition wrap_signed (bits : Z) (z : Z) : Z :=
  (z + 2 ^ (bits - 1)) mod 2 ^ bits - 2 ^ (bits - 1).

(** [static_cast<int>] of a wider integer (two's complement). *)
Definition wrap_int (z : Z) : Z := wrap_signed 32 z.
(** [(long long)] of an unsigned 64-bit integer. *)
Definition wrap_int64 (z : Z) : Z := wrap_signed 64 z.
(** [static_cast<std::uint64_t>] of a signed integer. *)
Definition wrap_uint64 (z : Z) : Z := z mod 2 ^ 64.

Definition INT_MIN : Z := - 2 ^ 31.
Definition INT_MAX : Z := 2 ^ 31 - 1.
Definition LONG_MIN : Z := - 2 ^ 63.
Definition LONG_MAX : Z := 2 ^ 63 - 1.

(** ** The [double] interface *)

Class Double (D : Type) : Type := {
  d_of_Z : Z -> D;              (* static_cast<double>(integer), integer literals *)
  d_trunc : D -> Z;             (* static_cast<integer>(double): toward zero *)
  dadd : D -> D -> D;
  dsub : D -> D -> D;
  dmul : D -> D -> D;
  ddiv : D -> D -> D;
  dltb : D -> D -> bool;        (* operator< *)
  deqb : D -> D -> bool;        (* operator== *)
  dnan : D;                     (* NAN *)
  disnan : D -> bool;           (* std::isnan *)
  disfinite : D -> bool;        (* std::isfinite *)
  disnan_nan : disnan dnan = true
}.

Declare Scope double_scope.
Delimit Scope double_scope with D.
Infix "+" := dadd : double_scope.
Infix "-" := dsub : double_scope.
Infix "*" := dmul : double_scope.
Infix "/" := ddiv : double_scope.
Infix "<?" := dltb : double_scope.
Infix "=?" := deqb : double_scope.

(** A decimal literal [m * 10^-k], such as [25.4 = dec 254 1]. *)
Definition dec {D} `{Double D} (m : Z) (k : Z) : D :=
  (d_of_Z m / d_of_Z (10 ^ k))%D.

(** [std::max(a, b)] is [(a < b) ? b : a]; [std::min(a, b)] is
    [(b < a) ? b : a]. *)
Definition dmax {D} `{Double D} (a b : D) : D := if (a <? b)%D then b else a.
Definition dmin {D} `{Double D} (a b : D) : D := if (b <? a)%D then b else a.

(** *** IEEE binary64 *)

Definition float_of_Z (z : Z) : float :=
  SF2Prim (binary_normalize prec emax z 0 false).

Definition float_trunc (f : float) : Z :=
  match Prim2SF f with
  | S754_finite s m e =>
      let v := if 0 <=? e then Z.pos m * 2 ^ e else Z.quot (Z.pos m) (2 ^ (- e)) in
      if s then - v else v
  | _ => 0
  end.

#[export] Instance Double_float : Double float := {
  d_of_Z := float_of_Z;
  d_trunc := float_trunc;
  dadd := PrimFloat.add;
  dsub := PrimFloat.sub;
  dmul := PrimFloat.mul;
  ddiv := PrimFloat.div;
  dltb := PrimFloat.ltb;
  deqb := PrimFloat.eqb;
  dnan := PrimFloat.nan;
  disnan := PrimFloat.is_nan;
  disfinite := PrimFloat.is_finite;
  disnan_nan := eq_refl
}.

(** *** Exact rationals with a NaN *)

Inductive exact : Type :=
| ENaN
| EVal (q : Q).

Definition exact_lift2 (f : Q -> Q -> Q) (a b : exact) : exact :=
  match a, b with
  | EVal x, EVal y => EVal (f x y)
  | _, _ => ENaN
  end.

Definition exact_div (a b : exact) : exact :=
  match a, b with
  | EVal x, EVal y => if Qeq_bool y 0 then ENaN else EVal (Qdiv x y)
  | _, _ => ENaN
  end.

Definition exact_ltb (a b : exact) : bool :=
  match a, b with
  | EVal x, EVal y => match Qcompare x y with Lt => true | _ => false end
  | _, _ => false
  end.

Definition exact_eqb (a b : exact) : bool :=
  match a, b with
  | EVal x, EVal y => Qeq_bool x y
  | _, _ => false
  end.

Definition exact_trunc (a : exact) : Z :=
  match a with
  | EVal q => Z.quot (Qnum q) (Z.pos (Qden q))
  | ENaN => 0
  end.

Definition exact_isnan (a : exact) : bool :=
  match a with ENaN => true | EVal _ => false end.

#[export] Instance Double_exact : Double exact := {
  d_of_Z := fun z => EVal (inject_Z z);
  d_trunc := exact_trunc;
  dadd := exact_lift2 Qplus;
  dsub := exact_lift2 Qminus;
  dmul := exact_lift2 Qmult;
  ddiv := exact_div;
  dltb := exact_ltb;
  deqb := exact_eqb;
  dnan := ENaN;
  disnan := exact_isnan;
  disfinite := fun a => negb (exact_isnan a);
  disnan_nan := eq_refl
}.

(** ** The C library's calendar *)

Record tm : Type := mk_tm {
  tm_sec : Z;
  tm_min : Z;
  tm_hour : Z;
  tm_mday : Z;
  tm_mon : Z;
  tm_year : Z;
  tm_isdst : Z
}.

Class Libc : Type := {
  localtime_r : Z -> tm;
  mktime : tm -> Z
}.

(** *** A UTC calendar (proleptic Gregorian, no daylight saving) *)

Definition days_from_civil (y m d : Z) : Z :=
  let y' := if m <=? 2 then y - 1 else y in
  let era := y' / 400 in
  let yoe := y' - era * 400 in
  let mp := (m + 9) mod 12 in
  let doy := (153 * mp + 2) / 5 + d - 1 in
  let doe := yoe * 365 + yoe / 4 - yoe / 100 + doy in
  era * 146097 + doe - 719468.

Definition civil_from_days (z : Z) : Z * Z * Z :=
  let z' := z + 719468 in
  let era := z' / 146097 in
  let doe := z' - era * 146097 in
  let yoe := (doe - doe / 1460 + doe / 36524 - doe / 146096) / 365 in
  let doy := doe - (365 * yoe + yoe / 4 - yoe / 100) in
  let mp := (5 * doy + 2) / 153 in
  let d := doy - (153 * mp + 2) / 5 + 1 in
  let m := if mp <? 10 then mp + 3 else mp - 9 in
  let y := yoe + era * 400 in
  ((if m <=? 2 then y + 1 else y), m, d).

Definition utc_localtime (t : Z) : tm :=
  let days := t / 86400 in
  let secs := t mod 86400 in
  let '(y, m, d) := civil_from_days days in
  {| tm_sec := secs mod 60;
     tm_min := (secs / 60) mod 60;
     tm_hour := secs / 3600;
     tm_mday := d;
     tm_mon := m - 1;
     tm_year := y - 1900;
     tm_isdst := 0 |}.

Definition utc_mktime (t : tm) : Z :=
  let y := tm_year t + 1900 + tm_mon t / 12 in
  let m := tm_mon t mod 12 + 1 in
  (days_from_civil y m 1 + (tm_mday t - 1)) * 86400
  + tm_hour t * 3600 + tm_min t * 60 + tm_sec t.

Definition Libc_utc : Libc := {|
  localtime_r := utc_localtime;
  mktime := utc_mktime
|}.

(** ** Constants of [state_v2.cpp] *)

Definition EVENT_GAP_MIN : Z := 30.
Definition HOURLY_WINDOW_SEC : Z := 3600.
Definition MIN_COVERAGE_SEC : Z := 12 * 3600.

Section Model.

Context {D : Type} {DD : Double D} {LC : Libc}.

Definition HISTORICAL_TOTAL_IN : D := dec 6277 2.
Definition HISTORICAL_YEARLY_IN : D := dec 6277 2.
Definition HISTORICAL_MONTHLY_IN : D := dec 427 2.
Definition HISTORICAL_WEEKLY_IN : D := dec 196 2.

(** ** JSON values ([nlohmann::json])

    An object is a finite map from keys to values; it is kept as an
    association list in which the first binding of a key is the one that
    counts. *)

Inductive json : Type :=
| JNull
| JBool (b : bool)
| JInt (z : Z)                       (* number_integer: std::int64_t *)
| JUInt (z : Z)                      (* number_unsigned: std::uint64_t *)
| JFloat (d : D)                     (* number_float: double *)
| JStr (s : string)
| JArr (l : list json)
| JObj (m : list (string * json)).

Fixpoint assoc_find {A} (k : string) (m : list (string * A)) : option A :=
  match m with
  | [] => None
  | (k', v) :: m' => if String.eqb k k' then Some v else assoc_find k m'
  end.

(** [j[k]] where [j.contains(k)]. *)
Definition json_at (j : json) (k : string) : option json :=
  match j with
  | JObj m => assoc_find k m
  | _ => None
  end.

(** [j.contains(k)]: false when [j] is not an object. *)
Definition contains (j : json) (k : string) : bool :=
  match json_at j k with Some _ => true | None => false end.

Definition is_number (j : json) : bool :=
  match j with JInt _ | JUInt _ | JFloat _ => true | _ => false end.

Definition is_number_integer (j : json) : bool :=
  match j with JInt _ | JUInt _ => true | _ => false end.

Definition is_string (j : json) : bool :=
  match j with JStr _ => true | _ => false end.

(** The conversions [get<T>()]; [None] is a thrown [json::type_error]. *)

Definition json_get_double (j : json) : option D :=
  match j with
  | JInt z | JUInt z => Some (d_of_Z z)
  | JFloat d => Some d
  | _ => None
  end.

Definition json_get_int (j : json) : option Z :=
  match j with
  | JInt z | JUInt z => Some (wrap_int z)
  | JFloat d => Some (wrap_int (d_trunc d))
  | JBool b => Some (if b then 1 else 0)
  | _ => None
  end.

Definition json_get_long_long (j : json) : option Z :=
  match j with
  | JInt z | JUInt z => Some (wrap_int64 z)
  | JFloat d => Some (wrap_int64 (d_trunc d))
  | JBool b => Some (if b then 1 else 0)
  | _ => None
  end.

Definition json_get_uint64 (j : json) : option Z :=
  match j with
  | JInt z | JUInt z => Some (wrap_uint64 z)
  | JFloat d => Some (wrap_uint64 (d_trunc d))
  | _ => None
  end.

Definition json_get_bool (j : json) : option bool :=
  match j with
  | JBool b => Some b
  | _ => None
  end.

Definition json_get_string (j : json) : option string :=
  match j with
  | JStr s => Some s
  | _ => None
  end.

(** What [json::parse] returns on the text [j.dump()]: a float that is not
    finite is written as [null], and an integer without a sign is read
    back as unsigned. *)
Fixpoint json_reparse (j : json) : json :=
  match j with
  | JFloat d => if disfinite d then JFloat d else JNull
  | JInt z => if 0 <=? z then JUInt z else JInt z
  | JArr l => JArr (map json_reparse l)
  | JObj m => JObj (map (fun kv => (fst kv, json_reparse (snd kv))) m)
  | _ => j
  end.

(** ** Types of [state_v2.cpp] *)

Record RainDelta : Type := mk_delta {
  ts : Z;
  inches : D
}.

Record WeatherStateV2 : Type := mk_state {
  (* WS90 telemetry *)
  battery_mV : D;
  battery_ok : D;
  id_ : Z;                       (* [id] *)
  model : string;
  firmware : Z;
  humidity : D;
  temperature_C : D;
  wind_dir_deg : D;
  wind_avg_m_s : D;
  wind_max_m_s : D;
  light_lux : D;
  uvi : D;
  rain_mm : D;
  supercap_V : D;
  last_time_iso : string;
  (* rain and daily tracking *)
  last_rain_mm : D;
  last_update : Z;
  rain_daily_in : D;
  rain_monthly_in : D;
  rain_yearly_in : D;
  rain_weekly_in : D;
  rain_hourly_in : D;
  rain_event_in : D;
  daily_ymd : Z;
  month_ym : Z;
  year_y : Z;
  week_start_ymd : Z;
  historical_total_in : D;
  historical_yearly_in : D;
  historical_monthly_in : D;
  historical_weekly_in : D;
  historical_seeded : bool;
  deltas : list RainDelta;
  last_rain_ts : Z;
  have_temp : bool;
  temp_high_c : D;
  temp_low_c : D;
  have_hum : bool;
  hum_high : D;
  hum_low : D;
  day_first_ts : Z;
  day_last_ts : Z;
  (* daily wind tracking *)
  have_wind : bool;
  wind_mean_m_s : D;
  wind_max_gust_m_s : D;
  wind_sample_count : Z
}.

(** [WeatherStateV2{}]: the default member initializers. *)
Definition state_zero : WeatherStateV2 := {|
  battery_mV := d_of_Z 0; battery_ok := d_of_Z 0;
  id_ := 0; model := EmptyString; firmware := 0;
  humidity := d_of_Z 0; temperature_C := d_of_Z 0;
  wind_dir_deg := d_of_Z 0; wind_avg_m_s := d_of_Z 0; wind_max_m_s := d_of_Z 0;
  light_lux := d_of_Z 0; uvi := d_of_Z 0; rain_mm := d_of_Z 0;
  supercap_V := d_of_Z 0; last_time_iso := EmptyString;
  last_rain_mm := d_of_Z 0; last_update := 0;
  rain_daily_in := d_of_Z 0; rain_monthly_in := d_of_Z 0;
  rain_yearly_in := d_of_Z 0; rain_weekly_in := d_of_Z 0;
  rain_hourly_in := d_of_Z 0; rain_event_in := d_of_Z 0;
  daily_ymd := 0; month_ym := 0; year_y := 0; week_start_ymd := 0;
  historical_total_in := HISTORICAL_TOTAL_IN;
  historical_yearly_in := HISTORICAL_YEARLY_IN;
  historical_monthly_in := HISTORICAL_MONTHLY_IN;
  historical_weekly_in := HISTORICAL_WEEKLY_IN;
  historical_seeded := false;
  deltas := []; last_rain_ts := 0;
  have_temp := false; temp_high_c := d_of_Z 0; temp_low_c := d_of_Z 0;
  have_hum := false; hum_high := d_of_Z 0; hum_low := d_of_Z 0;
  day_first_ts := 0; day_last_ts := 0;
  have_wind := false; wind_mean_m_s := d_of_Z 0; wind_max_gust_m_s := d_of_Z 0;
  wind_sample_count := 0
|}.

(** *** Assignment to one member

    [set_f v st] is [st] after [st.f = v].  The setters are derived from
    the eta-expansion of the record, by abstracting the member. *)

Definition state_eta (st : WeatherStateV2) : WeatherStateV2 :=
  mk_state
    (battery_mV st) (battery_ok st) (id_ st) (model st) (firmware st)
    (humidity st) (temperature_C st) (wind_dir_deg st) (wind_avg_m_s st)
    (wind_max_m_s st) (light_lux st) (uvi st) (rain_mm st) (supercap_V st)
    (last_time_iso st) (last_rain_mm st) (last_update st)
    (rain_daily_in st) (rain_monthly_in st) (rain_yearly_in st)
    (rain_weekly_in st) (rain_hourly_in st) (rain_event_in st)
    (daily_ymd st) (month_ym st) (year_y st) (week_start_ymd st)
    (historical_total_in st) (historical_yearly_in st)
    (historical_monthly_in st) (historical_weekly_in st)
    (historical_seeded st) (deltas st) (last_rain_ts st)
    (have_temp st) (temp_high_c st) (temp_low_c st)
    (have_hum st) (hum_high st) (hum_low st)
    (day_first_ts st) (day_last_ts st)
    (have_wind st) (wind_mean_m_s st) (wind_max_gust_m_s st)
    (wind_sample_count st).

Ltac member_setter proj :=
  let v := fresh "v" in
  let st := fresh "st" in
  intros v st;
  let e := eval cbv [state_eta] in (state_eta st) in
  match eval pattern (proj st) in e with
  | ?f _ => let r := eval cbv beta in (f v) in exact r
  end.

Definition set_battery_mV : D -> WeatherStateV2 -> WeatherStateV2 :=
  ltac:(member_setter battery_mV).
Definition set_battery_ok : D -> WeatherStateV2 -> WeatherStateV2 :=
  ltac:(member_setter battery_ok).
Definition set_id_ : Z -> WeatherStateV2 -> WeatherStateV2 :=
  ltac:(member_setter id_).
Definition set_model : string -> WeatherStateV2 -> WeatherStateV2 :=
  ltac:(member_setter model).
Definition set_firmware : Z -> WeatherStateV2 -> WeatherStateV2 :=
  ltac:(member_setter firmware).
Definition set_humidity : D -> WeatherStateV2 -> WeatherStateV2 :=
  ltac:(member_setter humidity).
Definition set_temperature_C : D -> WeatherStateV2 -> WeatherStateV2 :=
  ltac:(member_setter temperature_C).
Definition set_wind_dir_deg : D -> WeatherStateV2 -> WeatherStateV2 :=
  ltac:(member_setter wind_dir_deg).
Definition set_wind_avg_m_s : D -> WeatherStateV2 -> WeatherStateV2 :=
  ltac:(member_setter wind_avg_m_s).
Definition set_wind_max_m_s : D -> WeatherStateV2 -> WeatherStateV2 :=
  ltac:(member_setter wind_max_m_s).
Definition set_light_lux : D -> WeatherStateV2 -> WeatherStateV2 :=
  ltac:(member_setter light_lux).
Definition set_uvi : D -> WeatherStateV2 -> WeatherStateV2 :=
  ltac:(member_setter uvi).
Definition set_rain_mm : D -> WeatherStateV2 -> WeatherStateV2 :=
  ltac:(member_setter rain_mm).
Definition set_supercap_V : D -> WeatherStateV2 -> WeatherStateV2 :=
  ltac:(member_setter supercap_V).
Definition set_last_time_iso : string -> WeatherStateV2 -> WeatherStateV2 :=
  ltac:(member_setter last_time_iso).
Definition set_last_rain_mm : D -> WeatherStateV2 -> WeatherStateV2 :=
  ltac:(member_setter last_rain_mm).
Definition set_last_update : Z -> WeatherStateV2 -> WeatherStateV2 :=
  ltac:(member_setter last_update).
Definition set_rain_daily_in : D -> WeatherStateV2 -> WeatherStateV2 :=
  ltac:(member_setter rain_daily_in).
Definition set_rain_monthly_in : D -> WeatherStateV2 -> WeatherStateV2 :=
  ltac:(member_setter rain_monthly_in).
Definition set_rain_yearly_in : D -> WeatherStateV2 -> WeatherStateV2 :=
  ltac:(member_setter rain_yearly_in).
Definition set_rain_weekly_in : D -> WeatherStateV2 -> WeatherStateV2 :=
  ltac:(member_setter rain_weekly_in).
Definition set_rain_hourly_in : D -> WeatherStateV2 -> WeatherStateV2 :=
  ltac:(member_setter rain_hourly_in).
Definition set_rain_event_in : D -> WeatherStateV2 -> WeatherStateV2 :=
  ltac:(member_setter rain_event_in).
Definition set_daily_ymd : Z -> WeatherStateV2 -> WeatherStateV2 :=
  ltac:(member_setter daily_ymd).
Definition set_month_ym : Z -> WeatherStateV2 -> WeatherStateV2 :=
  ltac:(member_setter month_ym).
Definition set_year_y : Z -> WeatherStateV2 -> WeatherStateV2 :=
  ltac:(member_setter year_y).
Definition set_week_start_ymd : Z -> WeatherStateV2 -> WeatherStateV2 :=
  ltac:(member_setter week_start_ymd).
Definition set_historical_total_in : D -> WeatherStateV2 -> WeatherStateV2 :=
  ltac:(member_setter historical_total_in).
Definition set_historical_yearly_in : D -> WeatherStateV2 -> WeatherStateV2 :=
  ltac:(member_setter historical_yearly_in).
Definition set_historical_monthly_in : D -> WeatherStateV2 -> WeatherStateV2 :=
  ltac:(member_setter historical_monthly_in).
Definition set_historical_weekly_in : D -> WeatherStateV2 -> WeatherStateV2 :=
  ltac:(member_setter historical_weekly_in).
Definition set_historical_seeded : bool -> WeatherStateV2 -> WeatherStateV2 :=
  ltac:(member_setter historical_seeded).
Definition set_deltas : (list RainDelta) -> WeatherStateV2 -> WeatherStateV2 :=
  ltac:(member_setter deltas).
Definition set_last_rain_ts : Z -> WeatherStateV2 -> WeatherStateV2 :=
  ltac:(member_setter last_rain_ts).
Definition set_have_temp : bool -> WeatherStateV2 -> WeatherStateV2 :=
  ltac:(member_setter have_temp).
Definition set_temp_high_c : D -> WeatherStateV2 -> WeatherStateV2 :=
  ltac:(member_setter temp_high_c).
Definition set_temp_low_c : D -> WeatherStateV2 -> WeatherStateV2 :=
  ltac:(member_setter temp_low_c).
Definition set_have_hum : bool -> WeatherStateV2 -> WeatherStateV2 :=
  ltac:(member_setter have_hum).
Definition set_hum_high : D -> WeatherStateV2 -> WeatherStateV2 :=
  ltac:(member_setter hum_high).
Definition set_hum_low : D -> WeatherStateV2 -> WeatherStateV2 :=
  ltac:(member_setter hum_low).
Definition set_day_first_ts : Z -> WeatherStateV2 -> WeatherStateV2 :=
  ltac:(member_setter day_first_ts).
Definition set_day_last_ts : Z -> WeatherStateV2 -> WeatherStateV2 :=
  ltac:(member_setter day_last_ts).
Definition set_have_wind : bool -> WeatherStateV2 -> WeatherStateV2 :=
  ltac:(member_setter have_wind).
Definition set_wind_mean_m_s : D -> WeatherStateV2 -> WeatherStateV2 :=
  ltac:(member_setter wind_mean_m_s).
Definition set_wind_max_gust_m_s : D -> WeatherStateV2 -> WeatherStateV2 :=
  ltac:(member_setter wind_max_gust_m_s).
Definition set_wind_sample_count : Z -> WeatherStateV2 -> WeatherStateV2 :=
  ltac:(member_setter wind_sample_count).

(** ** Time helpers *)

Definition ymd_from_time (t : Z) : Z :=
  let lt := localtime_r t in
  (tm_year lt + 1900) * 10000 + (tm_mon lt + 1) * 100 + tm_mday lt.

Definition ym_from_time (t : Z) : Z :=
  let lt := localtime_r t in
  (tm_year lt + 1900) * 100 + (tm_mon lt + 1).

Definition y_from_time (t : Z) : Z :=
  let lt := localtime_r t in
  tm_year lt + 1900.

Definition inches_from_mm (mm : D) : D := (mm / dec 254 1)%D.

Definition day_start_ts (t : Z) : Z :=
  let lt := localtime_r t in
  mktime {| tm_sec := 0; tm_min := 0; tm_hour := 0;
            tm_mday := tm_mday lt; tm_mon := tm_mon lt;
            tm_year := tm_year lt; tm_isdst := tm_isdst lt |}.

(** ** The daily summary store (table [daily_weather])

    [day_ts] is the INTEGER PRIMARY KEY; the five REAL columns are
    nullable ([None] is SQL NULL). *)

Record DailyRow : Type := mk_row {
  day_ts : Z;
  col_temp_high_c : option D;
  col_temp_low_c : option D;
  col_humidity_high : option D;
  col_humidity_low : option D;
  col_rain_in : option D
}.

Definition table : Type := list DailyRow.

(** [sqlite3_bind_double]: SQLite stores a NaN as NULL. *)
Definition sqlite3_bind_double (d : D) : option D :=
  if disnan d then None else Some d.

(** [INSERT OR REPLACE]: the row with the same primary key is deleted. *)
Definition insert_or_replace (r : DailyRow) (tbl : table) : table :=
  r :: filter (fun x => negb (day_ts x =? day_ts r)) tbl.

(** The row bound by [log_daily_to_db]. *)
Definition daily_row (day : Z) (st : WeatherStateV2) (rain_in : D) : DailyRow :=
  {| day_ts := day;
     col_temp_high_c :=
       if have_temp st then sqlite3_bind_double (temp_high_c st) else None;
     col_temp_low_c :=
       if have_temp st then sqlite3_bind_double (temp_low_c st) else None;
     col_humidity_high :=
       if have_hum st then sqlite3_bind_double (hum_high st) else None;
     col_humidity_low :=
       if have_hum st then sqlite3_bind_double (hum_low st) else None;
     col_rain_in := sqlite3_bind_double rain_in |}.

(** [g_db] is [None] when the database could not be opened or prepared:
    [if (!g_db) return;]. *)
Definition log_daily_to_db (db : option table) (day : Z)
    (st : WeatherStateV2) (rain_in : D) : option table :=
  match db with
  | None => None
  | Some tbl => Some (insert_or_replace (daily_row day st rain_in) tbl)
  end.

(** ** State initialization and load/save *)

Definition init_state_defaults (now : Z) : WeatherStateV2 :=
  let st := state_zero in
  let st := set_last_update now st in
  let st := set_daily_ymd (ymd_from_time now) st in
  let st := set_month_ym (ym_from_time now) st in
  let st := set_year_y (y_from_time now) st in
  let st := set_week_start_ymd (daily_ymd st) st in
  set_historical_seeded true st.

(** The contents of the snapshot file: a text that [json::parse] rejects,
    or a text that it parses to [j]. *)
Inductive file_content : Type :=
| FileGarbage
| FileJson (j : json).

(** The object built by [save_state]. *)
Definition snapshot_json (st : WeatherStateV2) : json :=
  JObj [
    ("last_rain_mm", JFloat (last_rain_mm st));
    ("last_update_ts", JInt (last_update st));
    ("rain_daily_in", JFloat (rain_daily_in st));
    ("rain_monthly_in", JFloat (rain_monthly_in st));
    ("rain_yearly_in", JFloat (rain_yearly_in st));
    ("rain_weekly_in", JFloat (rain_weekly_in st));
    ("rain_hourly_in", JFloat (rain_hourly_in st));
    ("rain_event_in", JFloat (rain_event_in st));
    ("daily_ymd", JInt (daily_ymd st));
    ("month_ym", JInt (month_ym st));
    ("year_y", JInt (year_y st));
    ("week_start_ymd", JInt (week_start_ymd st));
    ("historical_total_in", JFloat (historical_total_in st));
    ("historical_yearly_in", JFloat (historical_yearly_in st));
    ("historical_monthly_in", JFloat (historical_monthly_in st));
    ("historical_weekly_in", JFloat (historical_weekly_in st));
    ("historical_seeded", JBool (historical_seeded st));
    ("temp_high_c", JFloat (temp_high_c st));
    ("temp_low_c", JFloat (temp_low_c st));
    ("have_temp", JBool (have_temp st));
    ("hum_high", JFloat (hum_high st));
    ("hum_low", JFloat (hum_low st));
    ("have_hum", JBool (have_hum st));
    ("have_wind", JBool (have_wind st));
    ("wind_mean_m_s", JFloat (wind_mean_m_s st));
    ("wind_max_gust_m_s", JFloat (wind_max_gust_m_s st));
    ("wind_sample_count", JInt (wrap_int64 (wind_sample_count st)));
    ("day_first_ts", JInt (day_first_ts st));
    ("day_last_ts", JInt (day_last_ts st))
  ].

(** [save_state]: the file now holds the text [j.dump(2)]. *)
Definition save_state (st : WeatherStateV2) : file_content :=
  FileJson (json_reparse (snapshot_json st)).

(** [if (j.contains(k)) st.f = j[k].get<T>();] with [None] for a throw. *)
Definition load_member {A} (j : json) (k : string) (get : json -> option A)
    (set : A -> WeatherStateV2 -> WeatherStateV2)
    (st : option WeatherStateV2) : option WeatherStateV2 :=
  match st with
  | None => None
  | Some st =>
      match json_at j k with
      | None => Some st
      | Some v =>
          match get v with
          | Some a => Some (set a st)
          | None => None
          end
      end
  end.

(** The body of the [try] block of [load_state], after [f >> j]. *)
Definition load_members (j : json) (now : Z) : option WeatherStateV2 :=
  let st := Some (init_state_defaults now) in
  let st := load_member j "last_rain_mm" json_get_double set_last_rain_mm st in
  let st := load_member j "last_update_ts" json_get_long_long set_last_update st in
  let st := load_member j "rain_daily_in" json_get_double set_rain_daily_in st in
  let st := load_member j "rain_monthly_in" json_get_double set_rain_monthly_in st in
  let st := load_member j "rain_yearly_in" json_get_double set_rain_yearly_in st in
  let st := load_member j "rain_weekly_in" json_get_double set_rain_weekly_in st in
  let st := load_member j "rain_hourly_in" json_get_double set_rain_hourly_in st in
  let st := load_member j "rain_event_in" json_get_double set_rain_event_in st in
  let st := load_member j "daily_ymd" json_get_int set_daily_ymd st in
  let st := load_member j "month_ym" json_get_int set_month_ym st in
  let st := load_member j "year_y" json_get_int set_year_y st in
  let st := load_member j "week_start_ymd" json_get_int set_week_start_ymd st in
  let st := load_member j "historical_total_in" json_get_double set_historical_total_in st in
  let st := load_member j "historical_yearly_in" json_get_double set_historical_yearly_in st in
  let st := load_member j "historical_monthly_in" json_get_double set_historical_monthly_in st in
  let st := load_member j "historical_weekly_in" json_get_double set_historical_weekly_in st in
  let st := load_member j "historical_seeded" json_get_bool set_historical_seeded st in
  let st := load_member j "temp_high_c" json_get_double set_temp_high_c st in
  let st := load_member j "temp_low_c" json_get_double set_temp_low_c st in
  let st := load_member j "have_temp" json_get_bool set_have_temp st in
  let st := load_member j "hum_high" json_get_double set_hum_high st in
  let st := load_member j "hum_low" json_get_double set_hum_low st in
  let st := load_member j "have_hum" json_get_bool set_have_hum st in
  let st := load_member j "have_wind" json_get_bool set_have_wind st in
  let st := load_member j "wind_mean_m_s" json_get_double set_wind_mean_m_s st in
  let st := load_member j "wind_max_gust_m_s" json_get_double set_wind_max_gust_m_s st in
  let st := load_member j "wind_sample_count" json_get_uint64 set_wind_sample_count st in
  let st := load_member j "day_first_ts" json_get_long_long set_day_first_ts st in
  let st := load_member j "day_last_ts" json_get_long_long set_day_last_ts st in
  st.

(** [load_state]: [file] is [None] when the file cannot be opened. *)
Definition load_state (file : option file_content) (now : Z) : WeatherStateV2 :=
  match file with
  | None => init_state_defaults now
  | Some FileGarbage => init_state_defaults now
  | Some (FileJson j) =>
      match load_members j now with
      | Some st => st
      | None => init_state_defaults now
      end
  end.

(** ** Rain logic *)

(** The loop of [recompute_hourly]: [w] is the prefix [v[0..w)] already
    compacted, [sum] the running sum. *)
Fixpoint hourly_scan (now : Z) (v w : list RainDelta) (sum : D)
    : list RainDelta * D :=
  match v with
  | [] => (w, sum)
  | x :: rest =>
      if now - ts x <=? HOURLY_WINDOW_SEC
      then hourly_scan now rest (w ++ [x]) (sum + inches x)%D
      else hourly_scan now rest w sum
  end.

Definition recompute_hourly (st : WeatherStateV2) (now : Z) : WeatherStateV2 :=
  let r := hourly_scan now (deltas st) [] (d_of_Z 0) in
  let st := set_deltas (fst r) st in
  set_rain_hourly_in (snd r) st.

(** *** [rollover_if_needed] *)

(** Keys that are still zero adopt the current calendar. *)
Definition adopt_keys (st : WeatherStateV2) (now : Z) : WeatherStateV2 :=
  let d := ymd_from_time now in
  let m := ym_from_time now in
  let y := y_from_time now in
  let st := if daily_ymd st =? 0 then set_daily_ymd d st else st in
  let st := if month_ym st =? 0 then set_month_ym m st else st in
  let st := if year_y st =? 0 then set_year_y y st else st in
  if week_start_ymd st =? 0 then set_week_start_ymd d st else st.

(** [ok] of the day rollover: the coverage gate. *)
Definition coverage_ok (st : WeatherStateV2) : bool :=
  negb (day_first_ts st =? 0) && negb (day_last_ts st =? 0)
  && (MIN_COVERAGE_SEC <=? day_last_ts st - day_first_ts st).

Definition prev_day_ts (st : WeatherStateV2) (now : Z) : Z :=
  day_start_ts (if negb (day_first_ts st =? 0) then day_first_ts st
                else now - 86400).

Definition day_fires (st : WeatherStateV2) (now : Z) : bool :=
  negb (ymd_from_time now =? daily_ymd st).

Definition day_rollover (st : WeatherStateV2) (db : option table) (now : Z)
    : WeatherStateV2 * option table :=
  if day_fires st now then
    let db := if coverage_ok st
              then log_daily_to_db db (prev_day_ts st now) st (rain_daily_in st)
              else db in
    let st := set_rain_daily_in (d_of_Z 0) st in
    let st := set_daily_ymd (ymd_from_time now) st in
    let st := set_day_first_ts now st in
    let st := set_day_last_ts now st in
    let st := set_have_temp false st in
    let st := set_have_hum false st in
    let st := set_have_wind false st in
    let st := set_wind_mean_m_s (d_of_Z 0) st in
    let st := set_wind_max_gust_m_s (d_of_Z 0) st in
    let st := set_wind_sample_count 0 st in
    (st, db)
  else (st, db).

Definition month_fires (st : WeatherStateV2) (now : Z) : bool :=
  negb (ym_from_time now =? month_ym st).

Definition month_rollover (st : WeatherStateV2) (now : Z) : WeatherStateV2 :=
  if month_fires st now then
    let st := set_rain_monthly_in (d_of_Z 0) st in
    set_month_ym (ym_from_time now) st
  else st.

Definition year_fires (st : WeatherStateV2) (now : Z) : bool :=
  negb (y_from_time now =? year_y st).

Definition year_rollover (st : WeatherStateV2) (now : Z) : WeatherStateV2 :=
  if year_fires st now then
    let st := set_rain_yearly_in (d_of_Z 0) st in
    set_year_y (y_from_time now) st
  else st.

(** [ws_tm], zero-initialized, with the date of [week_start_ymd]; the
    [int] divisions of C++ truncate. *)
Definition week_start_tm (ymd : Z) : tm :=
  {| tm_sec := 0; tm_min := 0; tm_hour := 0;
     tm_mday := Z.rem ymd 100;
     tm_mon := Z.rem (Z.quot ymd 100) 100 - 1;
     tm_year := Z.quot ymd 10000 - 1900;
     tm_isdst := 0 |}.

(** [difftime(today_ts, ws_ts) >= 7 * 86400]; the difference of two
    time stamps is exact in a [double]. *)
Definition week_fires (st : WeatherStateV2) (now : Z) : bool :=
  let ws_ts := mktime (week_start_tm (week_start_ymd st)) in
  let today_ts := day_start_ts now in
  7 * 86400 <=? today_ts - ws_ts.

Definition week_rollover (st : WeatherStateV2) (now : Z) : WeatherStateV2 :=
  if week_fires st now then
    let st := set_rain_weekly_in (d_of_Z 0) st in
    set_week_start_ymd (ymd_from_time now) st
  else st.

Definition rollover_if_needed (st : WeatherStateV2) (db : option table)
    (now : Z) : WeatherStateV2 * option table :=
  let st := adopt_keys st now in
  let r := day_rollover st db now in
  let st := month_rollover (fst r) now in
  let st := year_rollover st now in
  let st := week_rollover st now in
  (st, snd r).

(** ** Parse WS90 JSON *)

(** The three lambdas of [process_ws90_json_locked]. *)
Definition get_num (j : json) (k : string) (d : D) : D :=
  match json_at j k with
  | Some v =>
      if is_number v
      then match json_get_double v with Some x => x | None => d end
      else d
  | None => d
  end.

Definition get_int (j : json) (k : string) (d : Z) : Z :=
  match json_at j k with
  | Some v =>
      if is_number_integer v
      then match json_get_int v with Some x => x | None => d end
      else d
  | None => d
  end.

Definition get_str (j : json) (k : string) (d : string) : string :=
  match json_at j k with
  | Some v =>
      if is_string v
      then match json_get_string v with Some x => x | None => d end
      else d
  | None => d
  end.

(** Basic WS90 telemetry. *)
Definition store_telemetry (j : json) (st : WeatherStateV2) : WeatherStateV2 :=
  let st := set_battery_mV (get_num j "battery_mV" (d_of_Z 0)) st in
  let st := set_battery_ok (get_num j "battery_ok" (d_of_Z 0)) st in
  let st := set_id_ (get_int j "id" 0) st in
  let st := set_model (get_str j "model" EmptyString) st in
  let st := set_firmware (get_int j "firmware" 0) st in
  let st := set_humidity (get_num j "humidity" (d_of_Z 0)) st in
  let st := set_temperature_C (get_num j "temperature_C" (d_of_Z 0)) st in
  let st := set_wind_dir_deg (get_num j "wind_dir_deg" (d_of_Z 0)) st in
  let st := set_wind_avg_m_s (get_num j "wind_avg_m_s" (d_of_Z 0)) st in
  let st := set_wind_max_m_s (get_num j "wind_max_m_s" (d_of_Z 0)) st in
  let st := set_light_lux (get_num j "light_lux" (d_of_Z 0)) st in
  let st := set_uvi (get_num j "uvi" (d_of_Z 0)) st in
  let st := set_rain_mm (get_num j "rain_mm" (d_of_Z 0)) st in
  let st := set_supercap_V (get_num j "supercap_V" (d_of_Z 0)) st in
  set_last_time_iso (get_str j "time" EmptyString) st.

(** Track coverage of valid WS90 samples for the current day. *)
Definition track_coverage (st : WeatherStateV2) (now : Z) : WeatherStateV2 :=
  let st := if day_first_ts st =? 0 then set_day_first_ts now st else st in
  set_day_last_ts now st.

(** [delta > 0.0001 && delta < 5000]. *)
Definition delta_accepted (delta : D) : bool :=
  (dec 1 4 <? delta)%D && (delta <? d_of_Z 5000)%D.

(** Rain accumulation based on delta. *)
Definition accumulate_rain (st : WeatherStateV2) (rain : D) (now : Z)
    : WeatherStateV2 :=
  let delta := (rain - last_rain_mm st)%D in
  if delta_accepted delta then
    let di := inches_from_mm delta in
    let st := set_rain_daily_in (rain_daily_in st + di)%D st in
    let st := set_rain_monthly_in (rain_monthly_in st + di)%D st in
    let st := set_rain_yearly_in (rain_yearly_in st + di)%D st in
    let st := set_rain_weekly_in (rain_weekly_in st + di)%D st in
    let st := set_deltas (deltas st ++ [mk_delta now di]) st in
    let st := recompute_hourly st now in
    let st := if (last_rain_ts st =? 0)
                 || (EVENT_GAP_MIN * 60 <? now - last_rain_ts st)
              then set_rain_event_in (d_of_Z 0) st else st in
    let st := set_rain_event_in (rain_event_in st + di)%D st in
    set_last_rain_ts now st
  else st.

(** High/low temperature tracking. *)
Definition track_temperature (j : json) (st : WeatherStateV2) : WeatherStateV2 :=
  let tC := get_num j "temperature_C" dnan in
  if negb (disnan tC) then
    if negb (have_temp st) then
      let st := set_temp_high_c tC st in
      let st := set_temp_low_c tC st in
      set_have_temp true st
    else
      let st := set_temp_high_c (dmax (temp_high_c st) tC) st in
      set_temp_low_c (dmin (temp_low_c st) tC) st
  else st.

(** High/low humidity tracking. *)
Definition track_humidity (j : json) (st : WeatherStateV2) : WeatherStateV2 :=
  let h := get_num j "humidity" dnan in
  if negb (disnan h) then
    if negb (have_hum st) then
      let st := set_hum_high h st in
      let st := set_hum_low h st in
      set_have_hum true st
    else
      let st := set_hum_high (dmax (hum_high st) h) st in
      set_hum_low (dmin (hum_low st) h) st
  else st.

(** Daily wind tracking: running mean and maximal gust. *)
Definition track_wind (st : WeatherStateV2) : WeatherStateV2 :=
  if negb (disnan (wind_avg_m_s st)) && negb (disnan (wind_max_m_s st)) then
    if negb (have_wind st) then
      let st := set_have_wind true st in
      let st := set_wind_mean_m_s (wind_avg_m_s st) st in
      let st := set_wind_max_gust_m_s (wind_max_m_s st) st in
      set_wind_sample_count 1 st
    else
      let n := wind_sample_count st in
      let st := set_wind_mean_m_s
                  ((wind_mean_m_s st * d_of_Z n + wind_avg_m_s st)
                   / d_of_Z (wrap_uint64 (n + 1)))%D st in
      let st := set_wind_sample_count (wrap_uint64 (n + 1)) st in
      if (wind_max_gust_m_s st <? wind_max_m_s st)%D
      then set_wind_max_gust_m_s (wind_max_m_s st) st
      else st
  else st.

(** The globals touched by an ingest: the state, the database handle and
    the snapshot file. *)
Record World : Type := mk_world {
  g_state : WeatherStateV2;
  g_db : option table;
  state_file : option file_content
}.

(** [Threw]: a [json::type_error] left the function (the poller catches
    it); the assignments made before it stay. *)
Inductive outcome : Type :=
| Returned
| Threw.

Definition process_ws90_json_locked (w : World) (j : json) (now : Z)
    : World * outcome :=
  let st := store_telemetry j (g_state w) in
  match json_at j "rain_mm" with
  | None =>
      (* !j.contains("rain_mm") *)
      (mk_world (set_last_update now st) (g_db w) (state_file w), Returned)
  | Some v =>
      match json_get_double v with
      | None => (mk_world st (g_db w) (state_file w), Threw)
      | Some rain =>
          if (rain <? d_of_Z 0)%D || (d_of_Z 20000 <? rain)%D then
            (mk_world (set_last_update now st) (g_db w) (state_file w),
             Returned)
          else
            let r := rollover_if_needed st (g_db w) now in
            let st := track_coverage (fst r) now in
            if (last_rain_mm st =? d_of_Z 0)%D then
              (* first valid rain sample since boot / state reset *)
              let st := set_last_rain_mm rain st in
              let st := set_last_update now st in
              (mk_world st (snd r) (Some (save_state st)), Returned)
            else
              let st := accumulate_rain st rain now in
              let st := set_last_rain_mm rain st in
              let st := set_last_update now st in
              let st := track_temperature j st in
              let st := track_humidity j st in
              let st := track_wind st in
              (mk_world st (snd r) (Some (save_state st)), Returned)
      end
  end.

(** ** The current snapshot: the [rain] object of [build_current_json] *)

Definition rain_total_in (st : WeatherStateV2) : D :=
  let total_in := historical_total_in st in
  if (historical_yearly_in st <? rain_yearly_in st)%D
  then (total_in + (rain_yearly_in st - historical_yearly_in st))%D
  else total_in.

Definition build_rain_json (st : WeatherStateV2) : json :=
  JObj [
    ("daily_in", JFloat (rain_daily_in st));
    ("event_in", JFloat (rain_event_in st));
    ("hourly_in", JFloat (rain_hourly_in st));
    ("weekly_in", JFloat (rain_weekly_in st));
    ("monthly_in", JFloat (rain_monthly_in st));
    ("yearly_in", JFloat (rain_yearly_in st));
    ("total_in", JFloat (rain_total_in st))
  ].

(** ** History queries *)

(** The three modes, from the sentinels. *)
Definition mode_simple (days limit offset : Z) : bool :=
  (days <? 0) && (limit <? 0) && (offset <? 0).

Definition mode_time_only (days limit offset : Z) : bool :=
  (0 <=? days) && (limit <? 0) && (offset <? 0).

Definition mode_paged (days limit offset : Z) : bool :=
  negb (mode_simple days limit offset)
  && negb (mode_time_only days limit offset).

(** The prepared statement together with its bound parameters; every
    statement ends in [ORDER BY day_ts]. *)
Inductive Query : Type :=
| SelectAll
| SelectSince (since_ts : Z)                    (* WHERE day_ts >= ?1 *)
| SelectSincePaged (since_ts limit offset : Z)  (* ... LIMIT ?2 OFFSET ?3 *)
| SelectPaged (limit offset : Z).               (* LIMIT ?1 OFFSET ?2 *)

Definition history_query (days limit offset now : Z) : Query :=
  if mode_simple days limit offset then SelectAll
  else if mode_time_only days limit offset then
    if days =? 0 then SelectAll
    else SelectSince (now - days * 86400)
  else
    let use_since := 0 <? days in
    if use_since then SelectSincePaged (now - days * 86400) limit offset
    else SelectPaged limit offset.

(** [ORDER BY day_ts]: ascending. *)
Fixpoint insert_by_day (r : DailyRow) (rows : list DailyRow) : list DailyRow :=
  match rows with
  | [] => [r]
  | x :: rest =>
      if day_ts r <=? day_ts x then r :: rows
      else x :: insert_by_day r rest
  end.

Fixpoint order_by_day_ts (rows : list DailyRow) : list DailyRow :=
  match rows with
  | [] => []
  | r :: rest => insert_by_day r (order_by_day_ts rest)
  end.

(** [WHERE day_ts >= since]. *)
Definition where_since (since_ts : Z) (rows : list DailyRow) : list DailyRow :=
  filter (fun r => since_ts <=? day_ts r) rows.

(** [LIMIT l OFFSET o] of SQLite: a negative limit is no limit, a
    negative offset is zero. *)
Definition limit_offset (limit offset : Z) (rows : list DailyRow)
    : list DailyRow :=
  let rows := skipn (Z.to_nat offset) rows in
  if limit <? 0 then rows else firstn (Z.to_nat limit) rows.

(** The rows stepped through by [sqlite3_step]. *)
Definition run_query (q : Query) (tbl : table) : list DailyRow :=
  match q with
  | SelectAll => order_by_day_ts tbl
  | SelectSince since_ts => order_by_day_ts (where_since since_ts tbl)
  | SelectSincePaged since_ts limit offset =>
      limit_offset limit offset (order_by_day_ts (where_since since_ts tbl))
  | SelectPaged limit offset =>
      limit_offset limit offset (order_by_day_ts tbl)
  end.

Definition history_rows (tbl : table) (days limit offset now : Z)
    : list DailyRow :=
  run_query (history_query days limit offset now) tbl.

(** [NULL ? NAN : sqlite3_column_double]. *)
Definition column_or_nan (c : option D) : D :=
  match c with None => dnan | Some x => x end.

Definition c_to_f (c : D) : D :=
  (c * d_of_Z 9 / d_of_Z 5 + d_of_Z 32)%D.

Definition temperature_row (r : DailyRow) : json :=
  let hi := column_or_nan (col_temp_high_c r) in
  let lo := column_or_nan (col_temp_low_c r) in
  if disnan hi || disnan lo then
    JObj [("day", JInt (day_ts r));
          ("temp_high_F", JNull); ("temp_low_F", JNull)]
  else
    JObj [("day", JInt (day_ts r));
          ("temp_high_F", JFloat (c_to_f hi));
          ("temp_low_F", JFloat (c_to_f lo))].

Definition humidity_row (r : DailyRow) : json :=
  let hi := column_or_nan (col_humidity_high r) in
  let lo := column_or_nan (col_humidity_low r) in
  if disnan hi || disnan lo then
    JObj [("day", JInt (day_ts r));
          ("humidity_high", JNull); ("humidity_low", JNull)]
  else
    JObj [("day", JInt (day_ts r));
          ("humidity_high", JFloat hi); ("humidity_low", JFloat lo)].

(** The loop of [history_rain_json]: a NULL [rain_in] is skipped. *)
Fixpoint rain_rows (rows : list DailyRow) : list json :=
  match rows with
  | [] => []
  | r :: rest =>
      match col_rain_in r with
      | None => rain_rows rest
      | Some x =>
          JObj [("day", JInt (day_ts r)); ("rain_in", JFloat x)]
          :: rain_rows rest
      end
  end.

Definition days_json (rows : list json) : json :=
  JObj [("days", JArr rows)].

Definition history_temperature_json (db : option table)
    (days limit offset now : Z) : json :=
  match db with
  | None => days_json []
  | Some tbl =>
      days_json (map temperature_row (history_rows tbl days limit offset now))
  end.

Definition history_humidity_json (db : option table)
    (days limit offset now : Z) : json :=
  match db with
  | None => days_json []
  | Some tbl =>
      days_json (map humidity_row (history_rows tbl days limit offset now))
  end.

Definition history_rain_json (db : option table)
    (days limit offset now : Z) : json :=
  match db with
  | None => days_json []
  | Some tbl =>
      days_json (rain_rows (history_rows tbl days limit offset now))
  end.

(** ** [api_v2.cpp] *)

Definition DEFAULT_LIMIT : Z := 100.
Definition DEFAULT_OFFSET : Z := 0.
Definition MAX_LIMIT : Z := 365.

(** The GET arguments of a connection, in the order of the request; the
    value is [None] for an argument without [=]. *)
Definition query_args : Type := list (string * option string).

Definition tolower (c : ascii) : ascii :=
  let n := nat_of_ascii c in
  if (65 <=? n)%nat && (n <=? 90)%nat then ascii_of_nat (n + 32) else c.

Fixpoint map_string (f : ascii -> ascii) (s : string) : string :=
  match s with
  | EmptyString => EmptyString
  | String c rest => String (f c) (map_string f rest)
  end.

(** [strcasecmp(a, b) == 0]. *)
Definition strcasecmp_eq (a b : string) : bool :=
  String.eqb (map_string tolower a) (map_string tolower b).

(** [get_query_value_ci], with the iterator [query_arg_ci_iter]. *)
Fixpoint get_query_value_ci (conn : query_args) (name : string)
    : option string :=
  match conn with
  | [] => None
  | (key, None) :: rest => get_query_value_ci rest name
  | (key, Some val) :: rest =>
      if strcasecmp_eq key name then Some val
      else get_query_value_ci rest name
  end.

(** [std::strtol(val, &end, 10)]: [None] when no conversion is performed
    ([end == val]); a value out of range is [LONG_MIN] or [LONG_MAX]. *)
Definition isspace (c : ascii) : bool :=
  let n := nat_of_ascii c in
  (n =? 32)%nat || ((9 <=? n)%nat && (n <=? 13)%nat).

Fixpoint skip_spaces (s : string) : string :=
  match s with
  | String c rest => if isspace c then skip_spaces rest else s
  | EmptyString => s
  end.

Definition digit_value (c : ascii) : option Z :=
  let n := nat_of_ascii c in
  if (48 <=? n)%nat && (n <=? 57)%nat then Some (Z.of_nat n - 48) else None.

Fixpoint read_digits (s : string) (acc : option Z) : option Z :=
  match s with
  | EmptyString => acc
  | String c rest =>
      match digit_value c with
      | Some d =>
          read_digits rest
            (Some (match acc with Some a => a * 10 + d | None => d end))
      | None => acc
      end
  end.

Definition saturate_long (z : Z) : Z :=
  if z <? LONG_MIN then LONG_MIN
  else if LONG_MAX <? z then LONG_MAX else z.

Definition strtol (val : string) : option Z :=
  match skip_spaces val with
  | String "-"%char rest =>
      option_map (fun v => saturate_long (- v)) (read_digits rest None)
  | String "+"%char rest =>
      option_map saturate_long (read_digits rest None)
  | s => option_map saturate_long (read_digits s None)
  end.

Definition get_query_int_ci (conn : query_args) (name : string)
    (default_value min_value max_value : Z) : Z :=
  match get_query_value_ci conn name with
  | None => default_value
  | Some EmptyString => default_value
  | Some val =>
      match strtol val with
      | None => default_value     (* not a number *)
      | Some v =>
          let v := if v <? min_value then min_value else v in
          let v := if max_value <? v then max_value else v in
          wrap_int v
      end
  end.

(** [has_x = (x_raw && *x_raw)]. *)
Definition has_value (conn : query_args) (name : string) : bool :=
  match get_query_value_ci conn name with
  | None => false
  | Some EmptyString => false
  | Some _ => true
  end.

(** The sentinels [(days, limit, offset)] computed by [api_v2::route]. *)
Definition route_params (conn : query_args) : Z * Z * Z :=
  let has_days := has_value conn "days" in
  let has_limit := has_value conn "limit" in
  let has_offset := has_value conn "offset" in
  if negb has_days && negb has_limit && negb has_offset then
    (-1, -1, -1)
  else if has_days && negb has_limit && negb has_offset then
    (get_query_int_ci conn "days" 0 0 3650, -1, -1)
  else
    (get_query_int_ci conn "days" 0 0 3650,
     get_query_int_ci conn "limit" DEFAULT_LIMIT 1 MAX_LIMIT,
     get_query_int_ci conn "offset" DEFAULT_OFFSET 0 1000000).

Definition MHD_HTTP_OK : Z := 200.
Definition MHD_HTTP_NO_CONTENT : Z := 204.
Definition MHD_HTTP_NOT_FOUND : Z := 404.
Definition MHD_HTTP_METHOD_NOT_ALLOWED : Z := 405.

(** The response queued by [reply_json].  [BodyCurrentWeather] stands
    for the text of [state_v2::current_weather_json()]. *)
Inductive response_body : Type :=
| BodyText (s : string)
| BodyJson (j : json)
| BodyCurrentWeather.

Record Response : Type := mk_response {
  status : Z;
  body : response_body
}.

Definition reply_json (b : response_body) (st : Z) : Response :=
  mk_response st b.

(** The literal body [{ error : msg }]. *)
Definition error_body (msg : string) : response_body :=
  BodyJson (JObj [("error", JStr msg)]).

Definition route (db : option table) (conn : query_args)
    (url method : string) (now : Z) : Response :=
  if String.eqb method "OPTIONS" then
    reply_json (BodyText EmptyString) MHD_HTTP_NO_CONTENT
  else if negb (String.eqb method "GET") then
    reply_json (error_body "method not allowed")
      MHD_HTTP_METHOD_NOT_ALLOWED
  else
    let '(days, limit, offset) := route_params conn in
    if String.eqb url "/api/v2/weather" then
      reply_json BodyCurrentWeather MHD_HTTP_OK
    else if String.eqb url "/api/v2/history/temperature" then
      reply_json (BodyJson (history_temperature_json db days limit offset now))
        MHD_HTTP_OK
    else if String.eqb url "/api/v2/history/humidity" then
      reply_json (BodyJson (history_humidity_json db days limit offset now))
        MHD_HTTP_OK
    else if String.eqb url "/api/v2/history/rain" then
      reply_json (BodyJson (history_rain_json db days limit offset now))
        MHD_HTTP_OK
    else
      reply_json (error_body "unknown endpoint")
        MHD_HTTP_NOT_FOUND.

End Model.

(** ** Observations of a state

    The groups of members that the properties below speak about. *)

Section Observations.

Context {D : Type}.

(** The six horizon accumulators. *)
Definition accumulators (st : WeatherStateV2 (D:=D)) : D * D * D * D * D * D :=
  (rain_daily_in st, rain_monthly_in st, rain_yearly_in st,
   rain_weekly_in st, rain_hourly_in st, rain_event_in st).

Definition calendar_keys (st : WeatherStateV2 (D:=D)) : Z * Z * Z * Z :=
  (daily_ymd st, month_ym st, year_y st, week_start_ymd st).

Definition coverage (st : WeatherStateV2 (D:=D)) : Z * Z :=
  (day_first_ts st, day_last_ts st).

Definition temp_extremes (st : WeatherStateV2 (D:=D)) : bool * D * D :=
  (have_temp st, temp_high_c st, temp_low_c st).

Definition hum_extremes (st : WeatherStateV2 (D:=D)) : bool * D * D :=
  (have_hum st, hum_high st, hum_low st).

Definition wind_tracking (st : WeatherStateV2 (D:=D)) : bool * D * D * Z :=
  (have_wind st, wind_mean_m_s st, wind_max_gust_m_s st, wind_sample_count st).

(** The members that, among the rollover checks, only the day rollover
    may change. *)
Definition day_scope (st : WeatherStateV2 (D:=D)) :=
  (last_rain_mm st, deltas st, temp_extremes st, hum_extremes st,
   wind_tracking st, coverage st).

(** Everything that is not instantaneous telemetry or [last_update]. *)
Definition aggregation (st : WeatherStateV2 (D:=D)) :=
  (last_rain_mm st, accumulators st, deltas st, last_rain_ts st,
   calendar_keys st, coverage st,
   (historical_total_in st, historical_yearly_in st,
    historical_monthly_in st, historical_weekly_in st, historical_seeded st),
   temp_extremes st, hum_extremes st, wind_tracking st).

End Observations.

(** ** Concrete runs: IEEE doubles, UTC calendar *)

Module Run.

Definition state0 (now : Z) : WeatherStateV2 (D:=float) :=
  init_state_defaults (LC:=Libc_utc) now.

Definition sample (rain temp : Z) : json (D:=float) :=
  JObj [("rain_mm", JInt rain); ("temperature_C", JInt temp);
        ("humidity", JInt 50)].

Definition ingest (w : World (D:=float)) (j : json) (now : Z) : World :=
  fst (process_ws90_json_locked (LC:=Libc_utc) w j now).

(** One sample per minute, the gauge advancing by 1 mm each time:
    sample [k] arrives at [t0 + 60 * k] and reads [r0 + k]. *)
Fixpoint rain_per_minute (w : World (D:=float)) (t0 r0 : Z) (k : Z) (n : nat)
    : World :=
  match n with
  | O => w
  | S n' =>
      rain_per_minute (ingest w (sample (r0 + k) 20) (t0 + 60 * k))
        t0 r0 (k + 1) n'
  end.

(** 2024-01-01 10:00:00 UTC. *)
Definition t_morning : Z := 1704103200.

(** A station that has already seen the gauge at 100 mm. *)
Definition seeded_world : World (D:=float) :=
  ingest (mk_world (state0 t_morning) (Some []) None) (sample 100 20) t_morning.

End Run.

(** New Year's Day 2024, 00:00:00 UTC. *)
Definition t_new_year : Z := 1704067200.

(** A state whose four calendar keys are chosen so that, at
    [t_new_year], exactly the selected checks fire. *)
Definition keys_for {D} `{Double D} (day month year week : bool)
    : WeatherStateV2 (D:=D) :=
  let st := state_zero in
  let st := set_daily_ymd (if day then 20231231 else 20240101) st in
  let st := set_month_ym (if month then 202312 else 202401) st in
  let st := set_year_y (if year then 2023 else 2024) st in
  set_week_start_ymd (if week then 20231225 else 20231231) st.

(** ** Coverage time stamps

    [day_first_ts] and [day_last_ts] use 0 for "not recorded".  Every
    state that the program builds from its defaults has a first time
    stamp that is not negative, and no last time stamp without a first
    one. *)
Definition coverage_inv {D} (st : WeatherStateV2 (D:=D)) : Prop :=
  0 <= day_first_ts st /\ (day_first_ts st = 0 -> day_last_ts st = 0).

(** The last day of 2023 as the station saw it: samples from 01:00 to
    23:00 UTC, half an inch of rain, temperatures but no humidity. *)
Definition new_years_eve : WeatherStateV2 (D:=float) :=
  let st := keys_for true true true false in
  let st := set_day_first_ts (t_new_year - 23 * 3600) st in
  let st := set_day_last_ts (t_new_year - 3600) st in
  let st := set_rain_daily_in (dec 5 1) st in
  let st := set_have_temp true st in
  let st := set_temp_high_c (d_of_Z 12) st in
  set_temp_low_c (d_of_Z 3) st.

(** ** The hourly window *)

(** The sum of a delta sequence, added up from the front as
    [recompute_hourly] does. *)
Definition sum_inches {D} `{Double D} (v : list (RainDelta (D:=D))) : D :=
  fold_left (fun s x => (s + inches x)%D) v (d_of_Z 0).

Definition in_window {D} (now : Z) (x : RainDelta (D:=D)) : bool :=
  now - ts x <=? HOURLY_WINDOW_SEC.

(** At time [now], the stored deltas are at most an hour old and
    [rain_hourly_in] is their sum. *)
Definition hourly_invariant {D} `{Double D}
    (st : WeatherStateV2 (D:=D)) (now : Z) : Prop :=
  Forall (fun x => now - ts x <= HOURLY_WINDOW_SEC) (deltas st)
  /\ rain_hourly_in st = sum_inches (deltas st).

(** ** Order of the result rows *)

Definition day_le {D} (r1 r2 : DailyRow (D:=D)) : Prop :=
  day_ts r1 <= day_ts r2.

(** The three history endpoints. *)
Definition history_urls : list string :=
  ["/api/v2/history/temperature"; "/api/v2/history/humidity";
   "/api/v2/history/rain"].


(** ** What the snapshot file keeps *)

(** The members written by [save_state]; the telemetry members, the
    delta sequence and [last_rain_ts] are not among them and come back as
    in [WeatherStateV2{}]. *)
Definition persisted {D} `{Double D} (st : WeatherStateV2 (D:=D))
    : WeatherStateV2 (D:=D) :=
  {| battery_mV := d_of_Z 0; battery_ok := d_of_Z 0;
     id_ := 0; model := EmptyString; firmware := 0;
     humidity := d_of_Z 0; temperature_C := d_of_Z 0;
     wind_dir_deg := d_of_Z 0; wind_avg_m_s := d_of_Z 0;
     wind_max_m_s := d_of_Z 0;
     light_lux := d_of_Z 0; uvi := d_of_Z 0; rain_mm := d_of_Z 0;
     supercap_V := d_of_Z 0; last_time_iso := EmptyString;
     last_rain_mm := last_rain_mm st; last_update := last_update st;
     rain_daily_in := rain_daily_in st; rain_monthly_in := rain_monthly_in st;
     rain_yearly_in := rain_yearly_in st; rain_weekly_in := rain_weekly_in st;
     rain_hourly_in := rain_hourly_in st; rain_event_in := rain_event_in st;
     daily_ymd := daily_ymd st; month_ym := month_ym st;
     year_y := year_y st; week_start_ymd := week_start_ymd st;
     historical_total_in := historical_total_in st;
     historical_yearly_in := historical_yearly_in st;
     historical_monthly_in := historical_monthly_in st;
     historical_weekly_in := historical_weekly_in st;
     historical_seeded := historical_seeded st;
     deltas := []; last_rain_ts := 0;
     have_temp := have_temp st; temp_high_c := temp_high_c st;
     temp_low_c := temp_low_c st;
     have_hum := have_hum st; hum_high := hum_high st; hum_low := hum_low st;
     day_first_ts := day_first_ts st; day_last_ts := day_last_ts st;
     have_wind := have_wind st; wind_mean_m_s := wind_mean_m_s st;
     wind_max_gust_m_s := wind_max_gust_m_s st;
     wind_sample_count := wind_sample_count st |}.

(** The persisted doubles of a state. *)
Definition persisted_doubles {D} (st : WeatherStateV2 (D:=D)) : list D :=
  [last_rain_mm st; rain_daily_in st; rain_monthly_in st; rain_yearly_in st;
   rain_weekly_in st; rain_hourly_in st; rain_event_in st;
   historical_total_in st; historical_yearly_in st;
   historical_monthly_in st; historical_weekly_in st;
   temp_high_c st; temp_low_c st; hum_high st; hum_low st;
   wind_mean_m_s st; wind_max_gust_m_s st].

(** The integer members have the range of their C++ type, and every
    persisted double is finite. *)
Definition snapshot_ok {D} `{Double D} (st : WeatherStateV2 (D:=D)) : Prop :=
  Forall (fun z => INT_MIN <= z <= INT_MAX)
    [daily_ymd st; month_ym st; year_y st; week_start_ymd st]
  /\ Forall (fun z => LONG_MIN <= z <= LONG_MAX)
       [last_update st; day_first_ts st; day_last_ts st]
  /\ 0 <= wind_sample_count st < 2 ^ 64
  /\ Forall (fun d => disfinite d = true) (persisted_doubles st).

(** ** Statements that are refuted below *)

Section AsStated.

Context {D : Type} {DD : Double D} {LC : Libc}.

(** The accumulation rule without the seeding exception: every in-range
    reading whose delta lies in the window is added. *)
Definition accumulates_every_in_range_delta
    (w : World (D:=D)) (j : json) (now : Z) : Prop :=
  forall v rain,
    json_at j "rain_mm" = Some v ->
    json_get_double v = Some rain ->
    (rain <? d_of_Z 0)%D = false ->
    (d_of_Z 20000 <? rain)%D = false ->
    let st := g_state w in
    let st1 := fst (rollover_if_needed (store_telemetry j st) (g_db w) now) in
    let st' := g_state (fst (process_ws90_json_locked w j now)) in
    let delta := (rain - last_rain_mm st)%D in
    let di := inches_from_mm delta in
    last_rain_mm st' = rain
    /\ (delta_accepted delta = true ->
        rain_daily_in st' = (rain_daily_in st1 + di)%D
        /\ rain_monthly_in st' = (rain_monthly_in st1 + di)%D
        /\ rain_yearly_in st' = (rain_yearly_in st1 + di)%D
        /\ rain_weekly_in st' = (rain_weekly_in st1 + di)%D)
    /\ (delta_accepted delta = false ->
        accumulators st' = accumulators st1).

(** Reading the snapshot file back gives the aggregation state that
    was in memory. *)
Definition snapshot_restores_aggregation (w : World (D:=D)) (now : Z) : Prop :=
  aggregation (load_state (state_file w) now) = aggregation (g_state w).

End AsStated.

(** ** Sample requests and tables *)

Definition row_of_day (day : Z) : DailyRow (D:=float) :=
  {| day_ts := day;
     col_temp_high_c := Some (d_of_Z 12); col_temp_low_c := Some (d_of_Z 3);
     col_humidity_high := Some (d_of_Z 80); col_humidity_low := Some (d_of_Z 40);
     col_rain_in := Some (dec 5 1) |}.

(** Two stored days, one and ten days before [t_new_year]. *)
Definition two_days : table (D:=float) :=
  [row_of_day (t_new_year - 86400); row_of_day (t_new_year - 10 * 86400)].

(** [?days=7&limit=1&offset=0]. *)
Definition week_page : query_args :=
  [("days", Some "7"); ("limit", Some "1"); ("offset", Some "0")].

(** [?DAYS=99999&limit=abc&offset=-5]. *)
Definition wild_args : query_args :=
  [("DAYS", Some "99999"); ("limit", Some "abc"); ("offset", Some "-5")].

(** ** Further observations of a state *)

Section MoreObservations.

Context {D : Type}.

(** Event accounting: the event total and the time of the last rain. *)
Definition event_accounting (st : WeatherStateV2 (D:=D)) : D * Z :=
  (rain_event_in st, last_rain_ts st).

(** What the trackers read besides the payload: the rain bookkeeping
    does not touch these. *)
Definition tracker_view (st : WeatherStateV2 (D:=D)) :=
  (temp_extremes st, hum_extremes st, wind_tracking st,
   wind_avg_m_s st, wind_max_m_s st, calendar_keys st).

End MoreObservations.

(** The event total after an accepted delta [di] at [now]: the event
    starts afresh when there was no rain event before or the last rain is
    more than [EVENT_GAP_MIN] minutes old. *)
Definition event_after {D} `{Double D} (st : WeatherStateV2 (D:=D))
    (di : D) (now : Z) : D :=
  dadd (if (last_rain_ts st =? 0)
             || (EVENT_GAP_MIN * 60 <? now - last_rain_ts st)
        then d_of_Z 0 else rain_event_in st) di.

(** High and low after one more observation [x]. *)
Definition widen {D} `{Double D} (e : bool * D * D) (x : D) : bool * D * D :=
  let '(have, high, low) := e in
  if disnan x then e
  else if have then (true, dmax high x, dmin low x)
  else (true, x, x).

(** Mean, maximal gust and count after one more wind sample. *)
Definition wind_after {D} `{Double D} (t : bool * D * D * Z) (avg gust : D)
    : bool * D * D * Z :=
  let '(have, mean, max_gust, n) := t in
  if disnan avg || disnan gust then t
  else if have then
    (true, ddiv (dadd (dmul mean (d_of_Z n)) avg) (d_of_Z (wrap_uint64 (n + 1))),
     (if dltb max_gust gust then gust else max_gust), wrap_uint64 (n + 1))
  else (true, avg, gust, 1).

(** ** Concrete runs in exact arithmetic *)

Module RunExact.

(** A state that has seen the gauge at 100 mm, on 2024-01-01 (UTC). *)
Definition seeded_state : WeatherStateV2 (D:=exact) :=
  set_last_rain_mm (d_of_Z 100) (init_state_defaults (LC:=Libc_utc) t_new_year).

Definition seeded_world : World (D:=exact) :=
  mk_world seeded_state (Some []) None.

(** A sample with rain, temperature, humidity and wind. *)
Definition sample (rain temp hum : Z) : json (D:=exact) :=
  JObj [("rain_mm", JInt rain); ("temperature_C", JInt temp);
        ("humidity", JInt hum);
        ("wind_avg_m_s", JInt 3); ("wind_max_m_s", JInt 5)].

(** A sample that carries the rain gauge only. *)
Definition rain_only (rain : Z) : json (D:=exact) :=
  JObj [("rain_mm", JInt rain)].

End RunExact.

(** ** The members of the snapshot file *)

(** The C++ type that [load_state] asks of a member. *)
Inductive member_type : Type :=
| TDouble | TInt | TLongLong | TUInt64 | TBool.

(** [get<T>()] does not throw on [v]. *)
Definition readable {D} `{Double D} (ty : member_type) (v : json (D:=D)) : bool :=
  match ty with
  | TDouble => match json_get_double v with Some _ => true | None => false end
  | TInt => match json_get_int v with Some _ => true | None => false end
  | TLongLong =>
      match json_get_long_long v with Some _ => true | None => false end
  | TUInt64 => match json_get_uint64 v with Some _ => true | None => false end
  | TBool => match json_get_bool v with Some _ => true | None => false end
  end.

(** The members read by [load_state], in its order. *)
Definition snapshot_members : list (string * member_type) :=
  [("last_rain_mm", TDouble); ("last_update_ts", TLongLong);
   ("rain_daily_in", TDouble); ("rain_monthly_in", TDouble);
   ("rain_yearly_in", TDouble); ("rain_weekly_in", TDouble);
   ("rain_hourly_in", TDouble); ("rain_event_in", TDouble);
   ("daily_ymd", TInt); ("month_ym", TInt); ("year_y", TInt);
   ("week_start_ymd", TInt);
   ("historical_total_in", TDouble); ("historical_yearly_in", TDouble);
   ("historical_monthly_in", TDouble); ("historical_weekly_in", TDouble);
   ("historical_seeded", TBool);
   ("temp_high_c", TDouble); ("temp_low_c", TDouble); ("have_temp", TBool);
   ("hum_high", TDouble); ("hum_low", TDouble); ("have_hum", TBool);
   ("have_wind", TBool);
   ("wind_mean_m_s", TDouble); ("wind_max_gust_m_s", TDouble);
   ("wind_sample_count", TUInt64);
   ("day_first_ts", TLongLong); ("day_last_ts", TLongLong)].

(** ** Query arguments up to the case of their names *)

Definition same_arguments (conn conn' : query_args) : Prop :=
  Forall2 (fun a b => strcasecmp_eq (fst a) (fst b) = true /\ snd a = snd b)
    conn conn'.

(** ** More sample data *)

(** New Year's Eve with the store holding [two_days]: the rollover at
    [t_new_year] replaces the row of the elapsed day. *)
Definition eve_world : World (D:=float) :=
  mk_world new_years_eve (Some two_days) None.

(** A snapshot file with a number where [have_temp] expects a boolean. *)
Definition mistyped_snapshot : json (D:=float) :=
  JObj [("rain_yearly_in", JInt 12); ("have_temp", JInt 1)].

(** Two snapshot files that differ in a member unknown to [load_state]. *)
Definition plain_snapshot : json (D:=float) :=
  JObj [("rain_yearly_in", JInt 12)].

Definition annotated_snapshot : json (D:=float) :=
  JObj [("comment", JStr "backup"); ("rain_yearly_in", JInt 12)].

(** [wild_args] with the names in lower case. *)
Definition wild_args_lower : query_args :=
  [("days", Some "99999"); ("limit", Some "abc"); ("offset", Some "-5")].

(** Two deltas, at 0 s and at 3000 s. *)
Definition two_deltas : WeatherStateV2 (D:=float) :=
  set_deltas [mk_delta 0 (d_of_Z 1); mk_delta 3000 (d_of_Z 2)] state_zero.

From Stdlib Require DecimalString DecimalPos Floats.FloatAxioms.

(** ** The poller of [state_v2.cpp] *)

Definition MAX_BODY_SIZE : Z := 8192.

(** [MemChunk]: the bytes [data[0..size)].  [curl_write_cb] is called
    with [size * nmemb] bytes at [contents]; [alloc_ok] tells whether
    [realloc] succeeds.  The result is the returned count and the chunk.
    The subtraction is the one of [size_t]. *)
Definition curl_write_cb (alloc_ok : bool) (contents : list Byte.byte)
    (m : list Byte.byte) : Z * list Byte.byte :=
  let size := Z.of_nat (List.length m) in
  let realsize := Z.of_nat (List.length contents) in
  let realsize :=
    if MAX_BODY_SIZE - 1 <=? size + realsize
    then wrap_uint64 (MAX_BODY_SIZE - 1 - size) else realsize in
  if realsize =? 0 then (0, m)
  else if negb alloc_ok then (0, m)
  else (realsize, m ++ firstn (Z.to_nat realsize) contents).

(** The calls that libcurl makes for one transfer, each with the outcome
    of [realloc], starting from the empty chunk. *)
Fixpoint receive (calls : list (bool * list Byte.byte)) (m : list Byte.byte)
    : list Byte.byte :=
  match calls with
  | [] => m
  | (alloc_ok, contents) :: rest =>
      receive rest (snd (curl_write_cb alloc_ok contents m))
  end.

(** [std::to_string(long)]. *)
Definition to_string (z : Z) : string :=
  DecimalString.NilZero.string_of_int (Z.to_int z).

Section Poller.

Context {D : Type} {DD : Double D} {LC : Libc}.

(** The globals [g_ws90_*] and [g_rtlsdr_ok]. *)
Record Health : Type := mk_health {
  g_ws90_http_ok : bool;
  g_rtlsdr_ok : bool;
  g_ws90_last_poll : Z;
  g_ws90_http_status : Z;
  g_ws90_error_code : string;
  g_ws90_error_msg : string
}.

Definition health_at_start : Health :=
  mk_health false false 0 0 EmptyString EmptyString.

(** What [curl_easy_perform] leaves: an error with the text of
    [curl_easy_strerror], or the response code and the chunk.  The chunk
    is [None] when [chunk.size] is 0, and otherwise the text, which
    [json::parse] rejects or parses to a value. *)
Inductive transfer : Type :=
| CurlError (strerror : string)
| CurlOk (http_code : Z) (chunk : option (file_content (D:=D))).

Record Backend : Type := mk_backend {
  world : World (D:=D);
  health : Health
}.

(** [ej.contains(k) && ej[k].is_string()] ? [ej[k].get<std::string>()]. *)
Definition string_member (ej : json (D:=D)) (k : string) : string :=
  match json_at ej k with
  | Some (JStr s) => s
  | _ => EmptyString
  end.

(** One turn of the loop of [poller_thread_func], under [g_lock]: [now]
    is the time read after the transfer, [now_ingest] the one read by
    [process_ws90_json_locked]. *)
Definition poll_once (b : Backend) (t : transfer) (now now_ingest : Z)
    : Backend :=
  match t with
  | CurlError strerror =>
      (* transport-level failure *)
      mk_backend (world b)
        (mk_health false false now 0 "curl_error" strerror)
  | CurlOk http_code chunk =>
      match (if http_code =? 200 then chunk else None) with
      | Some body =>
          (* normal good sample *)
          match body with
          | FileJson j =>
              let r := process_ws90_json_locked (world b) j now_ingest in
              match snd r with
              | Returned =>
                  mk_backend (fst r)
                    (mk_health true true now http_code EmptyString EmptyString)
              | Threw =>
                  mk_backend (fst r)
                    (mk_health true false now http_code "parse_error"
                       "invalid JSON from ws90")
              end
          | FileGarbage =>
              mk_backend (world b)
                (mk_health true false now http_code "parse_error"
                   "invalid JSON from ws90")
          end
      | None =>
          (* HTTP error from ws90 *)
          let err_code :=
            match chunk with
            | Some (FileJson ej) => string_member ej "error"
            | _ => EmptyString
            end in
          let err_msg :=
            match chunk with
            | Some (FileJson ej) => string_member ej "message"
            | Some FileGarbage => "non-200 from ws90 with non-JSON body"
            | None => EmptyString
            end in
          mk_backend (world b)
            (mk_health (negb (http_code =? 0)) false now http_code
               (if String.eqb err_code EmptyString
                then ("http_" ++ to_string http_code)%string
                else err_code)
               err_msg)
      end
  end.

(** ** [build_current_json] *)

(** [x * 2.2369]. *)
Definition mph (x : D) : D := (x * dec 22369 4)%D.

Definition build_daily_json (st : WeatherStateV2 (D:=D)) : json (D:=D) :=
  JObj [
    ("temp_high_F",
     if have_temp st then JFloat (c_to_f (temp_high_c st)) else JNull);
    ("temp_low_F",
     if have_temp st then JFloat (c_to_f (temp_low_c st)) else JNull);
    ("humidity_high", if have_hum st then JFloat (hum_high st) else JNull);
    ("humidity_low", if have_hum st then JFloat (hum_low st) else JNull);
    ("wind_mean_mph",
     if have_wind st then JFloat (mph (wind_mean_m_s st)) else JNull);
    ("wind_gust_max_mph",
     if have_wind st then JFloat (mph (wind_max_gust_m_s st)) else JNull);
    ("meaningful", JBool (have_temp st || have_hum st || have_wind st))
  ].

(** [age]: [(int)(now - last_update)], or -1 without an update. *)
Definition age_sec (st : WeatherStateV2 (D:=D)) (now : Z) : Z :=
  if last_update st =? 0 then -1 else wrap_int (now - last_update st).

Definition is_stale (st : WeatherStateV2 (D:=D)) (now : Z) : bool :=
  negb (last_update st =? 0) && (60 <? age_sec st now).

Definition build_ws90_status (st : WeatherStateV2 (D:=D)) (h : Health)
    (now : Z) : json (D:=D) :=
  JObj ([("http_ok", JBool (g_ws90_http_ok h));
         ("rtlsdr_ok", JBool (g_rtlsdr_ok h));
         ("last_poll_ts", JInt (g_ws90_last_poll h));
         ("last_update_ts", JInt (last_update st));
         ("age_sec", JInt (age_sec st now));
         ("stale", JBool (is_stale st now));
         ("http_status", JInt (g_ws90_http_status h))]
        ++ (if String.eqb (g_ws90_error_code h) EmptyString then []
            else [("error", JStr (g_ws90_error_code h))])
        ++ (if String.eqb (g_ws90_error_msg h) EmptyString then []
            else [("error_message", JStr (g_ws90_error_msg h))])).

(** [astro] is the value of [compute_solar_and_moon] at the time of the
    call. *)
Definition build_current_json (st : WeatherStateV2 (D:=D)) (h : Health)
    (astro : json (D:=D)) (now : Z) : json (D:=D) :=
  JObj [
    ("api_version", JStr "2.1.0");
    ("battery_mV", JFloat (battery_mV st));
    ("battery_ok", JFloat (battery_ok st));
    ("id", JInt (id_ st));
    ("model", JStr (model st));
    ("firmware", JInt (firmware st));
    ("humidity", JFloat (humidity st));
    ("temperature_F", JFloat (c_to_f (temperature_C st)));
    ("wind_dir_deg", JFloat (wind_dir_deg st));
    ("wind_avg_m_s", JFloat (wind_avg_m_s st));
    ("wind_max_m_s", JFloat (wind_max_m_s st));
    ("light_lux", JFloat (light_lux st));
    ("uvi", JFloat (uvi st));
    ("supercap_V", JFloat (supercap_V st));
    ("time", JStr (last_time_iso st));
    ("astro", astro);
    ("rain", build_rain_json st);
    ("daily", build_daily_json st);
    ("ws90_status", build_ws90_status st h now)
  ].

End Poller.

(** ** [config.cpp] *)

Section Configuration.

Context {D : Type} {DD : Double D}.

Record Config : Type := mk_config {
  latitude : D;
  longitude : D;
  tz_offset : Z;
  tz_name : string;
  loaded : bool
}.

(** [Config g_cfg;] *)
Definition config_at_start : Config :=
  mk_config (d_of_Z 0) (d_of_Z 0) 0 EmptyString false.

(** [j.value(key, default_value)]: the member converted by [get], the
    default when the object has no such member, [None] for a thrown
    [json::type_error] (no object, or a member of another type). *)
Definition json_value {A} (j : json (D:=D)) (k : string)
    (get : json (D:=D) -> option A) (default_value : A) : option A :=
  match j with
  | JObj m =>
      match assoc_find k m with
      | Some v => get v
      | None => Some default_value
      end
  | _ => None
  end.

(** [load_config]: [file] is [None] when [utils::read_file] fails; the
    assignments made before an exception stay. *)
Definition load_config (file : option (file_content (D:=D))) (cfg : Config)
    : Config * bool :=
  let failed (c : Config) :=
    (mk_config (latitude c) (longitude c) (tz_offset c) (tz_name c) false,
     false) in
  match file with
  | None => failed cfg
  | Some FileGarbage => failed cfg
  | Some (FileJson j) =>
      match json_value j "latitude" json_get_double (d_of_Z 0) with
      | None => failed cfg
      | Some lat =>
          let cfg := mk_config lat (longitude cfg) (tz_offset cfg)
                       (tz_name cfg) (loaded cfg) in
          match json_value j "longitude" json_get_double (d_of_Z 0) with
          | None => failed cfg
          | Some lon =>
              let cfg := mk_config (latitude cfg) lon (tz_offset cfg)
                           (tz_name cfg) (loaded cfg) in
              match json_value j "tz_offset" json_get_int 0 with
              | None => failed cfg
              | Some off =>
                  let cfg := mk_config (latitude cfg) (longitude cfg) off
                               (tz_name cfg) (loaded cfg) in
                  match json_value j "tz_name" json_get_string "UTC" with
                  | None => failed cfg
                  | Some name =>
                      (mk_config (latitude cfg) (longitude cfg)
                         (tz_offset cfg) name true, true)
                  end
              end
          end
      end
  end.

(** ** The feeders *)

(** The text served at [/api/v2/weather], as a feeder parses it. *)
Definition served_weather (st : WeatherStateV2 (D:=D)) (h : Health)
    (astro : json (D:=D)) (now : Z) : json (D:=D) :=
  json_reparse (build_current_json st h astro now).

(** [!s.value("http_ok", false) || !s.value("rtlsdr_ok", false)
    || s.value("stale", true)], evaluated from the left; [None] for a
    thrown [json::type_error]. *)
Definition status_unhealthy (s : json (D:=D)) : option bool :=
  match json_value s "http_ok" json_get_bool false with
  | None => None
  | Some false => Some true
  | Some true =>
      match json_value s "rtlsdr_ok" json_get_bool false with
      | None => None
      | Some false => Some true
      | Some true => json_value s "stale" json_get_bool true
      end
  end.

(** The checks at the head of [build_wu_url] of [feeder_wu.cpp]:
    [Some false] when the function returns false there, [Some true] when
    it goes on to build the URL, [None] when an exception leaves it. *)
Definition wu_checks (j : json (D:=D)) : option bool :=
  if negb (contains j "temperature_F") || negb (contains j "humidity")
  then Some false
  else
    match json_at j "ws90_status" with
    | Some s => option_map negb (status_unhealthy s)
    | None => Some true
    end.

(** The checks at the head of [build_windy_url] of [feeder_windy.cpp],
    up to the test of the temperature. *)
Definition windy_checks (j : json (D:=D)) : option bool :=
  if negb (contains j "temperature_F") || negb (contains j "humidity")
  then Some false
  else
    let health :=
      match json_at j "ws90_status" with
      | Some (JObj m) => option_map negb (status_unhealthy (JObj m))
      | _ => Some true
      end in
    match health with
    | None => None
    | Some false => Some false
    | Some true =>
        match json_value j "temperature_F" json_get_double dnan with
        | None => None
        | Some tempF => Some (negb (disnan tempF))
        end
    end.

End Configuration.

(** ** The lifetime total of the current snapshot *)

(** [out["rain"]["total_in"]] of [build_current_json]. *)
Definition served_total_in {D} `{Double D} (st : WeatherStateV2 (D:=D))
    (h : Health) (astro : json (D:=D)) (now : Z) : option (json (D:=D)) :=
  match json_at (build_current_json st h astro now) "rain" with
  | Some rain => json_at rain "total_in"
  | None => None
  end.

(** [out["rain"]["hourly_in"]] of [build_current_json]. *)
Definition served_hourly_in {D} `{Double D} (st : WeatherStateV2 (D:=D))
    (h : Health) (astro : json (D:=D)) (now : Z) : option (json (D:=D)) :=
  match json_at (build_current_json st h astro now) "rain" with
  | Some rain => json_at rain "hourly_in"
  | None => None
  end.

(** The lifetime total as a formula: [historical_total_in] plus
    [max(0, yearly - historical_yearly_in)], the total being
    [historical_total_in] exactly when the yearly total does not exceed
    the baseline. *)
Definition lifetime_total_by_formula {D} `{Double D}
    (st : WeatherStateV2 (D:=D)) : Prop :=
  forall h astro now,
    served_total_in st h astro now
    = Some (JFloat (historical_total_in st
                    + dmax (d_of_Z 0)
                        (rain_yearly_in st - historical_yearly_in st))%D)
    /\ (served_total_in st h astro now
        = Some (JFloat (historical_total_in st))
        <-> (historical_yearly_in st <? rain_yearly_in st)%D = false).

(** A snapshot file whose lifetime baseline is the negative zero. *)
Definition negative_zero_baseline : json (D:=float) :=
  JObj [("historical_total_in", JFloat PrimFloat.neg_zero);
        ("historical_yearly_in", JUInt 0)].

(** A snapshot file whose lifetime baseline is 2^53 inches, with one
    inch of rain this year. *)
Definition huge_baseline : json (D:=float) :=
  JObj [("historical_total_in", JUInt 9007199254740992);
        ("historical_yearly_in", JUInt 0);
        ("rain_yearly_in", JUInt 1)].

(** ** Query parameters, as the spec words them *)

(** The value of a parameter that is clamped on parse: the default for a
    missing, empty or unparseable value, and otherwise the number brought
    into [[lo, hi]]. *)
Definition clamped_parameter (conn : query_args) (name : string)
    (def lo hi : Z) : Z :=
  match get_query_value_ci conn name with
  | None => def
  | Some EmptyString => def
  | Some val =>
      match strtol val with
      | None => def
      | Some v => Z.min hi (Z.max lo v)
      end
  end.

(** Clamping applied uniformly, regardless of the mode: what [route]
    passes on lies in [0,3650], [1,365] and [0,1000000]. *)
Definition clamped_in_every_mode (conn : query_args) : Prop :=
  let days := fst (fst (route_params conn)) in
  let limit := snd (fst (route_params conn)) in
  let offset := snd (route_params conn) in
  0 <= days <= 3650 /\ 1 <= limit <= 365 /\ 0 <= offset <= 1000000.

(** [?days=5]. *)
Definition days_only : query_args := [("days", Some "5")].

(** 366 stored days, the days before [t_new_year]. *)
Definition leap_year_table : table (D:=float) :=
  map (fun k => row_of_day (t_new_year - 86400 * Z.of_nat k)) (seq 1 366).

(** * Properties *)

(** ** Rollover *)

Section Rollover.

Context {D : Type} {DD : Double D} {LC : Libc}.

Implicit Types (st : WeatherStateV2 (D:=D)) (db : option (table (D:=D))).

Lemma adopt_keys_accumulators st now :
  accumulators (adopt_keys st now) = accumulators st.
Proof.
  unfold adopt_keys.
  repeat match goal with |- context [if ?b then _ else _] => destruct b end;
    reflexivity.
Qed.

Lemma adopt_keys_deltas st now : deltas (adopt_keys st now) = deltas st.
Proof.
  unfold adopt_keys.
  repeat match goal with |- context [if ?b then _ else _] => destruct b end;
    reflexivity.
Qed.

Lemma day_rollover_accumulators st db now :
  accumulators (fst (day_rollover st db now)) =
  ((if day_fires st now then d_of_Z 0 else rain_daily_in st),
   rain_monthly_in st, rain_yearly_in st, rain_weekly_in st,
   rain_hourly_in st, rain_event_in st).
Proof. unfold day_rollover. destruct (day_fires st now); reflexivity. Qed.

Lemma month_rollover_accumulators st now :
  accumulators (month_rollover st now) =
  (rain_daily_in st,
   (if month_fires st now then d_of_Z 0 else rain_monthly_in st),
   rain_yearly_in st, rain_weekly_in st,
   rain_hourly_in st, rain_event_in st).
Proof. unfold month_rollover. destruct (month_fires st now); reflexivity. Qed.

Lemma year_rollover_accumulators st now :
  accumulators (year_rollover st now) =
  (rain_daily_in st, rain_monthly_in st,
   (if year_fires st now then d_of_Z 0 else rain_yearly_in st),
   rain_weekly_in st, rain_hourly_in st, rain_event_in st).
Proof. unfold year_rollover. destruct (year_fires st now); reflexivity. Qed.

Lemma week_rollover_accumulators st now :
  accumulators (week_rollover st now) =
  (rain_daily_in st, rain_monthly_in st, rain_yearly_in st,
   (if week_fires st now then d_of_Z 0 else rain_weekly_in st),
   rain_hourly_in st, rain_event_in st).
Proof. unfold week_rollover. destruct (week_fires st now); reflexivity. Qed.

(** A check does not change the key that a later check compares. *)
Lemma month_fires_after_day st db now :
  month_fires (fst (day_rollover st db now)) now = month_fires st now.
Proof. unfold day_rollover. destruct (day_fires st now); reflexivity. Qed.

Lemma year_fires_after_month st db now :
  year_fires (month_rollover (fst (day_rollover st db now)) now) now
  = year_fires st now.
Proof.
  unfold month_rollover, day_rollover.
  destruct (day_fires st now);
    match goal with |- context [month_fires ?s now] =>
      destruct (month_fires s now) end; reflexivity.
Qed.

Lemma week_fires_after_year st db now :
  week_fires
    (year_rollover (month_rollover (fst (day_rollover st db now)) now) now) now
  = week_fires st now.
Proof.
  unfold year_rollover.
  match goal with |- context [year_fires ?s now] =>
    destruct (year_fires s now) end;
  unfold month_rollover;
  match goal with |- context [month_fires ?s now] =>
    destruct (month_fires s now) end;
  unfold day_rollover; destruct (day_fires st now); reflexivity.
Qed.

Lemma rollover_accumulators st db now :
  let st0 := adopt_keys st now in
  accumulators (fst (rollover_if_needed st db now)) =
  ((if day_fires st0 now then d_of_Z 0 else rain_daily_in st),
   (if month_fires st0 now then d_of_Z 0 else rain_monthly_in st),
   (if year_fires st0 now then d_of_Z 0 else rain_yearly_in st),
   (if week_fires st0 now then d_of_Z 0 else rain_weekly_in st),
   rain_hourly_in st, rain_event_in st).
Proof.
  intros st0. unfold rollover_if_needed. cbn [fst].
  fold st0.
  pose proof (adopt_keys_accumulators st now) as Hk. fold st0 in Hk.
  pose proof (day_rollover_accumulators st0 db now) as Hd.
  pose proof (month_rollover_accumulators (fst (day_rollover st0 db now)) now) as Hm.
  pose proof (year_rollover_accumulators
                (month_rollover (fst (day_rollover st0 db now)) now) now) as Hy.
  pose proof (week_rollover_accumulators
                (year_rollover
                   (month_rollover (fst (day_rollover st0 db now)) now) now) now) as Hw.
  rewrite week_fires_after_year in Hw.
  rewrite year_fires_after_month in Hy.
  rewrite month_fires_after_day in Hm.
  unfold accumulators in *.
  inversion Hk; inversion Hd; inversion Hm; inversion Hy; inversion Hw.
  congruence.
Qed.

End Rollover.

(** C7: every rollover check zeroes the accumulator of its own horizon
    and no other one; after [rollover_if_needed] each of daily, monthly,
    yearly and weekly is zero exactly when its own check fired, hourly and
    event are untouched; and each of the sixteen combinations of checks
    fires for some state (shown at New Year's Day 2024, UTC). *)
Theorem rollover_checks_frame_and_independent :
  (forall D (DD : Double D) (LC : Libc)
          (st : WeatherStateV2 (D:=D)) (db : option table) (now : Z),
      accumulators (fst (day_rollover st db now)) =
        ((if day_fires st now then d_of_Z 0 else rain_daily_in st),
         rain_monthly_in st, rain_yearly_in st, rain_weekly_in st,
         rain_hourly_in st, rain_event_in st)
      /\ accumulators (month_rollover st now) =
        (rain_daily_in st,
         (if month_fires st now then d_of_Z 0 else rain_monthly_in st),
         rain_yearly_in st, rain_weekly_in st,
         rain_hourly_in st, rain_event_in st)
      /\ accumulators (year_rollover st now) =
        (rain_daily_in st, rain_monthly_in st,
         (if year_fires st now then d_of_Z 0 else rain_yearly_in st),
         rain_weekly_in st, rain_hourly_in st, rain_event_in st)
      /\ accumulators (week_rollover st now) =
        (rain_daily_in st, rain_monthly_in st, rain_yearly_in st,
         (if week_fires st now then d_of_Z 0 else rain_weekly_in st),
         rain_hourly_in st, rain_event_in st)
      /\ accumulators (fst (rollover_if_needed st db now)) =
        ((if day_fires (adopt_keys st now) now
          then d_of_Z 0 else rain_daily_in st),
         (if month_fires (adopt_keys st now) now
          then d_of_Z 0 else rain_monthly_in st),
         (if year_fires (adopt_keys st now) now
          then d_of_Z 0 else rain_yearly_in st),
         (if week_fires (adopt_keys st now) now
          then d_of_Z 0 else rain_weekly_in st),
         rain_hourly_in st, rain_event_in st))
  /\ (forall D (DD : Double D) (day month year week : bool),
      let st := adopt_keys (LC:=Libc_utc) (keys_for day month year week)
                  t_new_year in
      day_fires (LC:=Libc_utc) st t_new_year = day
      /\ month_fires (LC:=Libc_utc) st t_new_year = month
      /\ year_fires (LC:=Libc_utc) st t_new_year = year
      /\ week_fires (LC:=Libc_utc) st t_new_year = week).
Proof.
  split.
  - intros D DD LC st db now.
    split; [apply day_rollover_accumulators|].
    split; [apply month_rollover_accumulators|].
    split; [apply year_rollover_accumulators|].
    split; [apply week_rollover_accumulators|].
    apply rollover_accumulators.
  - intros D DD day month year week.
    destruct day, month, year, week; vm_compute; repeat split; reflexivity.
Qed.

(** ** Ingest *)

Ltac split_ifs :=
  repeat match goal with
         | |- context [if ?b then _ else _] => destruct b eqn:?
         end.

Section Ingest.

Context {D : Type} {DD : Double D} {LC : Libc}.

Implicit Types (st : WeatherStateV2 (D:=D)) (db : option (table (D:=D)))
  (w : World (D:=D)) (j : json (D:=D)).

Lemma accumulators_eq st st2 :
  accumulators st = accumulators st2 ->
  rain_daily_in st = rain_daily_in st2
  /\ rain_monthly_in st = rain_monthly_in st2
  /\ rain_yearly_in st = rain_yearly_in st2
  /\ rain_weekly_in st = rain_weekly_in st2
  /\ rain_hourly_in st = rain_hourly_in st2
  /\ rain_event_in st = rain_event_in st2.
Proof. unfold accumulators. intros H. injection H. auto 7. Qed.

Lemma store_telemetry_aggregation j st :
  aggregation (store_telemetry j st) = aggregation st.
Proof. reflexivity. Qed.

Lemma store_telemetry_last_update j st :
  last_update (store_telemetry j st) = last_update st.
Proof. reflexivity. Qed.

Lemma adopt_keys_day_scope st now :
  day_scope (adopt_keys st now) = day_scope st.
Proof. unfold adopt_keys. split_ifs; reflexivity. Qed.

Lemma later_checks_day_scope st now :
  day_scope (week_rollover (year_rollover (month_rollover st now) now) now)
  = day_scope st.
Proof.
  unfold week_rollover, year_rollover, month_rollover.
  split_ifs; reflexivity.
Qed.

Lemma day_rollover_day_scope st db now :
  day_scope (fst (day_rollover st db now)) =
  if day_fires st now
  then (last_rain_mm st, deltas st,
        (false, temp_high_c st, temp_low_c st),
        (false, hum_high st, hum_low st),
        (false, d_of_Z 0, d_of_Z 0, 0), (now, now))
  else day_scope st.
Proof. unfold day_rollover. destruct (day_fires st now); reflexivity. Qed.

Lemma rollover_day_scope st db now :
  day_scope (fst (rollover_if_needed st db now)) =
  if day_fires (adopt_keys st now) now
  then (last_rain_mm st, deltas st,
        (false, temp_high_c st, temp_low_c st),
        (false, hum_high st, hum_low st),
        (false, d_of_Z 0, d_of_Z 0, 0), (now, now))
  else day_scope st.
Proof.
  unfold rollover_if_needed. cbn [fst].
  rewrite later_checks_day_scope, day_rollover_day_scope.
  destruct (day_fires (adopt_keys st now) now);
    [|apply adopt_keys_day_scope].
  unfold adopt_keys. split_ifs; reflexivity.
Qed.

Lemma tuple6_eq {A B C E F G : Type}
    (a a2 : A) (b b2 : B) (c c2 : C) (e e2 : E) (f f2 : F) (g g2 : G) :
  (a, b, c, e, f, g) = (a2, b2, c2, e2, f2, g2) ->
  a = a2 /\ b = b2 /\ c = c2 /\ e = e2 /\ f = f2 /\ g = g2.
Proof. intros H. injection H. auto 7. Qed.

Lemma rollover_last_rain_mm st db now :
  last_rain_mm (fst (rollover_if_needed st db now)) = last_rain_mm st.
Proof.
  pose proof (rollover_day_scope st db now) as H.
  destruct (day_fires (adopt_keys st now) now);
    unfold day_scope in H; apply tuple6_eq in H; apply H.
Qed.

Lemma rollover_deltas st db now :
  deltas (fst (rollover_if_needed st db now)) = deltas st.
Proof.
  pose proof (rollover_day_scope st db now) as H.
  destruct (day_fires (adopt_keys st now) now);
    unfold day_scope in H; apply tuple6_eq in H; apply H.
Qed.

Lemma rollover_temp_extremes st db now :
  temp_extremes (fst (rollover_if_needed st db now)) =
  ((if day_fires (adopt_keys st now) now then false else have_temp st),
   temp_high_c st, temp_low_c st).
Proof.
  pose proof (rollover_day_scope st db now) as H.
  destruct (day_fires (adopt_keys st now) now);
    unfold day_scope in H; apply tuple6_eq in H; apply H.
Qed.

Lemma rollover_hum_extremes st db now :
  hum_extremes (fst (rollover_if_needed st db now)) =
  ((if day_fires (adopt_keys st now) now then false else have_hum st),
   hum_high st, hum_low st).
Proof.
  pose proof (rollover_day_scope st db now) as H.
  destruct (day_fires (adopt_keys st now) now);
    unfold day_scope in H; apply tuple6_eq in H; apply H.
Qed.

Lemma rollover_wind_tracking st db now :
  wind_tracking (fst (rollover_if_needed st db now)) =
  (if day_fires (adopt_keys st now) now
   then (false, d_of_Z 0, d_of_Z 0, 0)
   else wind_tracking st).
Proof.
  pose proof (rollover_day_scope st db now) as H.
  destruct (day_fires (adopt_keys st now) now);
    unfold day_scope in H; apply tuple6_eq in H; apply H.
Qed.

Lemma rollover_coverage st db now :
  coverage (fst (rollover_if_needed st db now)) =
  (if day_fires (adopt_keys st now) now then (now, now) else coverage st).
Proof.
  pose proof (rollover_day_scope st db now) as H.
  destruct (day_fires (adopt_keys st now) now);
    unfold day_scope in H; apply tuple6_eq in H; apply H.
Qed.

Lemma track_coverage_frame st now :
  last_rain_mm (track_coverage st now) = last_rain_mm st
  /\ accumulators (track_coverage st now) = accumulators st
  /\ deltas (track_coverage st now) = deltas st
  /\ temp_extremes (track_coverage st now) = temp_extremes st
  /\ hum_extremes (track_coverage st now) = hum_extremes st
  /\ wind_tracking (track_coverage st now) = wind_tracking st.
Proof. unfold track_coverage. split_ifs; repeat split; reflexivity. Qed.

Lemma track_temperature_frame j st :
  last_rain_mm (track_temperature j st) = last_rain_mm st
  /\ accumulators (track_temperature j st) = accumulators st
  /\ deltas (track_temperature j st) = deltas st
  /\ coverage (track_temperature j st) = coverage st.
Proof. unfold track_temperature. split_ifs; repeat split; reflexivity. Qed.

Lemma track_humidity_frame j st :
  last_rain_mm (track_humidity j st) = last_rain_mm st
  /\ accumulators (track_humidity j st) = accumulators st
  /\ deltas (track_humidity j st) = deltas st
  /\ coverage (track_humidity j st) = coverage st.
Proof. unfold track_humidity. split_ifs; repeat split; reflexivity. Qed.

Lemma track_wind_frame st :
  last_rain_mm (track_wind st) = last_rain_mm st
  /\ accumulators (track_wind st) = accumulators st
  /\ deltas (track_wind st) = deltas st
  /\ coverage (track_wind st) = coverage st.
Proof. unfold track_wind. split_ifs; repeat split; reflexivity. Qed.

Lemma trackers_frame j st :
  let st' := track_wind (track_humidity j (track_temperature j st)) in
  last_rain_mm st' = last_rain_mm st
  /\ accumulators st' = accumulators st
  /\ deltas st' = deltas st.
Proof.
  cbv zeta.
  destruct (track_wind_frame (track_humidity j (track_temperature j st)))
    as (W1 & W2 & W3 & _).
  destruct (track_humidity_frame j (track_temperature j st))
    as (H1 & H2 & H3 & _).
  destruct (track_temperature_frame j st) as (T1 & T2 & T3 & _).
  rewrite W1, W2, W3, H1, H2, H3, T1, T2, T3. repeat split; reflexivity.
Qed.

Lemma trackers_coverage j st :
  coverage (track_wind (track_humidity j (track_temperature j st)))
  = coverage st.
Proof.
  destruct (track_wind_frame (track_humidity j (track_temperature j st)))
    as (_ & _ & _ & W).
  destruct (track_humidity_frame j (track_temperature j st))
    as (_ & _ & _ & H).
  destruct (track_temperature_frame j st) as (_ & _ & _ & T).
  rewrite W, H, T. reflexivity.
Qed.

Lemma accumulate_rain_rejected st rain now :
  delta_accepted (rain - last_rain_mm st)%D = false ->
  accumulate_rain st rain now = st.
Proof. unfold accumulate_rain. intros ->. reflexivity. Qed.

Lemma accumulate_rain_accepted st rain now :
  delta_accepted (rain - last_rain_mm st)%D = true ->
  let di := inches_from_mm (rain - last_rain_mm st)%D in
  let st' := accumulate_rain st rain now in
  rain_daily_in st' = (rain_daily_in st + di)%D
  /\ rain_monthly_in st' = (rain_monthly_in st + di)%D
  /\ rain_yearly_in st' = (rain_yearly_in st + di)%D
  /\ rain_weekly_in st' = (rain_weekly_in st + di)%D.
Proof.
  unfold accumulate_rain. intros ->. cbn zeta.
  split_ifs; repeat split; reflexivity.
Qed.

End Ingest.

Section IngestClaims.

Context {D : Type} {DD : Double D} {LC : Libc}.

Implicit Types (st : WeatherStateV2 (D:=D)) (w : World (D:=D)) (j : json (D:=D)).

(** C1 (amended): for a sample whose rain reading is in range,
    [last_rain_mm] becomes the reading in every case; and unless the
    sample is the seeding one ([last_rain_mm == 0]), with
    [delta = reading - last_rain_mm] and the accumulators taken as the
    rollover check of this ingest left them: if
    [0.0001 < delta < 5000] then [delta / 25.4] is added to the daily,
    monthly, yearly and weekly accumulators, and otherwise none of the
    six accumulators (nor the delta sequence) changes. *)
Theorem rain_delta_accumulation w j now v rain :
  json_at j "rain_mm" = Some v ->
  json_get_double v = Some rain ->
  (rain <? d_of_Z 0)%D = false ->
  (d_of_Z 20000 <? rain)%D = false ->
  let st := g_state w in
  let st1 := fst (rollover_if_needed (store_telemetry j st) (g_db w) now) in
  let st' := g_state (fst (process_ws90_json_locked w j now)) in
  let delta := (rain - last_rain_mm st)%D in
  let di := inches_from_mm delta in
  last_rain_mm st' = rain
  /\ ((last_rain_mm st =? d_of_Z 0)%D = false ->
      (delta_accepted delta = true ->
         rain_daily_in st' = (rain_daily_in st1 + di)%D
         /\ rain_monthly_in st' = (rain_monthly_in st1 + di)%D
         /\ rain_yearly_in st' = (rain_yearly_in st1 + di)%D
         /\ rain_weekly_in st' = (rain_weekly_in st1 + di)%D)
      /\ (delta_accepted delta = false ->
         accumulators st' = accumulators st1
         /\ deltas st' = deltas st1)).
Proof.
  intros Hv Hget Hlo Hhi st st1 st' delta di.
  subst st'. unfold process_ws90_json_locked.
  rewrite Hv, Hget, Hlo, Hhi. cbn [orb].
  fold st. fold st1.
  destruct (track_coverage_frame st1 now) as (Hl & Ha & Hd & _).
  assert (Hlast : last_rain_mm (track_coverage st1 now) = last_rain_mm st).
  { rewrite Hl. subst st1. rewrite rollover_last_rain_mm. reflexivity. }
  rewrite Hlast.
  destruct (last_rain_mm st =? d_of_Z 0)%D eqn:Hseed.
  - cbn [fst g_state]. split; [reflexivity | discriminate].
  - cbn [fst g_state].
    set (st2 := track_coverage st1 now) in *.
    set (st3 := set_last_update now
                  (set_last_rain_mm rain (accumulate_rain st2 rain now))).
    destruct (trackers_frame j st3) as (Tl & Ta & Td).
    cbv zeta in Tl, Ta, Td.
    split; [rewrite Tl; reflexivity|].
    intros _. split.
    + intros Hacc.
      assert (Hacc2 : delta_accepted (rain - last_rain_mm st2)%D = true)
        by (rewrite Hlast; exact Hacc).
      destruct (accumulate_rain_accepted st2 rain now Hacc2) as (A1 & A2 & A3 & A4).
      cbv zeta in A1, A2, A3, A4. rewrite Hlast in A1, A2, A3, A4.
      destruct (accumulators_eq _ _ Ta) as (T1 & T2 & T3 & T4 & _).
      destruct (accumulators_eq _ _ Ha) as (H1 & H2 & H3 & H4 & _).
      rewrite T1, T2, T3, T4.
      change (rain_daily_in st3)
        with (rain_daily_in (accumulate_rain st2 rain now)).
      change (rain_monthly_in st3)
        with (rain_monthly_in (accumulate_rain st2 rain now)).
      change (rain_yearly_in st3)
        with (rain_yearly_in (accumulate_rain st2 rain now)).
      change (rain_weekly_in st3)
        with (rain_weekly_in (accumulate_rain st2 rain now)).
      rewrite A1, A2, A3, A4, H1, H2, H3, H4. repeat split; reflexivity.
    + intros Hrej.
      assert (Hrej2 : delta_accepted (rain - last_rain_mm st2)%D = false)
        by (rewrite Hlast; exact Hrej).
      rewrite Ta, Td. subst st3.
      rewrite (accumulate_rain_rejected st2 rain now Hrej2).
      split; [exact Ha | exact Hd].
Qed.

(** C10: a sample without [rain_mm], or whose [rain_mm] is below 0 or
    above 20000, changes the telemetry members and [last_update] only:
    no rollover, no coverage or extremes update, no write to the store or
    to the snapshot file.  A seeding sample ([last_rain_mm == 0]) returns
    before the extremes tracking: the extremes are those left by the
    rollover check (flags cleared if the day rolled over, values of the
    previous state), never those of the sample. *)
Theorem rejected_or_seeding_sample w j now :
  ((json_at j "rain_mm" = None
    \/ exists v rain,
         json_at j "rain_mm" = Some v /\ json_get_double v = Some rain
         /\ ((rain <? d_of_Z 0)%D || (d_of_Z 20000 <? rain)%D) = true) ->
   process_ws90_json_locked w j now =
     (mk_world (set_last_update now (store_telemetry j (g_state w)))
        (g_db w) (state_file w), Returned)
   /\ aggregation (g_state (fst (process_ws90_json_locked w j now)))
      = aggregation (g_state w)
   /\ last_update (g_state (fst (process_ws90_json_locked w j now))) = now)
  /\ (forall v rain,
      json_at j "rain_mm" = Some v -> json_get_double v = Some rain ->
      ((rain <? d_of_Z 0)%D || (d_of_Z 20000 <? rain)%D) = false ->
      (last_rain_mm (g_state w) =? d_of_Z 0)%D = true ->
      let st := g_state w in
      let st0 := adopt_keys (store_telemetry j st) now in
      let st' := g_state (fst (process_ws90_json_locked w j now)) in
      snd (process_ws90_json_locked w j now) = Returned
      /\ temp_extremes st' =
           ((if day_fires st0 now then false else have_temp st),
            temp_high_c st, temp_low_c st)
      /\ hum_extremes st' =
           ((if day_fires st0 now then false else have_hum st),
            hum_high st, hum_low st)
      /\ wind_tracking st' =
           (if day_fires st0 now then (false, d_of_Z 0, d_of_Z 0, 0)
            else wind_tracking st)).
Proof.
  split.
  - intros [Hnone | (v & rain & Hv & Hget & Hout)];
      unfold process_ws90_json_locked.
    + rewrite Hnone. repeat split; reflexivity.
    + rewrite Hv, Hget, Hout. repeat split; reflexivity.
  - intros v rain Hv Hget Hin Hseed st st0 st'.
    subst st'. unfold process_ws90_json_locked.
    rewrite Hv, Hget, Hin.
    set (st1 := fst (rollover_if_needed (store_telemetry j (g_state w))
                       (g_db w) now)).
    destruct (track_coverage_frame st1 now) as (Hl & _ & _ & Ht & Hh & Hw).
    assert (Hlast : last_rain_mm (track_coverage st1 now) = last_rain_mm st).
    { rewrite Hl. subst st1. rewrite rollover_last_rain_mm. reflexivity. }
    rewrite Hlast. fold st in Hseed. rewrite Hseed. cbn [fst snd g_state].
    split; [reflexivity|].
    change (temp_extremes (set_last_update now
              (set_last_rain_mm rain (track_coverage st1 now))))
      with (temp_extremes (track_coverage st1 now)).
    change (hum_extremes (set_last_update now
              (set_last_rain_mm rain (track_coverage st1 now))))
      with (hum_extremes (track_coverage st1 now)).
    change (wind_tracking (set_last_update now
              (set_last_rain_mm rain (track_coverage st1 now))))
      with (wind_tracking (track_coverage st1 now)).
    rewrite Ht, Hh, Hw. subst st1.
    rewrite rollover_temp_extremes, rollover_hum_extremes,
      rollover_wind_tracking.
    repeat split; reflexivity.
Qed.

End IngestClaims.

(** A fresh station at 10:00 receives its first reading, 10 mm: the
    delta from the sentinel 0 lies in the window, and nothing is added. *)
Lemma seeding_sample_is_not_accumulated :
  ~ accumulates_every_in_range_delta (LC:=Libc_utc)
      (mk_world (Run.state0 Run.t_morning) (Some []) None)
      (Run.sample 10 20) Run.t_morning.
Proof.
  intros H.
  specialize (H (JInt 10) (d_of_Z 10) eq_refl eq_refl eq_refl eq_refl).
  destruct H as (_ & Hacc & _).
  destruct (Hacc eq_refl) as (Hdaily & _).
  apply (f_equal (fun x => PrimFloat.ltb 0 x)) in Hdaily.
  vm_compute in Hdaily. discriminate Hdaily.
Qed.

Lemma rain_delta_accumulation_witness :
  let w := Run.seeded_world in
  let now := Run.t_morning + 60 in
  let wet := Run.sample 101 20 in
  let dry := Run.sample 100 20 in
  let before j :=
    fst (rollover_if_needed (LC:=Libc_utc)
           (store_telemetry j (g_state w)) (g_db w) now) in
  let after j :=
    g_state (fst (process_ws90_json_locked (LC:=Libc_utc) w j now)) in
  (last_rain_mm (after wet) = d_of_Z 101
   /\ rain_daily_in (after wet)
      = (rain_daily_in (before wet) + inches_from_mm (d_of_Z 1))%D
   /\ rain_weekly_in (after wet)
      = (rain_weekly_in (before wet) + inches_from_mm (d_of_Z 1))%D)
  /\ (last_rain_mm (after dry) = d_of_Z 100
      /\ accumulators (after dry) = accumulators (before dry)).
Proof.
  split.
  - destruct (rain_delta_accumulation (D:=float) (DD:=Double_float)
                (LC:=Libc_utc) Run.seeded_world
                (Run.sample 101 20) (Run.t_morning + 60) (JInt 101)
                (d_of_Z 101) eq_refl eq_refl eq_refl eq_refl)
      as (Hlast & Hrest).
    destruct (Hrest eq_refl) as (Hacc & _).
    destruct (Hacc eq_refl) as (Hd & _ & _ & Hw).
    split; [exact Hlast | split; [exact Hd | exact Hw]].
  - destruct (rain_delta_accumulation (D:=float) (DD:=Double_float)
                (LC:=Libc_utc) Run.seeded_world
                (Run.sample 100 20) (Run.t_morning + 60) (JInt 100)
                (d_of_Z 100) eq_refl eq_refl eq_refl eq_refl)
      as (Hlast & Hrest).
    destruct (Hrest eq_refl) as (_ & Hrej).
    destruct (Hrej eq_refl) as (Hsame & _).
    split; [exact Hlast | exact Hsame].
Defined.

Lemma rejected_or_seeding_sample_witness :
  (let w := Run.seeded_world in
   let j := JObj [("temperature_C", JInt 30)] in
   aggregation (g_state (fst (process_ws90_json_locked (LC:=Libc_utc) w j
                                (Run.t_morning + 60))))
   = aggregation (g_state w))
  /\ (let w := mk_world (Run.state0 Run.t_morning) (Some []) None in
      let j := Run.sample 100 20 in
      temp_extremes
        (g_state (fst (process_ws90_json_locked (LC:=Libc_utc) w j
                         Run.t_morning)))
      = (false, d_of_Z 0, d_of_Z 0)).
Proof.
  split.
  - apply (proj1 (rejected_or_seeding_sample (LC:=Libc_utc) Run.seeded_world
                    (JObj [("temperature_C", JInt 30)]) (Run.t_morning + 60))).
    left. reflexivity.
  - exact (proj1 (proj2 (proj2 (rejected_or_seeding_sample (LC:=Libc_utc)
             (mk_world (Run.state0 Run.t_morning) (Some []) None)
             (Run.sample 100 20) Run.t_morning)
           (JInt 100) (d_of_Z 100) eq_refl eq_refl eq_refl eq_refl))).
Defined.

(** ** Day rollover and the daily summary *)

Section DailySummary.

Context {D : Type} {DD : Double D} {LC : Libc}.

Implicit Types (st : WeatherStateV2 (D:=D)) (db : option (table (D:=D)))
  (w : World (D:=D)) (j : json (D:=D)).

Lemma coverage_ok_spec st :
  coverage_inv st ->
  coverage_ok st = (MIN_COVERAGE_SEC <=? day_last_ts st - day_first_ts st).
Proof.
  unfold coverage_inv, coverage_ok, MIN_COVERAGE_SEC. intros [Hpos Hunset].
  destruct (Z.eqb_spec (day_first_ts st) 0) as [H0 | Hn0]; cbn [negb andb].
  - rewrite H0, (Hunset H0). reflexivity.
  - destruct (Z.eqb_spec (day_last_ts st) 0) as [L0 | Ln0]; cbn [negb andb].
    + rewrite L0. symmetry. apply Z.leb_gt. lia.
    + reflexivity.
Qed.

Lemma adopt_keys_frame st now :
  coverage (adopt_keys st now) = coverage st
  /\ (forall day rain,
        daily_row day (adopt_keys st now) rain = daily_row day st rain)
  /\ rain_daily_in (adopt_keys st now) = rain_daily_in st.
Proof. unfold adopt_keys. split_ifs; repeat split; reflexivity. Qed.

Lemma rollover_snd st db now :
  snd (rollover_if_needed st db now) =
  snd (day_rollover (adopt_keys st now) db now).
Proof. reflexivity. Qed.

Lemma rollover_after_day_fires st db now :
  day_fires (adopt_keys st now) now = true ->
  let st' := fst (rollover_if_needed st db now) in
  rain_daily_in st' = d_of_Z 0
  /\ have_temp st' = false
  /\ have_hum st' = false
  /\ wind_tracking st' = (false, d_of_Z 0, d_of_Z 0, 0)
  /\ coverage st' = (now, now).
Proof.
  intros Hfire. unfold rollover_if_needed. cbn [fst].
  set (st1 := fst (day_rollover (adopt_keys st now) db now)).
  assert (E : rain_daily_in st1 = d_of_Z 0
              /\ have_temp st1 = false /\ have_hum st1 = false
              /\ wind_tracking st1 = (false, d_of_Z 0, d_of_Z 0, 0)
              /\ coverage st1 = (now, now)).
  { subst st1. unfold day_rollover. rewrite Hfire.
    repeat split; reflexivity. }
  destruct E as (E1 & E2 & E3 & E4 & E5). clearbody st1.
  unfold week_rollover, year_rollover, month_rollover.
  split_ifs; (split; [exact E1|]); (split; [exact E2|]);
    (split; [exact E3|]); (split; [exact E4 | exact E5]).
Qed.

(** C2: on a day rollover, with the store open, the summary row of the
    elapsed day is written if and only if
    [day_last_ts - day_first_ts >= 12 h]; the row is keyed by the local
    midnight of the elapsed day, carries the daily rain as it was before
    the reset, and the extremes as they were (NULL without [have_*]);
    afterwards [daily_in] is zero and extremes and wind tracking are
    reset. *)
Theorem day_rollover_writes_summary st (tbl : table) now :
  coverage_inv st ->
  day_fires (adopt_keys st now) now = true ->
  let r := rollover_if_needed st (Some tbl) now in
  let row := daily_row (day_start_ts (day_first_ts st)) st (rain_daily_in st) in
  snd r = Some (if MIN_COVERAGE_SEC <=? day_last_ts st - day_first_ts st
                then insert_or_replace row tbl else tbl)
  /\ day_ts row = day_start_ts (day_first_ts st)
  /\ col_rain_in row = sqlite3_bind_double (rain_daily_in st)
  /\ (disnan (rain_daily_in st) = false ->
      col_rain_in row = Some (rain_daily_in st))
  /\ col_temp_high_c row =
       (if have_temp st then sqlite3_bind_double (temp_high_c st) else None)
  /\ col_temp_low_c row =
       (if have_temp st then sqlite3_bind_double (temp_low_c st) else None)
  /\ col_humidity_high row =
       (if have_hum st then sqlite3_bind_double (hum_high st) else None)
  /\ col_humidity_low row =
       (if have_hum st then sqlite3_bind_double (hum_low st) else None)
  /\ rain_daily_in (fst r) = d_of_Z 0
  /\ have_temp (fst r) = false
  /\ have_hum (fst r) = false
  /\ wind_tracking (fst r) = (false, d_of_Z 0, d_of_Z 0, 0).
Proof.
  intros Hinv Hfire r row.
  destruct (rollover_after_day_fires st (Some tbl) now Hfire)
    as (R1 & R2 & R3 & R4 & _).
  destruct (adopt_keys_frame st now) as (Hcov & Hrow & Hrain).
  assert (Hok : coverage_ok (adopt_keys st now)
                = (MIN_COVERAGE_SEC <=? day_last_ts st - day_first_ts st)).
  { rewrite <- (coverage_ok_spec st Hinv). unfold coverage_ok.
    unfold coverage in Hcov. injection Hcov as -> ->. reflexivity. }
  split.
  - subst r. rewrite rollover_snd. unfold day_rollover. rewrite Hfire.
    cbn [snd]. rewrite Hok.
    destruct (MIN_COVERAGE_SEC <=? day_last_ts st - day_first_ts st) eqn:Hge;
      [|reflexivity].
    unfold log_daily_to_db. rewrite Hrow, Hrain. subst row.
    unfold prev_day_ts. unfold coverage in Hcov. injection Hcov as -> _.
    destruct (Z.eqb_spec (day_first_ts st) 0) as [H0 | Hn0]; [|reflexivity].
    exfalso. destruct Hinv as [_ Hunset]. rewrite H0, (Hunset H0) in Hge.
    discriminate Hge.
  - repeat split; try reflexivity; try assumption.
    intros Hnan. subst row. cbn [col_rain_in daily_row].
    unfold sqlite3_bind_double. rewrite Hnan. reflexivity.
Qed.

(** The coverage invariant holds initially and is kept by every ingest
    at a positive time. *)
Lemma coverage_inv_init now : coverage_inv (init_state_defaults now).
Proof. unfold coverage_inv. cbn. split; [lia | reflexivity]. Qed.

Lemma coverage_after_tracking st now :
  0 < now -> 0 <= day_first_ts st ->
  coverage_inv (track_coverage st now).
Proof.
  unfold coverage_inv, track_coverage. intros Hnow Hpos.
  destruct (Z.eqb_spec (day_first_ts st) 0); cbn; split; lia.
Qed.

Lemma rollover_day_first_ts st db now :
  0 < now -> 0 <= day_first_ts st ->
  0 <= day_first_ts (fst (rollover_if_needed st db now)).
Proof.
  intros Hnow Hpos.
  change (day_first_ts (fst (rollover_if_needed st db now)))
    with (fst (coverage (fst (rollover_if_needed st db now)))).
  rewrite rollover_coverage.
  destruct (day_fires (adopt_keys st now) now); cbn [fst coverage]; lia.
Qed.

Lemma accumulate_rain_coverage st rain now :
  coverage (accumulate_rain st rain now) = coverage st.
Proof.
  unfold accumulate_rain, recompute_hourly. split_ifs; reflexivity.
Qed.

Lemma coverage_inv_ext st st2 :
  coverage st2 = coverage st -> coverage_inv st -> coverage_inv st2.
Proof.
  unfold coverage, coverage_inv. intros H. injection H as -> ->. auto.
Qed.

Lemma coverage_inv_ingest w j now :
  0 < now ->
  coverage_inv (g_state w) ->
  coverage_inv (g_state (fst (process_ws90_json_locked w j now))).
Proof.
  intros Hnow Hinv. unfold process_ws90_json_locked.
  destruct (json_at j "rain_mm") as [v|]; [|exact Hinv].
  destruct (json_get_double v) as [rain|]; [|exact Hinv].
  destruct ((rain <? d_of_Z 0)%D || (d_of_Z 20000 <? rain)%D); [exact Hinv|].
  set (st1 := fst (rollover_if_needed (store_telemetry j (g_state w))
                     (g_db w) now)).
  assert (Hc : coverage_inv (track_coverage st1 now)).
  { apply coverage_after_tracking; [exact Hnow|].
    apply rollover_day_first_ts; [exact Hnow | apply Hinv]. }
  destruct (last_rain_mm (track_coverage st1 now) =? d_of_Z 0)%D;
    cbn [fst g_state].
  - exact Hc.
  - eapply coverage_inv_ext; [|exact Hc].
    rewrite trackers_coverage.
    change (coverage (set_last_update now (set_last_rain_mm rain ?s)))
      with (coverage s).
    apply accumulate_rain_coverage.
Qed.

Lemma coverage_inv_persisted st :
  coverage_inv st -> coverage_inv (persisted st).
Proof. intros H. exact H. Qed.

End DailySummary.

Lemma day_rollover_writes_summary_witness :
  let r := rollover_if_needed (LC:=Libc_utc) new_years_eve (Some [])
             t_new_year in
  snd r = Some [ {| day_ts := t_new_year - 86400;
                    col_temp_high_c := Some (d_of_Z 12);
                    col_temp_low_c := Some (d_of_Z 3);
                    col_humidity_high := None;
                    col_humidity_low := None;
                    col_rain_in := Some (dec 5 1) |} ]
  /\ rain_daily_in (fst r) = d_of_Z 0.
Proof.
  assert (Hinv : coverage_inv new_years_eve)
    by (unfold coverage_inv; cbn; split; [lia | discriminate]).
  destruct (day_rollover_writes_summary (LC:=Libc_utc) new_years_eve []
              t_new_year Hinv eq_refl)
    as (Hdb & _ & _ & _ & _ & _ & _ & _ & Hzero & _).
  split; [exact Hdb | exact Hzero].
Defined.

(** ** The hourly window *)

Section Hourly.

Context {D : Type} {DD : Double D} {LC : Libc}.

Implicit Types (st : WeatherStateV2 (D:=D)) (w : World (D:=D))
  (j : json (D:=D)) (v : list (RainDelta (D:=D))).

Lemma hourly_scan_spec now v : forall kept sum,
  hourly_scan now v kept sum =
  (kept ++ filter (in_window now) v,
   fold_left (fun s x => (s + inches x)%D) (filter (in_window now) v) sum).
Proof.
  induction v as [|x rest IH]; intros kept sum; cbn [hourly_scan filter].
  - rewrite app_nil_r. reflexivity.
  - change (in_window now x) with (now - ts x <=? HOURLY_WINDOW_SEC).
    destruct (now - ts x <=? HOURLY_WINDOW_SEC).
    + rewrite IH, <- app_assoc. reflexivity.
    + apply IH.
Qed.

Lemma recompute_hourly_spec st now :
  deltas (recompute_hourly st now) = filter (in_window now) (deltas st)
  /\ rain_hourly_in (recompute_hourly st now)
     = sum_inches (filter (in_window now) (deltas st)).
Proof.
  unfold recompute_hourly. rewrite hourly_scan_spec. split; reflexivity.
Qed.

Lemma recompute_hourly_invariant st now :
  hourly_invariant (recompute_hourly st now) now.
Proof.
  destruct (recompute_hourly_spec st now) as [Hd Hs].
  unfold hourly_invariant. rewrite Hd, Hs. split; [|reflexivity].
  apply Forall_forall. intros x Hx. apply filter_In in Hx.
  destruct Hx as [_ Hx]. unfold in_window in Hx. apply Z.leb_le. exact Hx.
Qed.

Lemma accumulate_rain_hourly st rain now :
  delta_accepted (rain - last_rain_mm st)%D = true ->
  let di := inches_from_mm (rain - last_rain_mm st)%D in
  let st' := accumulate_rain st rain now in
  deltas st' = filter (in_window now) (deltas st ++ [mk_delta now di])
  /\ rain_hourly_in st' = sum_inches (deltas st').
Proof.
  unfold accumulate_rain. intros ->. cbn zeta.
  set (st4 := set_deltas _ _).
  destruct (recompute_hourly_spec st4 now) as [Hd Hs].
  change (deltas st4)
    with (deltas st ++ [mk_delta now (inches_from_mm (rain - last_rain_mm st)%D)])
    in Hd, Hs.
  split_ifs; cbn [deltas rain_hourly_in set_last_rain_ts set_rain_event_in];
    rewrite ?Hd, ?Hs; split; reflexivity.
Qed.

End Hourly.

(** Where the code prunes the window: immediately after an accepted
    rain delta, ingested at time [now], the stored sequence is the
    previous one plus the new delta, without the entries older than
    3600 s at [now], and [rain_hourly_in] is the sum of the stored
    sequence.  With one accepted delta per minute and no rollover, all 61
    deltas of the minutes 0 to 60 are stored, and after the delta of
    minute 61 the one of minute 0 is gone. *)
Theorem hourly_window_after_accepted_delta :
  (forall D (DD : Double D) (LC : Libc)
          (w : World (D:=D)) (j : json) (now : Z) (v : json) (rain : D),
      json_at j "rain_mm" = Some v ->
      json_get_double v = Some rain ->
      (rain <? d_of_Z 0)%D = false ->
      (d_of_Z 20000 <? rain)%D = false ->
      (last_rain_mm (g_state w) =? d_of_Z 0)%D = false ->
      delta_accepted (rain - last_rain_mm (g_state w))%D = true ->
      let st' := g_state (fst (process_ws90_json_locked w j now)) in
      let di := inches_from_mm (rain - last_rain_mm (g_state w))%D in
      hourly_invariant st' now
      /\ deltas st' =
         filter (in_window now) (deltas (g_state w) ++ [mk_delta now di]))
  /\ (let w61 := Run.rain_per_minute Run.seeded_world Run.t_morning 101 0 61 in
      let w62 := Run.rain_per_minute Run.seeded_world Run.t_morning 101 0 62 in
      map ts (deltas (g_state w61))
        = map (fun k => Run.t_morning + 60 * Z.of_nat k) (seq 0 61)
      /\ map ts (deltas (g_state w62))
        = map (fun k => Run.t_morning + 60 * Z.of_nat k) (seq 1 61)
      /\ rain_hourly_in (g_state w62) = sum_inches (deltas (g_state w62))
      /\ calendar_keys (g_state w62) = calendar_keys (g_state Run.seeded_world)).
Proof.
  split.
  - intros D DD LC w j now v rain Hv Hget Hlo Hhi Hseed Hacc st' di.
    subst st'. unfold process_ws90_json_locked.
    rewrite Hv, Hget, Hlo, Hhi. cbn [orb].
    set (st1 := fst (rollover_if_needed (store_telemetry j (g_state w))
                       (g_db w) now)).
    destruct (track_coverage_frame st1 now) as (Hl & _ & Hd & _).
    assert (Hlast : last_rain_mm (track_coverage st1 now)
                    = last_rain_mm (g_state w)).
    { rewrite Hl. subst st1. rewrite rollover_last_rain_mm. reflexivity. }
    assert (Hdel : deltas (track_coverage st1 now) = deltas (g_state w)).
    { rewrite Hd. subst st1. rewrite rollover_deltas. reflexivity. }
    rewrite Hlast, Hseed. cbn [fst g_state].
    set (st2 := track_coverage st1 now) in *.
    assert (Hacc2 : delta_accepted (rain - last_rain_mm st2)%D = true)
      by (rewrite Hlast; exact Hacc).
    destruct (accumulate_rain_hourly st2 rain now Hacc2) as [Ad As].
    cbv zeta in Ad, As. rewrite Hlast, Hdel in Ad.
    set (st3 := set_last_update now
                  (set_last_rain_mm rain (accumulate_rain st2 rain now))).
    destruct (trackers_frame j st3) as (_ & Ta & Td). cbv zeta in Ta, Td.
    destruct (accumulators_eq _ _ Ta) as (_ & _ & _ & _ & T5 & _).
    change (deltas st3) with (deltas (accumulate_rain st2 rain now)) in Td.
    change (rain_hourly_in st3)
      with (rain_hourly_in (accumulate_rain st2 rain now)) in T5.
    unfold hourly_invariant. rewrite Td, T5, As, Ad. fold di.
    split; [split; [|reflexivity] | reflexivity].
    apply Forall_forall. intros x Hx. apply filter_In in Hx.
    destruct Hx as [_ Hx]. unfold in_window in Hx. apply Z.leb_le. exact Hx.
  - vm_compute. repeat split; reflexivity.
Qed.

(** C3: the hourly window is pruned only when a rain delta is
    accepted, so the invariant does not hold at every point in time.
    One millimetre of rain at 10:01, then a dry sample at 12:01: the delta
    of 10:01 is still stored, [rain_hourly_in] is still its 1/25.4 in, and
    that is the [hourly_in] of the current snapshot.  A dry sample the
    next day at 10:01 rolls the day over: the daily total is 0 while the
    total of the last hour still holds the rain of the day before. *)
Theorem hourly_total_stale_after_dry_hours :
  let w1 := Run.ingest Run.seeded_world (Run.sample 101 20)
              (Run.t_morning + 60) in
  let w2 := Run.ingest w1 (Run.sample 101 20) (Run.t_morning + 7260) in
  let w3 := Run.ingest w2 (Run.sample 101 20) (Run.t_morning + 86460) in
  deltas (g_state w2)
    = [mk_delta (Run.t_morning + 60) (inches_from_mm (d_of_Z 1))]
  /\ rain_hourly_in (g_state w2) = inches_from_mm (d_of_Z 1)
  /\ served_hourly_in (g_state w2) health_at_start JNull
       (Run.t_morning + 7260)
     = Some (JFloat (inches_from_mm (d_of_Z 1)))
  /\ ~ hourly_invariant (g_state w2) (Run.t_morning + 7260)
  /\ rain_daily_in (g_state w3) = d_of_Z 0
  /\ rain_hourly_in (g_state w3) = inches_from_mm (d_of_Z 1)
  /\ ~ hourly_invariant (g_state w3) (Run.t_morning + 86460).
Proof.
  cbv zeta.
  assert (H2 : deltas (g_state
                 (Run.ingest
                    (Run.ingest Run.seeded_world (Run.sample 101 20)
                       (Run.t_morning + 60))
                    (Run.sample 101 20) (Run.t_morning + 7260)))
               = [mk_delta (Run.t_morning + 60)
                    (inches_from_mm (d_of_Z 1 : float))])
    by (vm_compute; reflexivity).
  assert (H3 : deltas (g_state
                 (Run.ingest
                    (Run.ingest
                       (Run.ingest Run.seeded_world (Run.sample 101 20)
                          (Run.t_morning + 60))
                       (Run.sample 101 20) (Run.t_morning + 7260))
                    (Run.sample 101 20) (Run.t_morning + 86460)))
               = [mk_delta (Run.t_morning + 60)
                    (inches_from_mm (d_of_Z 1 : float))])
    by (vm_compute; reflexivity).
  split; [exact H2|].
  split; [vm_compute; reflexivity|].
  split; [vm_compute; reflexivity|].
  split.
  { intros [Hold _]. rewrite H2 in Hold.
    apply Forall_inv in Hold. cbn [ts] in Hold.
    unfold Run.t_morning, HOURLY_WINDOW_SEC in Hold. lia. }
  split; [vm_compute; reflexivity|].
  split; [vm_compute; reflexivity|].
  intros [Hold _]. rewrite H3 in Hold.
  apply Forall_inv in Hold. cbn [ts] in Hold.
  unfold Run.t_morning, HOURLY_WINDOW_SEC in Hold. lia.
Qed.

Lemma hourly_window_after_accepted_delta_witness :
  let w := Run.seeded_world in
  let j := Run.sample 101 20 in
  let now := Run.t_morning + 60 in
  let st' := g_state (fst (process_ws90_json_locked (LC:=Libc_utc) w j now)) in
  hourly_invariant st' now
  /\ deltas st' =
     filter (in_window now)
       (deltas (g_state w)
        ++ [mk_delta now
              (inches_from_mm (d_of_Z 101 - last_rain_mm (g_state w))%D)]).
Proof.
  exact (proj1 hourly_window_after_accepted_delta float Double_float Libc_utc
           Run.seeded_world (Run.sample 101 20) (Run.t_morning + 60)
           (JInt 101) (d_of_Z 101)
           eq_refl eq_refl eq_refl eq_refl eq_refl eq_refl).
Defined.

(** ** Query parameters *)

Lemma wrap_int_small z : INT_MIN <= z <= INT_MAX -> wrap_int z = z.
Proof.
  unfold wrap_int, wrap_signed, INT_MIN, INT_MAX. intros H.
  rewrite Z.mod_small; lia.
Qed.

Section QueryParameters.

Implicit Types (conn : query_args) (name val : string).

Lemma get_query_int_ci_default conn name def lo hi :
  (get_query_value_ci conn name = None
   \/ get_query_value_ci conn name = Some EmptyString
   \/ exists val, get_query_value_ci conn name = Some val
                  /\ strtol val = None) ->
  get_query_int_ci conn name def lo hi = def.
Proof.
  unfold get_query_int_ci.
  intros [-> | [-> | (val & -> & Hno)]]; try reflexivity.
  rewrite Hno. destruct val; reflexivity.
Qed.

Lemma get_query_int_ci_clamp conn name val v def lo hi :
  get_query_value_ci conn name = Some val ->
  val <> EmptyString ->
  strtol val = Some v ->
  INT_MIN <= lo -> lo <= hi -> hi <= INT_MAX ->
  get_query_int_ci conn name def lo hi = Z.min hi (Z.max lo v).
Proof.
  unfold get_query_int_ci. intros -> Hne -> Hlo Hle Hhi.
  destruct val as [|c rest]; [contradiction|].
  destruct (Z.ltb_spec v lo) as [Hl | Hl].
  - destruct (Z.ltb_spec hi lo); [lia|]. rewrite wrap_int_small; lia.
  - destruct (Z.ltb_spec hi v); rewrite wrap_int_small; lia.
Qed.

Lemma get_query_int_ci_range conn name def lo hi :
  lo <= def <= hi -> INT_MIN <= lo -> hi <= INT_MAX ->
  lo <= get_query_int_ci conn name def lo hi <= hi.
Proof.
  intros Hdef Hlo Hhi.
  destruct (get_query_value_ci conn name) as [val|] eqn:Hval.
  - destruct val as [|c rest] eqn:Hs.
    + rewrite get_query_int_ci_default; [lia | right; left; exact Hval].
    + destruct (strtol val) as [v|] eqn:Hv; subst val.
      * rewrite (get_query_int_ci_clamp conn name _ v def lo hi Hval);
          try lia; [discriminate | exact Hv].
      * rewrite get_query_int_ci_default; [lia|].
        right; right. eexists. split; [exact Hval | exact Hv].
  - rewrite get_query_int_ci_default; [lia | left; exact Hval].
Qed.

Lemma days_range conn : 0 <= get_query_int_ci conn "days" 0 0 3650 <= 3650.
Proof. apply get_query_int_ci_range; unfold INT_MIN, INT_MAX; lia. Qed.

Lemma limit_range conn :
  1 <= get_query_int_ci conn "limit" DEFAULT_LIMIT 1 MAX_LIMIT <= 365.
Proof.
  apply get_query_int_ci_range;
    unfold DEFAULT_LIMIT, MAX_LIMIT, INT_MIN, INT_MAX; lia.
Qed.

Lemma offset_range conn :
  0 <= get_query_int_ci conn "offset" DEFAULT_OFFSET 0 1000000 <= 1000000.
Proof.
  apply get_query_int_ci_range; unfold DEFAULT_OFFSET, INT_MIN, INT_MAX; lia.
Qed.

(** The three shapes of [route_params]. *)
Lemma route_params_cases conn :
  let hd := has_value conn "days" in
  let hl := has_value conn "limit" in
  let ho := has_value conn "offset" in
  route_params conn =
    if hl || ho then
      (get_query_int_ci conn "days" 0 0 3650,
       get_query_int_ci conn "limit" DEFAULT_LIMIT 1 MAX_LIMIT,
       get_query_int_ci conn "offset" DEFAULT_OFFSET 0 1000000)
    else if hd then (get_query_int_ci conn "days" 0 0 3650, -1, -1)
    else (-1, -1, -1).
Proof.
  unfold route_params.
  destruct (has_value conn "days"), (has_value conn "limit"),
    (has_value conn "offset"); reflexivity.
Qed.

End QueryParameters.

(** ** History queries *)

Section History.

Context {D : Type} {DD : Double D}.

Implicit Types (r : DailyRow (D:=D)) (rows tbl : list (DailyRow (D:=D))).

Lemma insert_by_day_perm r rows : Permutation (insert_by_day r rows) (r :: rows).
Proof.
  induction rows as [|x rest IH]; cbn [insert_by_day].
  - apply Permutation_refl.
  - destruct (day_ts r <=? day_ts x).
    + apply Permutation_refl.
    + eapply perm_trans; [apply perm_skip, IH | apply perm_swap].
Qed.

Lemma order_by_day_ts_perm rows : Permutation (order_by_day_ts rows) rows.
Proof.
  induction rows as [|r rest IH]; cbn [order_by_day_ts].
  - apply perm_nil.
  - eapply perm_trans; [apply insert_by_day_perm | apply perm_skip, IH].
Qed.

Lemma insert_by_day_sorted r rows :
  StronglySorted day_le rows -> StronglySorted day_le (insert_by_day r rows).
Proof.
  induction 1 as [|x rest Hs IH Hall]; cbn [insert_by_day].
  - repeat constructor.
  - destruct (Z.leb_spec (day_ts r) (day_ts x)) as [Hle | Hgt].
    + constructor; [constructor; assumption|].
      constructor; [exact Hle|].
      eapply Forall_impl; [|exact Hall].
      intros y Hy. unfold day_le in *. lia.
    + constructor; [exact IH|].
      apply (Permutation_Forall (Permutation_sym (insert_by_day_perm r rest))).
      constructor; [unfold day_le; lia | exact Hall].
Qed.

Lemma order_by_day_ts_sorted rows : StronglySorted day_le (order_by_day_ts rows).
Proof.
  induction rows as [|r rest IH]; cbn [order_by_day_ts].
  - constructor.
  - apply insert_by_day_sorted, IH.
Qed.

Lemma skipn_sorted n rows :
  StronglySorted day_le rows -> StronglySorted day_le (skipn n rows).
Proof.
  revert rows. induction n as [|n IH]; intros rows Hs; [exact Hs|].
  destruct rows as [|x rest]; [constructor|].
  cbn [skipn]. apply IH. inversion Hs; assumption.
Qed.

Lemma firstn_sorted n rows :
  StronglySorted day_le rows -> StronglySorted day_le (firstn n rows).
Proof.
  revert rows. induction n as [|n IH]; intros rows Hs; [constructor|].
  destruct rows as [|x rest]; [constructor|].
  cbn [firstn]. inversion Hs as [|? ? Hrest Hall]; subst.
  constructor; [apply IH, Hrest|].
  apply Forall_forall. intros y Hy.
  rewrite Forall_forall in Hall. apply Hall.
  rewrite <- (firstn_skipn n rest). apply in_or_app. left. exact Hy.
Qed.

Lemma limit_offset_sorted limit offset rows :
  StronglySorted day_le rows ->
  StronglySorted day_le (limit_offset limit offset rows).
Proof.
  intros Hs. unfold limit_offset.
  destruct (limit <? 0); [|apply firstn_sorted]; apply skipn_sorted, Hs.
Qed.

Lemma modes_time_only d :
  0 <= d ->
  mode_simple d (-1) (-1) = false
  /\ mode_time_only d (-1) (-1) = true
  /\ mode_paged d (-1) (-1) = false.
Proof.
  intros Hd. unfold mode_paged, mode_simple, mode_time_only.
  destruct (Z.ltb_spec d 0); [lia|].
  destruct (Z.leb_spec 0 d); [|lia]. repeat split; reflexivity.
Qed.

Lemma modes_paged d l o :
  0 <= d -> 1 <= l -> 0 <= o ->
  mode_simple d l o = false
  /\ mode_time_only d l o = false
  /\ mode_paged d l o = true.
Proof.
  intros Hd Hl Ho. unfold mode_paged, mode_simple, mode_time_only.
  destruct (Z.ltb_spec d 0); [lia|].
  destruct (Z.ltb_spec l 0); [lia|].
  destruct (Z.leb_spec 0 d); [|lia]. repeat split; reflexivity.
Qed.

Lemma history_rows_time_only tbl d now :
  0 <= d ->
  history_rows tbl d (-1) (-1) now =
  if d =? 0 then order_by_day_ts tbl
  else order_by_day_ts (filter (fun r => now - d * 86400 <=? day_ts r) tbl).
Proof.
  intros Hd. unfold history_rows, history_query.
  destruct (modes_time_only d Hd) as (-> & -> & _).
  destruct (d =? 0); reflexivity.
Qed.

Lemma history_rows_paged tbl d l o now :
  0 <= d -> 1 <= l ->
  history_rows tbl d l o now =
  firstn (Z.to_nat l)
    (skipn (Z.to_nat o)
       (order_by_day_ts
          (if 0 <? d then filter (fun r => now - d * 86400 <=? day_ts r) tbl
           else tbl))).
Proof.
  intros Hd Hl. unfold history_rows, history_query, mode_simple,
    mode_time_only.
  destruct (Z.ltb_spec d 0); [lia|].
  destruct (Z.ltb_spec l 0) as [|Hl0]; [lia|].
  rewrite !andb_false_r. cbn [andb].
  destruct (0 <? d); cbn [run_query]; unfold limit_offset, where_since;
    destruct (Z.ltb_spec l 0); try lia; reflexivity.
Qed.

Lemma run_query_sorted q tbl : StronglySorted day_le (run_query q tbl).
Proof.
  destruct q; cbn [run_query];
    try apply limit_offset_sorted; apply order_by_day_ts_sorted.
Qed.

End History.

(** C4: the mode of a history query depends only on which of [days],
    [limit], [offset] are present.  The rows are always ascending by day.
    With [days] alone, the result holds exactly the stored rows with
    [day >= now - days * 86400] (all stored rows when [days] is 0), with
    no cap.  With [limit] or [offset] present the query is paged: the
    time filter is applied only if [days > 0], and of the matching rows in
    ascending order the first [offset] are skipped and at most [limit]
    returned.  All three endpoints answer with these rows. *)
Theorem history_mode_by_presence :
  forall D (DD : Double D) (conn : query_args) (tbl : table (D:=D)) (now : Z),
    let hd := has_value conn "days" in
    let hl := has_value conn "limit" in
    let ho := has_value conn "offset" in
    let days := fst (fst (route_params conn)) in
    let limit := snd (fst (route_params conn)) in
    let offset := snd (route_params conn) in
    let since r := now - days * 86400 <=? day_ts r in
    let rows := history_rows tbl days limit offset now in
    mode_simple days limit offset = negb hd && negb hl && negb ho
    /\ mode_time_only days limit offset = hd && negb hl && negb ho
    /\ mode_paged days limit offset = hl || ho
    /\ StronglySorted day_le rows
    /\ (hd = false -> hl = false -> ho = false -> Permutation rows tbl)
    /\ (hd = true -> hl = false -> ho = false ->
        days = get_query_int_ci conn "days" 0 0 3650
        /\ Permutation rows (if days =? 0 then tbl else filter since tbl))
    /\ (hl || ho = true ->
        days = get_query_int_ci conn "days" 0 0 3650
        /\ limit = get_query_int_ci conn "limit" DEFAULT_LIMIT 1 MAX_LIMIT
        /\ offset = get_query_int_ci conn "offset" DEFAULT_OFFSET 0 1000000
        /\ exists matching,
             StronglySorted day_le matching
             /\ Permutation matching
                  (if 0 <? days then filter since tbl else tbl)
             /\ rows = firstn (Z.to_nat limit)
                         (skipn (Z.to_nat offset) matching))
    /\ route (Some tbl) conn "/api/v2/history/temperature" "GET" now
       = mk_response 200 (BodyJson (days_json (map temperature_row rows)))
    /\ route (Some tbl) conn "/api/v2/history/humidity" "GET" now
       = mk_response 200 (BodyJson (days_json (map humidity_row rows)))
    /\ route (Some tbl) conn "/api/v2/history/rain" "GET" now
       = mk_response 200 (BodyJson (days_json (rain_rows rows))).
Proof.
  intros D DD conn tbl now hd hl ho days limit offset since rows.
  pose proof (route_params_cases conn) as Hp. cbv zeta in Hp.
  fold hd hl ho in Hp.
  pose proof (days_range conn) as Hd.
  pose proof (limit_range conn) as Hl.
  pose proof (offset_range conn) as Ho.
  assert (Hroute :
    route (Some tbl) conn "/api/v2/history/temperature" "GET" now
      = mk_response 200 (BodyJson (days_json (map temperature_row rows)))
    /\ route (Some tbl) conn "/api/v2/history/humidity" "GET" now
      = mk_response 200 (BodyJson (days_json (map humidity_row rows)))
    /\ route (Some tbl) conn "/api/v2/history/rain" "GET" now
      = mk_response 200 (BodyJson (days_json (rain_rows rows)))).
  { subst rows days limit offset. unfold route.
    destruct (route_params conn) as [[d l] o]. repeat split; reflexivity. }
  assert (Hsorted : StronglySorted day_le rows) by apply run_query_sorted.
  subst rows since days limit offset. revert Hroute Hsorted.
  rewrite Hp. clear Hp. intros Hroute Hsorted.
  destruct (hl || ho) eqn:Hpaged; [|destruct hd eqn:Hdays]; cbn [fst snd] in *.
  - (* paged *)
    destruct (modes_paged _ _ _ (proj1 Hd) (proj1 Hl) (proj1 Ho))
      as (M1 & M2 & M3).
    rewrite M1, M2, M3.
    assert (Hnot : negb hd && negb hl && negb ho = false
                   /\ hd && negb hl && negb ho = false)
      by (destruct hd, hl, ho; try discriminate Hpaged; split; reflexivity).
    destruct Hnot as [-> ->].
    repeat (split; [first [reflexivity | exact Hsorted]|]).
    split; [intros _ E1 E2; rewrite E1, E2 in Hpaged; discriminate|].
    split; [intros _ E1 E2; rewrite E1, E2 in Hpaged; discriminate|].
    split; [|exact Hroute].
    intros _. repeat (split; [reflexivity|]).
    rewrite (history_rows_paged _ _ _ _ _ (proj1 Hd) (proj1 Hl)).
    eexists. split; [apply order_by_day_ts_sorted|].
    split; [apply order_by_day_ts_perm | reflexivity].
  - (* time-only *)
    apply orb_false_elim in Hpaged. destruct Hpaged as [E1 E2].
    rewrite E1, E2.
    destruct (modes_time_only _ (proj1 Hd)) as (M1 & M2 & M3).
    rewrite M1, M2, M3.
    repeat (split; [first [reflexivity | exact Hsorted]|]).
    split; [discriminate|].
    split; [|split; [discriminate | exact Hroute]].
    intros _ _ _. split; [reflexivity|].
    rewrite (history_rows_time_only _ _ _ (proj1 Hd)).
    destruct (get_query_int_ci conn "days" 0 0 3650 =? 0);
      apply order_by_day_ts_perm.
  - (* simple *)
    apply orb_false_elim in Hpaged. destruct Hpaged as [E1 E2].
    rewrite E1, E2.
    repeat (split; [first [reflexivity | exact Hsorted]|]).
    split; [intros _ _ _; apply order_by_day_ts_perm|].
    split; [discriminate|].
    split; [discriminate | exact Hroute].
Qed.

Section HistoryRows.

Context {D : Type} {DD : Double D}.

Implicit Types (r : DailyRow (D:=D)) (rows tbl : list (DailyRow (D:=D))).





Lemma insert_or_replace_keys r tbl :
  NoDup (map day_ts tbl) -> NoDup (map day_ts (insert_or_replace r tbl)).
Proof.
  intros Hnd. unfold insert_or_replace. cbn [map]. constructor.
  - intros Hin. apply in_map_iff in Hin. destruct Hin as (x & Hx & Hf).
    apply filter_In in Hf. destruct Hf as [_ Hf].
    rewrite Hx, Z.eqb_refl in Hf. discriminate Hf.
  - induction tbl as [|x rest IH]; [constructor|].
    cbn [map] in Hnd. inversion Hnd as [|? ? Hnotin Hrest]; subst.
    cbn [filter]. destruct (negb (day_ts x =? day_ts r)); [|apply IH, Hrest].
    cbn [map]. constructor; [|apply IH, Hrest].
    intros Hin. apply Hnotin. apply in_map_iff in Hin.
    destruct Hin as (y & Hy & Hf). apply filter_In in Hf.
    rewrite <- Hy. apply in_map. apply Hf.
Qed.




End HistoryRows.



(** ** Query parameters by mode *)

Lemma get_query_int_ci_clamped conn name def lo hi :
  INT_MIN <= lo -> lo <= hi -> hi <= INT_MAX ->
  get_query_int_ci conn name def lo hi = clamped_parameter conn name def lo hi.
Proof.
  intros Hlo Hle Hhi. unfold clamped_parameter.
  destruct (get_query_value_ci conn name) as [val|] eqn:Hval.
  - destruct val as [|c rest] eqn:Hs.
    + apply get_query_int_ci_default. right; left. exact Hval.
    + rewrite <- Hs in *. destruct (strtol val) as [v|] eqn:Hv.
      * apply (get_query_int_ci_clamp conn name val v); try assumption.
        rewrite Hs. discriminate.
      * apply get_query_int_ci_default. right; right.
        exists val. split; assumption.
  - apply get_query_int_ci_default. left. exact Hval.
Qed.

(** C9 (amended): the parameters are clamped where they are parsed.
    When [limit] or [offset] is present (paged mode), [days], [limit] and
    [offset] are each the default 0, 100, 0 for a missing, empty or
    unparseable value and otherwise the number brought into [0,3650],
    [1,365], [0,1000000].  When only [days] is present, [days] is so
    clamped and no limit and no offset is applied; without parameters
    nothing is parsed: no filter, no limit.  In every mode the status of
    the response does not depend on the query arguments: a GET of a
    history endpoint is answered 200 whatever they are. *)
Theorem query_parameters_clamped_when_parsed :
  forall D (DD : Double D) (conn : query_args),
    let hd := has_value conn "days" in
    let hl := has_value conn "limit" in
    let ho := has_value conn "offset" in
    let days := fst (fst (route_params conn)) in
    let limit := snd (fst (route_params conn)) in
    let offset := snd (route_params conn) in
    (hl || ho = true ->
     days = clamped_parameter conn "days" 0 0 3650
     /\ limit = clamped_parameter conn "limit" 100 1 365
     /\ offset = clamped_parameter conn "offset" 0 0 1000000
     /\ 0 <= days <= 3650 /\ 1 <= limit <= 365 /\ 0 <= offset <= 1000000)
    /\ (hd = true -> hl = false -> ho = false ->
        days = clamped_parameter conn "days" 0 0 3650
        /\ 0 <= days <= 3650 /\ limit = -1 /\ offset = -1
        /\ forall (tbl : table (D:=D)) now,
             Permutation (history_rows tbl days limit offset now)
               (if days =? 0 then tbl
                else filter (fun r => now - days * 86400 <=? day_ts r) tbl))
    /\ (hd = false -> hl = false -> ho = false ->
        days = -1 /\ limit = -1 /\ offset = -1
        /\ forall (tbl : table (D:=D)) now,
             Permutation (history_rows tbl days limit offset now) tbl)
    /\ (forall (db : option (table (D:=D))) conn2 url method now,
          status (route db conn url method now)
          = status (route db conn2 url method now))
    /\ (forall (db : option (table (D:=D))) url now,
          In url history_urls ->
          status (route db conn url "GET" now) = 200).
Proof.
  intros D DD conn hd hl ho days limit offset.
  pose proof (route_params_cases conn) as Hp. cbv zeta in Hp.
  fold hd hl ho in Hp.
  pose proof (days_range conn) as Hd.
  pose proof (limit_range conn) as Hl.
  pose proof (offset_range conn) as Ho.
  assert (Ed : get_query_int_ci conn "days" 0 0 3650
               = clamped_parameter conn "days" 0 0 3650)
    by (apply get_query_int_ci_clamped; unfold INT_MIN, INT_MAX; lia).
  assert (El : get_query_int_ci conn "limit" DEFAULT_LIMIT 1 MAX_LIMIT
               = clamped_parameter conn "limit" 100 1 365)
    by (apply get_query_int_ci_clamped; unfold INT_MIN, INT_MAX; lia).
  assert (Eo : get_query_int_ci conn "offset" DEFAULT_OFFSET 0 1000000
               = clamped_parameter conn "offset" 0 0 1000000)
    by (apply get_query_int_ci_clamped; unfold INT_MIN, INT_MAX; lia).
  subst days limit offset.
  split; [|split; [|split; [|split]]].
  - intros Hpaged. rewrite Hp, Hpaged. cbn [fst snd].
    rewrite <- Ed, <- El, <- Eo.
    repeat split; try reflexivity; lia.
  - intros H1 H2 H3. rewrite Hp, H1, H2, H3. cbn [orb fst snd].
    rewrite <- Ed. repeat split; try reflexivity; try lia.
    intros tbl now. rewrite (history_rows_time_only _ _ _ (proj1 Hd)).
    destruct (get_query_int_ci conn "days" 0 0 3650 =? 0);
      apply order_by_day_ts_perm.
  - intros H1 H2 H3. rewrite Hp, H1, H2, H3. cbn [orb fst snd].
    repeat split; try reflexivity.
    intros tbl now. apply order_by_day_ts_perm.
  - intros db conn2 url method now. unfold route.
    destruct (route_params conn) as [[d1 l1] o1].
    destruct (route_params conn2) as [[d2 l2] o2].
    split_ifs; reflexivity.
  - intros db url now Hin. unfold route.
    destruct (route_params conn) as [[d1 l1] o1].
    cbn in Hin.
    destruct Hin as [<- | [<- | [<- | []]]]; reflexivity.
Qed.

(** Outside the paged mode nothing is clamped.  For [?days=5] the
    limit and the offset that [route] passes on are -1, and without
    parameters so is [days]; a store of 366 days is then returned whole,
    beyond the cap of 365. *)
Lemma limit_not_clamped_outside_paged_mode :
  ~ clamped_in_every_mode days_only
  /\ ~ clamped_in_every_mode []
  /\ route_params days_only = (5, -1, -1)
  /\ (let days := fst (fst (route_params [])) in
      let limit := snd (fst (route_params [])) in
      let offset := snd (route_params []) in
      List.length (history_rows leap_year_table days limit offset t_new_year)
      = 366%nat).
Proof.
  split; [|split; [|split]].
  - intros (_ & Hl & _). vm_compute in Hl. destruct Hl as [Hl _].
    apply Hl. reflexivity.
  - intros (Hd & _). vm_compute in Hd. destruct Hd as [Hd _].
    apply Hd. reflexivity.
  - reflexivity.
  - vm_compute. reflexivity.
Qed.

(** ** Lifetime total *)

Lemma exact_add_zero (a : exact) : (a + d_of_Z 0)%D = a.
Proof.
  destruct a as [|[n d]]; [reflexivity|].
  cbn. unfold Qplus. cbn [Qnum Qden].
  rewrite Z.mul_1_r, Z.add_0_r, Pos.mul_1_r. reflexivity.
Qed.

Lemma exact_ltb_sub (a b : exact) :
  (d_of_Z 0 <? a - b)%D = (b <? a)%D.
Proof.
  destruct a as [|x], b as [|y]; try reflexivity.
  cbn [dltb dsub d_of_Z Double_exact exact_lift2 exact_ltb].
  destruct (Qcompare y x) eqn:Hc.
  - apply Qeq_alt in Hc.
    assert (Hn : ~ (inject_Z 0 < x - y)%Q).
    { intros Hlt. apply (Qlt_minus_iff y x) in Hlt.
      rewrite Hc in Hlt. apply (Qlt_irrefl x). exact Hlt. }
    destruct (Qcompare (inject_Z 0) (x - y)) eqn:Hc2; try reflexivity.
    exfalso. apply Hn. apply Qlt_alt. exact Hc2.
  - apply Qlt_alt in Hc. apply (Qlt_minus_iff y x) in Hc.
    apply Qlt_alt in Hc.
    assert (H : Qcompare (inject_Z 0) (x - y) = Lt) by exact Hc.
    rewrite H. reflexivity.
  - apply Qgt_alt in Hc.
    assert (Hn : ~ (inject_Z 0 < x - y)%Q).
    { intros Hlt. apply (Qlt_minus_iff y x) in Hlt.
      apply (Qlt_irrefl x). eapply Qlt_trans; eassumption. }
    destruct (Qcompare (inject_Z 0) (x - y)) eqn:Hc2; try reflexivity.
    exfalso. apply Hn. apply Qlt_alt. exact Hc2.
Qed.

Lemma float_ltb_nan (x y : float) :
  PrimFloat.is_nan x = true \/ PrimFloat.is_nan y = true ->
  PrimFloat.ltb x y = false.
Proof.
  assert (Hnan : forall z, PrimFloat.is_nan z = true -> Prim2SF z = S754_nan).
  { intros z Hz. unfold PrimFloat.is_nan in Hz.
    apply negb_true_iff in Hz. rewrite FloatAxioms.eqb_spec in Hz.
    destruct (Prim2SF z) as [sz | sz | | sz m e]; try reflexivity;
      exfalso; revert Hz; unfold SFeqb, SFcompare.
    - discriminate.
    - destruct sz; discriminate.
    - rewrite Z.compare_refl, Pos.compare_cont_refl.
      destruct sz; discriminate. }
  intros [H | H]; apply Hnan in H; rewrite FloatAxioms.ltb_spec, H;
    unfold SFltb, SFcompare; [reflexivity|].
  destruct (Prim2SF x); reflexivity.
Qed.

Lemma exact_add_pos_neq (a : exact) (x y : exact) :
  disnan a = false -> (y <? x)%D = true -> (a + (x - y))%D <> a.
Proof.
  destruct a as [|qa]; [discriminate|]. intros _.
  destruct x as [|qx], y as [|qy]; try discriminate.
  cbn [dltb dadd dsub Double_exact exact_lift2 exact_ltb].
  destruct (Qcompare qy qx) eqn:Hc; try discriminate. intros _ Heq.
  apply Qlt_alt in Hc.
  assert (Hq : (qa + (qx - qy) == qa)%Q)
    by (injection Heq as Heq; rewrite Heq; reflexivity).
  apply (Qlt_irrefl qx).
  assert (Hz : (qx - qy == 0)%Q).
  { setoid_replace (qx - qy)%Q with ((qa + (qx - qy)) - qa)%Q by ring.
    rewrite Hq. ring. }
  setoid_replace qx with ((qx - qy) + qy)%Q at 1 by ring.
  rewrite Hz, Qplus_0_l. exact Hc.
Qed.

(** C8 (amended): the [total_in] of the [rain] object of the current
    snapshot is [historical_total_in] plus the excess
    [rain_yearly_in - historical_yearly_in] when the yearly total is
    greater than the baseline, and [historical_total_in] itself otherwise,
    for every model of [double]; for the IEEE doubles the second case
    includes a yearly total or a baseline that is NaN.  In exact arithmetic
    this is [historical_total_in + max(0, rain_yearly_in -
    historical_yearly_in)], and there the total is [historical_total_in]
    exactly when the yearly total does not exceed the baseline. *)
Theorem lifetime_total_served :
  (forall D (DD : Double D) (st : WeatherStateV2 (D:=D)) h astro now,
      json_at (build_current_json st h astro now) "rain"
      = Some (build_rain_json st)
      /\ ((historical_yearly_in st <? rain_yearly_in st)%D = true ->
          served_total_in st h astro now
          = Some (JFloat (historical_total_in st
                          + (rain_yearly_in st - historical_yearly_in st))%D))
      /\ ((historical_yearly_in st <? rain_yearly_in st)%D = false ->
          served_total_in st h astro now
          = Some (JFloat (historical_total_in st))))
  /\ (forall (st : WeatherStateV2 (D:=float)) h astro now,
      PrimFloat.is_nan (rain_yearly_in st) = true
      \/ PrimFloat.is_nan (historical_yearly_in st) = true ->
      served_total_in st h astro now = Some (JFloat (historical_total_in st)))
  /\ (forall (st : WeatherStateV2 (D:=exact)) h astro now,
      served_total_in st h astro now
      = Some (JFloat (historical_total_in st
                      + dmax (d_of_Z 0)
                          (rain_yearly_in st - historical_yearly_in st))%D)
      /\ (disnan (historical_total_in st) = false ->
          (served_total_in st h astro now
           = Some (JFloat (historical_total_in st))
           <-> (historical_yearly_in st <? rain_yearly_in st)%D = false))).
Proof.
  assert (Hserved : forall D (DD : Double D) (st : WeatherStateV2 (D:=D))
                           h astro now,
            served_total_in st h astro now
            = Some (JFloat (rain_total_in st)))
    by reflexivity.
  split; [|split].
  - intros D DD st h astro now. split; [reflexivity|].
    rewrite Hserved. unfold rain_total_in.
    split; intros ->; reflexivity.
  - intros st h astro now Hnan. rewrite Hserved. unfold rain_total_in.
    change (dltb (historical_yearly_in st) (rain_yearly_in st))
      with (PrimFloat.ltb (historical_yearly_in st) (rain_yearly_in st)).
    rewrite float_ltb_nan; [reflexivity|].
    destruct Hnan as [H | H]; [right | left]; exact H.
  - intros st h astro now. rewrite Hserved. split.
    + unfold rain_total_in, dmax. rewrite exact_ltb_sub.
      destruct (historical_yearly_in st <? rain_yearly_in st)%D;
        [reflexivity|].
      rewrite exact_add_zero. reflexivity.
    + intros Hfin. unfold rain_total_in.
      destruct (historical_yearly_in st <? rain_yearly_in st)%D eqn:Hlt.
      * split; [|discriminate]. intros Heq. exfalso.
        apply (exact_add_pos_neq (historical_total_in st)
                 (rain_yearly_in st) (historical_yearly_in st) Hfin Hlt).
        injection Heq as Heq. exact Heq.
      * split; reflexivity.
Qed.

(** The formula of the claim fails on the doubles of the program.
    With the baseline [-0.0] and no rain this year the snapshot reports
    [-0.0], where the formula gives [-0.0 + max(0, 0) = +0.0]; with the
    baseline 2^53 and one inch of rain this year, the yearly total exceeds
    its baseline and the snapshot still reports the baseline, the excess
    being lost by rounding. *)
Lemma lifetime_total_not_by_formula :
  ~ lifetime_total_by_formula
      (load_state (LC:=Libc_utc) (Some (FileJson negative_zero_baseline))
         t_new_year)
  /\ ~ lifetime_total_by_formula
        (load_state (LC:=Libc_utc) (Some (FileJson huge_baseline))
           t_new_year).
Proof.
  split; intros H; destruct (H health_at_start JNull t_new_year) as [H1 H2].
  - apply (f_equal (fun o => match o with
                             | Some (JFloat d) => Prim2SF d
                             | _ => S754_nan
                             end)) in H1.
    vm_compute in H1. discriminate H1.
  - assert (Hs : served_total_in
                   (load_state (LC:=Libc_utc) (Some (FileJson huge_baseline))
                      t_new_year) health_at_start JNull t_new_year
                 = Some (JFloat (historical_total_in
                      (load_state (LC:=Libc_utc)
                         (Some (FileJson huge_baseline)) t_new_year))))
      by (vm_compute; reflexivity).
    apply H2 in Hs. vm_compute in Hs. discriminate Hs.
Qed.

Lemma lifetime_total_served_witness :
  let wet := set_rain_yearly_in (dec 70 0)
               (init_state_defaults (LC:=Libc_utc) t_new_year
                  : WeatherStateV2 (D:=float)) in
  let dry := set_rain_yearly_in (dec 10 0)
               (init_state_defaults (LC:=Libc_utc) t_new_year
                  : WeatherStateV2 (D:=float)) in
  served_total_in wet health_at_start JNull t_new_year
  = Some (JFloat (historical_total_in wet
                  + (rain_yearly_in wet - historical_yearly_in wet))%D)
  /\ served_total_in dry health_at_start JNull t_new_year
     = Some (JFloat (historical_total_in dry)).
Proof.
  split.
  - exact (proj1 (proj2 (proj1 lifetime_total_served float Double_float
             (set_rain_yearly_in (dec 70 0)
                (init_state_defaults (LC:=Libc_utc) t_new_year))
             health_at_start JNull t_new_year)) eq_refl).
  - exact (proj2 (proj2 (proj1 lifetime_total_served float Double_float
             (set_rain_yearly_in (dec 10 0)
                (init_state_defaults (LC:=Libc_utc) t_new_year))
             health_at_start JNull t_new_year)) eq_refl).
Defined.

(** ** The snapshot file *)

Lemma wrap_int64_small z : LONG_MIN <= z <= LONG_MAX -> wrap_int64 z = z.
Proof.
  unfold wrap_int64, wrap_signed, LONG_MIN, LONG_MAX. intros H.
  rewrite Z.mod_small; lia.
Qed.

Lemma wrap_uint64_int64 n : 0 <= n < 2 ^ 64 -> wrap_uint64 (wrap_int64 n) = n.
Proof.
  unfold wrap_uint64, wrap_int64, wrap_signed. intros H.
  change (64 - 1) with 63.
  rewrite Zminus_mod_idemp_l.
  replace (n + 2 ^ 63 - 2 ^ 63) with n by lia.
  apply Z.mod_small. exact H.
Qed.

Section Snapshot.

Context {D : Type} {DD : Double D} {LC : Libc}.

Implicit Types (st : WeatherStateV2 (D:=D)) (j v : json (D:=D)).

Lemma reparse_double d :
  disfinite d = true -> json_get_double (json_reparse (JFloat d)) = Some d.
Proof. cbn. intros ->. reflexivity. Qed.

Lemma reparse_int z :
  INT_MIN <= z <= INT_MAX -> json_get_int (json_reparse (JInt z)) = Some z.
Proof.
  intros H. cbn. destruct (0 <=? z); cbn; rewrite wrap_int_small; auto.
Qed.

Lemma reparse_long_long z :
  LONG_MIN <= z <= LONG_MAX ->
  json_get_long_long (json_reparse (JInt z)) = Some z.
Proof.
  intros H. cbn. destruct (0 <=? z); cbn; rewrite wrap_int64_small; auto.
Qed.

Lemma reparse_uint64 n :
  0 <= n < 2 ^ 64 ->
  json_get_uint64 (json_reparse (JInt (wrap_int64 n))) = Some n.
Proof.
  intros H. cbn. destruct (0 <=? wrap_int64 n); cbn;
    rewrite wrap_uint64_int64; auto.
Qed.

Lemma reparse_bool b : json_get_bool (json_reparse (JBool b)) = Some b.
Proof. reflexivity. Qed.

Lemma assoc_find_reparse k (m : list (string * json (D:=D))) :
  assoc_find k (map (fun kv => (fst kv, json_reparse (snd kv))) m)
  = option_map json_reparse (assoc_find k m).
Proof.
  induction m as [|[k2 v2] rest IH]; [reflexivity|].
  cbn [map assoc_find fst snd]. destruct (String.eqb k k2); [reflexivity|].
  exact IH.
Qed.

Lemma load_member_saved {A} m k (get : json -> option A) set v a st :
  assoc_find k m = Some v ->
  get (json_reparse v) = Some a ->
  load_member (json_reparse (JObj m)) k get set (Some st) = Some (set a st).
Proof.
  intros Hk Hget. unfold load_member. cbn [json_reparse json_at].
  rewrite assoc_find_reparse, Hk. cbn [option_map]. rewrite Hget.
  reflexivity.
Qed.

Lemma load_saved_members st now :
  snapshot_ok st ->
  load_members (json_reparse (snapshot_json st)) now = Some (persisted st).
Proof.
  intros (Hint & Hlong & Hcount & Hfin). unfold persisted_doubles in Hfin.
  repeat match goal with
         | H : Forall _ (_ :: _) |- _ =>
             let Hx := fresh "Hx" in
             apply Forall_cons_iff in H; destruct H as [Hx H]
         | H : Forall _ [] |- _ => clear H
         end.
  unfold load_members, snapshot_json.
  repeat (erewrite load_member_saved;
          [| reflexivity
           | first [ apply reparse_double; assumption
                   | apply reparse_int; assumption
                   | apply reparse_long_long; assumption
                   | apply reparse_uint64; assumption
                   | apply reparse_bool ] ]).
  reflexivity.
Qed.

Lemma ingest_saves_state (w : World (D:=D)) j now v rain :
  json_at j "rain_mm" = Some v ->
  json_get_double v = Some rain ->
  ((rain <? d_of_Z 0)%D || (d_of_Z 20000 <? rain)%D) = false ->
  state_file (fst (process_ws90_json_locked w j now))
  = Some (save_state (g_state (fst (process_ws90_json_locked w j now)))).
Proof.
  intros Hv Hget Hin. unfold process_ws90_json_locked.
  rewrite Hv, Hget, Hin.
  match goal with |- context [if ?b then _ else _] => destruct b end;
    reflexivity.
Qed.

End Snapshot.

(** C6 (amended): every accepted ingest (a rain reading in range)
    writes the snapshot of the resulting state.  The snapshot holds the
    rain accounting, the calendar keys, the historical offsets, the
    extremes, the wind tracking and the coverage time stamps; reading it
    back restores exactly these members, provided the doubles are finite,
    while the instantaneous telemetry, the hourly delta sequence and
    [last_rain_ts] come back as zero or empty.  Without a file, or with one
    that does not parse, the state is the freshly initialized one: the
    calendar keys of today, zero accumulators, [historical_seeded] true. *)
Theorem snapshot_save_load :
  forall D (DD : Double D) (LC : Libc),
    (forall (w : World (D:=D)) j now v rain,
        json_at j "rain_mm" = Some v ->
        json_get_double v = Some rain ->
        ((rain <? d_of_Z 0)%D || (d_of_Z 20000 <? rain)%D) = false ->
        state_file (fst (process_ws90_json_locked w j now))
        = Some (save_state (g_state (fst (process_ws90_json_locked w j now)))))
    /\ (forall (st : WeatherStateV2 (D:=D)) now,
        snapshot_ok st ->
        load_state (Some (save_state st)) now = persisted st)
    /\ (forall now,
        load_state (D:=D) None now = init_state_defaults now
        /\ load_state (D:=D) (Some FileGarbage) now = init_state_defaults now
        /\ calendar_keys (init_state_defaults (D:=D) now)
           = (ymd_from_time now, ym_from_time now, y_from_time now,
              ymd_from_time now)
        /\ accumulators (init_state_defaults (D:=D) now)
           = (d_of_Z 0, d_of_Z 0, d_of_Z 0, d_of_Z 0, d_of_Z 0, d_of_Z 0)
        /\ historical_seeded (init_state_defaults (D:=D) now) = true).
Proof.
  intros D DD LC. split; [|split].
  - intros w j now v rain. apply ingest_saves_state.
  - intros st now Hok. unfold load_state, save_state.
    rewrite (load_saved_members st now Hok). reflexivity.
  - intros now. repeat split; reflexivity.
Qed.

(** After a seeding sample and one accepted delta, the file written by
    that ingest does not give back the delta sequence. *)
Lemma snapshot_loses_hourly_deltas :
  ~ snapshot_restores_aggregation (LC:=Libc_utc)
      (Run.ingest Run.seeded_world (Run.sample 101 20) (Run.t_morning + 60))
      (Run.t_morning + 120).
Proof.
  unfold snapshot_restores_aggregation. intros H.
  apply (f_equal (fun t => match t with
                           | (_, _, d, _, _, _, _, _, _, _) => List.length d
                           end)) in H.
  vm_compute in H. discriminate H.
Qed.

Lemma snapshot_save_load_witness :
  let st := g_state (Run.ingest Run.seeded_world (Run.sample 101 20)
                       (Run.t_morning + 60)) in
  load_state (LC:=Libc_utc) (Some (save_state st)) (Run.t_morning + 120)
  = persisted st.
Proof.
  apply (proj1 (proj2 (snapshot_save_load float Double_float Libc_utc))).
  unfold snapshot_ok, persisted_doubles.
  repeat split; repeat constructor; vm_compute; (reflexivity || discriminate).
Defined.

Lemma history_mode_by_presence_witness :
  mode_paged 7 1 0 = true
  /\ history_rows two_days 7 1 0 t_new_year = [row_of_day (t_new_year - 86400)]
  /\ exists matching,
       StronglySorted day_le matching
       /\ Permutation matching
            (filter (fun r => t_new_year - 7 * 86400 <=? day_ts r) two_days)
       /\ history_rows two_days 7 1 0 t_new_year
          = firstn 1 (skipn 0 matching).
Proof.
  destruct (history_mode_by_presence float Double_float week_page two_days
              t_new_year) as (_ & _ & M3 & _ & _ & _ & Hp & _).
  split; [exact M3|]. split; [reflexivity|].
  destruct (Hp eq_refl) as (_ & _ & _ & matching & Hs & Hperm & Hrows).
  exists matching. split; [exact Hs|]. split; [exact Hperm | exact Hrows].
Defined.

Lemma query_parameters_clamped_when_parsed_witness :
  route_params wild_args = (3650, 100, 0)
  /\ status (route (D:=float) None wild_args "/api/v2/history/rain" "GET"
               t_new_year) = 200.
Proof.
  destruct (query_parameters_clamped_when_parsed float Double_float wild_args)
    as (Hpaged & _ & _ & _ & Hok).
  split.
  - destruct (Hpaged eq_refl) as (Hd & Hl & Ho & _).
    rewrite (surjective_pairing (route_params wild_args)).
    rewrite (surjective_pairing (fst (route_params wild_args))).
    rewrite Hd, Hl, Ho. reflexivity.
  - apply Hok. right; right; left. reflexivity.
Defined.

(** * Further properties *)

(** ** The paths of an ingest *)

Section IngestPaths.

Context {D : Type} {DD : Double D} {LC : Libc}.

Implicit Types (st : WeatherStateV2 (D:=D)) (db : option (table (D:=D)))
  (w : World (D:=D)) (j : json (D:=D)).

Lemma get_double_is_number (v : json (D:=D)) :
  json_get_double v = None <-> is_number v = false.
Proof. destruct v; cbn; split; congruence. Qed.

(** The state after a sample that passes the range check and is not the
    seeding one. *)
Lemma process_tracked w j now v rain :
  json_at j "rain_mm" = Some v ->
  json_get_double v = Some rain ->
  ((rain <? d_of_Z 0)%D || (d_of_Z 20000 <? rain)%D) = false ->
  (last_rain_mm (g_state w) =? d_of_Z 0)%D = false ->
  let st1 := fst (rollover_if_needed (store_telemetry j (g_state w))
                    (g_db w) now) in
  process_ws90_json_locked w j now =
  (let st := track_wind (track_humidity j (track_temperature j
               (set_last_update now (set_last_rain_mm rain
                  (accumulate_rain (track_coverage st1 now) rain now))))) in
   (mk_world st
      (snd (rollover_if_needed (store_telemetry j (g_state w)) (g_db w) now))
      (Some (save_state st)), Returned)).
Proof.
  intros Hv Hget Hin Hseed st1. unfold process_ws90_json_locked.
  rewrite Hv, Hget, Hin. fold st1.
  destruct (track_coverage_frame st1 now) as (Hl & _).
  rewrite Hl. subst st1. rewrite rollover_last_rain_mm.
  change (last_rain_mm (store_telemetry j (g_state w)))
    with (last_rain_mm (g_state w)).
  rewrite Hseed. reflexivity.
Qed.

(** The state after a seeding sample. *)
Lemma process_seeding w j now v rain :
  json_at j "rain_mm" = Some v ->
  json_get_double v = Some rain ->
  ((rain <? d_of_Z 0)%D || (d_of_Z 20000 <? rain)%D) = false ->
  (last_rain_mm (g_state w) =? d_of_Z 0)%D = true ->
  let st1 := fst (rollover_if_needed (store_telemetry j (g_state w))
                    (g_db w) now) in
  process_ws90_json_locked w j now =
  (let st := set_last_update now (set_last_rain_mm rain
               (track_coverage st1 now)) in
   (mk_world st
      (snd (rollover_if_needed (store_telemetry j (g_state w)) (g_db w) now))
      (Some (save_state st)), Returned)).
Proof.
  intros Hv Hget Hin Hseed st1. unfold process_ws90_json_locked.
  rewrite Hv, Hget, Hin. fold st1.
  destruct (track_coverage_frame st1 now) as (Hl & _).
  rewrite Hl. subst st1. rewrite rollover_last_rain_mm.
  change (last_rain_mm (store_telemetry j (g_state w)))
    with (last_rain_mm (g_state w)).
  rewrite Hseed. reflexivity.
Qed.

(** X1: an ingest fails (the exception reaches the poller) exactly when
    [rain_mm] is present and is not a number; then only the telemetry
    members have been assigned: the aggregation state, [last_update], the
    store and the snapshot file are as before. *)
Theorem ingest_throws_iff_rain_not_a_number w j now :
  (snd (process_ws90_json_locked w j now) = Threw <->
   exists v, json_at j "rain_mm" = Some v /\ is_number v = false)
  /\ (snd (process_ws90_json_locked w j now) = Threw ->
      let w' := fst (process_ws90_json_locked w j now) in
      g_state w' = store_telemetry j (g_state w)
      /\ aggregation (g_state w') = aggregation (g_state w)
      /\ last_update (g_state w') = last_update (g_state w)
      /\ g_db w' = g_db w
      /\ state_file w' = state_file w).
Proof.
  unfold process_ws90_json_locked.
  destruct (json_at j "rain_mm") as [v|] eqn:Hv.
  - destruct (json_get_double v) as [rain|] eqn:Hget.
    + assert (Hnum : is_number v = true)
        by (destruct v; cbn in *; congruence).
      assert (Hret : forall (b : bool) (x y : (World (D:=D) * outcome)%type),
                 snd x = Returned -> snd y = Returned ->
                 snd (if b then x else y) = Threw -> False)
        by (intros b x y Hx Hy H; destruct b; congruence).
      split.
      * split.
        -- intros H. exfalso.
           destruct ((rain <? d_of_Z 0)%D || (d_of_Z 20000 <? rain)%D);
             [discriminate H|].
           revert H. apply Hret; reflexivity.
        -- intros (v2 & Hv2 & Hn). injection Hv2 as <-. congruence.
      * intros H. exfalso.
        destruct ((rain <? d_of_Z 0)%D || (d_of_Z 20000 <? rain)%D);
          [discriminate H|].
        revert H. apply Hret; reflexivity.
    + split.
      * split; [|reflexivity].
        intros _. exists v. split; [reflexivity|].
        apply get_double_is_number. exact Hget.
      * intros _. repeat split; reflexivity.
  - split.
    + split; [discriminate|]. intros (v & Hv2 & _). discriminate Hv2.
    + discriminate.
Qed.

End IngestPaths.

(** ** Event accounting, extremes and wind *)

Section Trackers.

Context {D : Type} {DD : Double D} {LC : Libc}.

Implicit Types (st : WeatherStateV2 (D:=D)) (db : option (table (D:=D)))
  (w : World (D:=D)) (j : json (D:=D)).

Lemma later_checks_event st now :
  event_accounting
    (week_rollover (year_rollover (month_rollover st now) now) now)
  = event_accounting st
  /\ (wind_avg_m_s
        (week_rollover (year_rollover (month_rollover st now) now) now),
      wind_max_m_s
        (week_rollover (year_rollover (month_rollover st now) now) now))
     = (wind_avg_m_s st, wind_max_m_s st).
Proof.
  unfold week_rollover, year_rollover, month_rollover.
  split_ifs; split; reflexivity.
Qed.

Lemma rollover_event st db now :
  event_accounting (fst (rollover_if_needed st db now)) = event_accounting st
  /\ (wind_avg_m_s (fst (rollover_if_needed st db now)),
      wind_max_m_s (fst (rollover_if_needed st db now)))
     = (wind_avg_m_s st, wind_max_m_s st).
Proof.
  unfold rollover_if_needed. cbn [fst].
  destruct (later_checks_event
              (fst (day_rollover (adopt_keys st now) db now)) now) as [-> ->].
  assert (Hk : event_accounting (adopt_keys st now) = event_accounting st
               /\ (wind_avg_m_s (adopt_keys st now),
                   wind_max_m_s (adopt_keys st now))
                  = (wind_avg_m_s st, wind_max_m_s st))
    by (unfold adopt_keys; split_ifs; split; reflexivity).
  destruct Hk as [<- <-].
  unfold day_rollover.
  destruct (day_fires (adopt_keys st now) now); split; reflexivity.
Qed.

Lemma track_coverage_views st now :
  event_accounting (track_coverage st now) = event_accounting st
  /\ tracker_view (track_coverage st now) = tracker_view st.
Proof. unfold track_coverage. split_ifs; split; reflexivity. Qed.

Lemma accumulate_rain_tracker_view st rain now :
  tracker_view (accumulate_rain st rain now) = tracker_view st.
Proof.
  unfold accumulate_rain, recompute_hourly. split_ifs; reflexivity.
Qed.

Lemma accumulate_rain_event st rain now :
  event_accounting (accumulate_rain st rain now) =
  if delta_accepted (rain - last_rain_mm st)%D
  then (event_after st (inches_from_mm (rain - last_rain_mm st)%D) now, now)
  else event_accounting st.
Proof.
  unfold accumulate_rain, event_after.
  destruct (delta_accepted (rain - last_rain_mm st)%D); [|reflexivity].
  cbn zeta.
  change (last_rain_ts (recompute_hourly ?s now)) with (last_rain_ts s).
  cbn [last_rain_ts set_deltas set_rain_weekly_in set_rain_yearly_in
       set_rain_monthly_in set_rain_daily_in].
  destruct ((last_rain_ts st =? 0)
            || (EVENT_GAP_MIN * 60 <? now - last_rain_ts st)); reflexivity.
Qed.

Lemma track_temperature_spec j st :
  temp_extremes (track_temperature j st)
  = widen (temp_extremes st) (get_num j "temperature_C" dnan)
  /\ hum_extremes (track_temperature j st) = hum_extremes st
  /\ wind_tracking (track_temperature j st) = wind_tracking st
  /\ (wind_avg_m_s (track_temperature j st),
      wind_max_m_s (track_temperature j st))
     = (wind_avg_m_s st, wind_max_m_s st)
  /\ event_accounting (track_temperature j st) = event_accounting st.
Proof.
  unfold track_temperature, widen, temp_extremes.
  destruct (disnan (get_num j "temperature_C" dnan)); cbn [negb];
    [repeat split; reflexivity|].
  destruct (have_temp st) eqn:E; cbn [negb]; repeat split;
    cbn; rewrite ?E; reflexivity.
Qed.

Lemma track_humidity_spec j st :
  hum_extremes (track_humidity j st)
  = widen (hum_extremes st) (get_num j "humidity" dnan)
  /\ temp_extremes (track_humidity j st) = temp_extremes st
  /\ wind_tracking (track_humidity j st) = wind_tracking st
  /\ (wind_avg_m_s (track_humidity j st),
      wind_max_m_s (track_humidity j st))
     = (wind_avg_m_s st, wind_max_m_s st)
  /\ event_accounting (track_humidity j st) = event_accounting st.
Proof.
  unfold track_humidity, widen, hum_extremes.
  destruct (disnan (get_num j "humidity" dnan)); cbn [negb];
    [repeat split; reflexivity|].
  destruct (have_hum st) eqn:E; cbn [negb]; repeat split;
    cbn; rewrite ?E; reflexivity.
Qed.

Lemma track_wind_spec st :
  wind_tracking (track_wind st)
  = wind_after (wind_tracking st) (wind_avg_m_s st) (wind_max_m_s st)
  /\ temp_extremes (track_wind st) = temp_extremes st
  /\ hum_extremes (track_wind st) = hum_extremes st
  /\ event_accounting (track_wind st) = event_accounting st.
Proof.
  unfold track_wind, wind_after, wind_tracking.
  destruct (disnan (wind_avg_m_s st)), (disnan (wind_max_m_s st));
    cbn [negb andb orb]; try (repeat split; reflexivity).
  destruct (have_wind st) eqn:E; cbn [negb];
    [|repeat split; cbn; rewrite ?E; reflexivity].
  cbn [wind_max_gust_m_s wind_max_m_s set_wind_sample_count
       set_wind_mean_m_s].
  destruct (wind_max_gust_m_s st <? wind_max_m_s st)%D;
    repeat split; cbn; rewrite ?E; reflexivity.
Qed.

End Trackers.

Section TrackerClaims.

Context {D : Type} {DD : Double D} {LC : Libc}.

Implicit Types (st : WeatherStateV2 (D:=D)) (db : option (table (D:=D)))
  (w : World (D:=D)) (j : json (D:=D)).

(** What a tracked sample leaves in the trackers and in the event
    accounting, in terms of the state before the ingest. *)
Lemma tracked_sample w j now v rain :
  json_at j "rain_mm" = Some v ->
  json_get_double v = Some rain ->
  ((rain <? d_of_Z 0)%D || (d_of_Z 20000 <? rain)%D) = false ->
  (last_rain_mm (g_state w) =? d_of_Z 0)%D = false ->
  let st := g_state w in
  let fires := day_fires (adopt_keys (store_telemetry j st) now) now in
  let st' := g_state (fst (process_ws90_json_locked w j now)) in
  temp_extremes st' =
    widen ((if fires then false else have_temp st),
           temp_high_c st, temp_low_c st)
      (get_num j "temperature_C" dnan)
  /\ hum_extremes st' =
    widen ((if fires then false else have_hum st), hum_high st, hum_low st)
      (get_num j "humidity" dnan)
  /\ wind_tracking st' =
    wind_after (if fires then (false, d_of_Z 0, d_of_Z 0, 0)
                else wind_tracking st)
      (get_num j "wind_avg_m_s" (d_of_Z 0))
      (get_num j "wind_max_m_s" (d_of_Z 0))
  /\ event_accounting st' =
    (if delta_accepted (rain - last_rain_mm st)%D
     then (event_after st (inches_from_mm (rain - last_rain_mm st)%D) now, now)
     else event_accounting st).
Proof.
  intros Hv Hget Hin Hseed st fires st'. subst st'.
  rewrite (process_tracked w j now v rain Hv Hget Hin Hseed).
  cbn zeta. cbn [fst g_state].
  set (st1 := fst (rollover_if_needed (store_telemetry j (g_state w))
                     (g_db w) now)).
  set (st2 := track_coverage st1 now).
  set (st3 := set_last_update now
                (set_last_rain_mm rain (accumulate_rain st2 rain now))).
  destruct (track_wind_spec (track_humidity j (track_temperature j st3)))
    as (Ww & Wt & Wh & We).
  destruct (track_humidity_spec j (track_temperature j st3))
    as (Hh & Ht & Hw & Hs & He).
  destruct (track_temperature_spec j st3) as (Tt & Th & Tw & Ts & Te).
  (* the view of the trackers on [st3] is the one on [st1] *)
  assert (Hview : tracker_view st3 = tracker_view st1).
  { change (tracker_view st3)
      with (tracker_view (accumulate_rain st2 rain now)).
    rewrite accumulate_rain_tracker_view. subst st2.
    apply track_coverage_views. }
  unfold tracker_view in Hview.
  apply tuple6_eq in Hview. destruct Hview as (V1 & V2 & V3 & V4 & V5 & _).
  destruct (rollover_event (store_telemetry j (g_state w)) (g_db w) now)
    as [Re Rw]. fold st1 in Re, Rw.
  assert (Hlast2 : last_rain_mm st2 = last_rain_mm st).
  { subst st2. destruct (track_coverage_frame st1 now) as (-> & _).
    subst st1. rewrite rollover_last_rain_mm. reflexivity. }
  split; [|split; [|split]].
  - rewrite Wt, Ht, Tt, V1. subst st1. rewrite rollover_temp_extremes.
    reflexivity.
  - rewrite Wh, Hh, Th, V2. subst st1. rewrite rollover_hum_extremes.
    reflexivity.
  - rewrite Ww, Hw, Tw, V3.
    pose proof (f_equal fst Hs) as Hs1. pose proof (f_equal snd Hs) as Hs2.
    pose proof (f_equal fst Ts) as Ts1. pose proof (f_equal snd Ts) as Ts2.
    pose proof (f_equal fst Rw) as Rw1. pose proof (f_equal snd Rw) as Rw2.
    cbn [fst snd] in Hs1, Hs2, Ts1, Ts2, Rw1, Rw2.
    rewrite Hs1, Hs2, Ts1, Ts2, V4, V5, Rw1, Rw2.
    subst st1. rewrite rollover_wind_tracking. reflexivity.
  - rewrite We, He, Te.
    change (event_accounting st3)
      with (event_accounting (accumulate_rain st2 rain now)).
    rewrite accumulate_rain_event, Hlast2.
    assert (Hev : event_accounting st2 = event_accounting st).
    { subst st2. destruct (track_coverage_views st1 now) as [-> _].
      exact Re. }
    destruct (delta_accepted (rain - last_rain_mm st)%D); [|exact Hev].
    pose proof (f_equal fst Hev) as Hev1.
    pose proof (f_equal snd Hev) as Hev2.
    cbn [fst snd event_accounting] in Hev1, Hev2.
    unfold event_after. rewrite Hev1, Hev2. reflexivity.
Qed.

End TrackerClaims.

Lemma exact_ltb_irrefl (x : exact) : (x <? x)%D = false.
Proof.
  destruct x as [|q]; [reflexivity|]. cbn.
  assert (H : Qcompare q q = Eq) by (apply Qeq_alt; reflexivity).
  rewrite H. reflexivity.
Qed.

Section TrackerProperties.

Context {D : Type} {DD : Double D} {LC : Libc}.

Implicit Types (st : WeatherStateV2 (D:=D)) (db : option (table (D:=D)))
  (w : World (D:=D)) (j : json (D:=D)).

Lemma adopt_keys_daily_ymd st now :
  daily_ymd (adopt_keys st now) =
  if daily_ymd st =? 0 then ymd_from_time now else daily_ymd st.
Proof. unfold adopt_keys. split_ifs; reflexivity. Qed.

Lemma day_fires_telemetry j st now :
  day_fires (adopt_keys (store_telemetry j st) now) now
  = day_fires (adopt_keys st now) now.
Proof. unfold day_fires. rewrite !adopt_keys_daily_ymd. reflexivity. Qed.

(** X2: for a sample with a rain reading in range, the event total and
    the time of the last rain change only when a delta is accepted; then
    the inches of the delta are added to the event total, which first
    restarts from zero if there was no rain event before or the last rain
    is more than 30 minutes old, and the time of the last rain becomes
    [now]. *)
Theorem event_accounting_rule w j now v rain :
  json_at j "rain_mm" = Some v ->
  json_get_double v = Some rain ->
  ((rain <? d_of_Z 0)%D || (d_of_Z 20000 <? rain)%D) = false ->
  let st := g_state w in
  let st' := g_state (fst (process_ws90_json_locked w j now)) in
  let delta := (rain - last_rain_mm st)%D in
  event_accounting st' =
    if (last_rain_mm st =? d_of_Z 0)%D || negb (delta_accepted delta)
    then event_accounting st
    else (dadd (if (last_rain_ts st =? 0) || (30 * 60 <? now - last_rain_ts st)
                then d_of_Z 0 else rain_event_in st)
               (inches_from_mm delta), now).
Proof.
  intros Hv Hget Hin st st' delta. subst st'.
  destruct (last_rain_mm st =? d_of_Z 0)%D eqn:Hseed; cbn [orb].
  - rewrite (process_seeding w j now v rain Hv Hget Hin Hseed).
    cbn zeta. cbn [fst g_state].
    change (event_accounting (set_last_update now (set_last_rain_mm rain ?s)))
      with (event_accounting s).
    destruct (track_coverage_views
                (fst (rollover_if_needed (store_telemetry j (g_state w))
                        (g_db w) now)) now) as [-> _].
    destruct (rollover_event (store_telemetry j (g_state w)) (g_db w) now)
      as [-> _].
    reflexivity.
  - destruct (tracked_sample w j now v rain Hv Hget Hin Hseed)
      as (_ & _ & _ & He).
    cbv zeta in He. rewrite He. fold st. fold delta.
    destruct (delta_accepted delta); reflexivity.
Qed.

(** X3: a sample that reaches the trackers widens the temperature and
    humidity extremes: the first observation since the day rollover sets
    high and low to the sample, a later one takes the maximum and the
    minimum, and a sample without the value (or with a non-number) leaves
    the extremes as they are.  The day rollover of the same ingest clears
    the flag first. *)
Theorem extremes_widen w j now v rain :
  json_at j "rain_mm" = Some v ->
  json_get_double v = Some rain ->
  ((rain <? d_of_Z 0)%D || (d_of_Z 20000 <? rain)%D) = false ->
  (last_rain_mm (g_state w) =? d_of_Z 0)%D = false ->
  let st := g_state w in
  let fires := day_fires (adopt_keys st now) now in
  let st' := g_state (fst (process_ws90_json_locked w j now)) in
  let tC := get_num j "temperature_C" dnan in
  let h := get_num j "humidity" dnan in
  temp_extremes st' =
    (if disnan tC
     then ((if fires then false else have_temp st),
           temp_high_c st, temp_low_c st)
     else if (if fires then false else have_temp st)
          then (true, dmax (temp_high_c st) tC, dmin (temp_low_c st) tC)
          else (true, tC, tC))
  /\ hum_extremes st' =
    (if disnan h
     then ((if fires then false else have_hum st), hum_high st, hum_low st)
     else if (if fires then false else have_hum st)
          then (true, dmax (hum_high st) h, dmin (hum_low st) h)
          else (true, h, h))
  /\ (json_at j "temperature_C" = None ->
      temp_high_c st' = temp_high_c st /\ temp_low_c st' = temp_low_c st).
Proof.
  intros Hv Hget Hin Hseed st fires st' tC h.
  destruct (tracked_sample w j now v rain Hv Hget Hin Hseed)
    as (Ht & Hh & _).
  cbv zeta in Ht, Hh. rewrite day_fires_telemetry in Ht, Hh.
  fold st fires st' in Ht, Hh. fold tC in Ht. fold h in Hh.
  unfold widen in Ht, Hh.
  split; [exact Ht | split; [exact Hh|]].
  intros Hnone.
  assert (HtC : disnan tC = true).
  { subst tC. unfold get_num. rewrite Hnone. apply disnan_nan. }
  rewrite HtC in Ht.
  pose proof (f_equal (fun t => snd (fst t)) Ht) as H1.
  pose proof (f_equal snd Ht) as H2.
  cbn [fst snd temp_extremes] in H1, H2. split; assumption.
Qed.

(** X5: a sample that reaches the trackers is one more wind sample,
    with the speeds that the telemetry assignment stored: the first one
    of the day sets mean and maximal gust, a later one updates the running
    mean [(mean * n + avg) / (n + 1)] and the maximum and counts one more.
    The stored speeds are 0 when the payload has no wind members, so a
    payload without wind counts as a calm sample. *)
Theorem wind_running_mean w j now v rain :
  json_at j "rain_mm" = Some v ->
  json_get_double v = Some rain ->
  ((rain <? d_of_Z 0)%D || (d_of_Z 20000 <? rain)%D) = false ->
  (last_rain_mm (g_state w) =? d_of_Z 0)%D = false ->
  let st := g_state w in
  let fires := day_fires (adopt_keys st now) now in
  let st' := g_state (fst (process_ws90_json_locked w j now)) in
  let avg := get_num j "wind_avg_m_s" (d_of_Z 0) in
  let gust := get_num j "wind_max_m_s" (d_of_Z 0) in
  let have := if fires then false else have_wind st in
  let n := wind_sample_count st in
  wind_tracking st' =
    (if disnan avg || disnan gust
     then (if fires then (false, d_of_Z 0, d_of_Z 0, 0) else wind_tracking st)
     else if have
          then (true,
                ((wind_mean_m_s st * d_of_Z n + avg)
                 / d_of_Z (wrap_uint64 (n + 1)))%D,
                (if (wind_max_gust_m_s st <? gust)%D
                 then gust else wind_max_gust_m_s st),
                wrap_uint64 (n + 1))
          else (true, avg, gust, 1))
  /\ (json_at j "wind_avg_m_s" = None -> json_at j "wind_max_m_s" = None ->
      disnan (d_of_Z 0 : D) = false ->
      have_wind st' = true
      /\ wind_sample_count st' = (if have then wrap_uint64 (n + 1) else 1)).
Proof.
  intros Hv Hget Hin Hseed st fires st' avg gust have n.
  destruct (tracked_sample w j now v rain Hv Hget Hin Hseed)
    as (_ & _ & Hw & _).
  cbv zeta in Hw. rewrite day_fires_telemetry in Hw.
  fold st fires st' in Hw. fold avg gust in Hw.
  assert (Hmain : wind_tracking st' =
    (if disnan avg || disnan gust
     then (if fires then (false, d_of_Z 0, d_of_Z 0, 0) else wind_tracking st)
     else if have
          then (true,
                ((wind_mean_m_s st * d_of_Z n + avg)
                 / d_of_Z (wrap_uint64 (n + 1)))%D,
                (if (wind_max_gust_m_s st <? gust)%D
                 then gust else wind_max_gust_m_s st),
                wrap_uint64 (n + 1))
          else (true, avg, gust, 1))).
  { rewrite Hw. subst have n. unfold wind_after, wind_tracking.
    destruct fires; reflexivity. }
  split; [exact Hmain|].
  intros Ha Hg Hzero.
  assert (Havg : avg = d_of_Z 0) by (subst avg; unfold get_num; rewrite Ha; reflexivity).
  assert (Hgust : gust = d_of_Z 0) by (subst gust; unfold get_num; rewrite Hg; reflexivity).
  rewrite Havg, Hgust, Hzero in Hmain. cbn [orb] in Hmain.
  pose proof (f_equal (fun t => fst (fst (fst t))) Hmain) as H1.
  pose proof (f_equal snd Hmain) as H2.
  cbn [fst snd wind_tracking] in H1, H2.
  rewrite H1, H2. destruct have; split; reflexivity.
Qed.

(** X6: within a day the [have_*] flags never go back to false: an
    ingest on which the day does not roll over, whatever the payload and
    whether it is rejected, seeds, is tracked or fails, keeps every flag
    that was set. *)
Theorem flags_persist_within_day w j now :
  day_fires (adopt_keys (g_state w) now) now = false ->
  let st := g_state w in
  let st' := g_state (fst (process_ws90_json_locked w j now)) in
  (have_temp st = true -> have_temp st' = true)
  /\ (have_hum st = true -> have_hum st' = true)
  /\ (have_wind st = true -> have_wind st' = true).
Proof.
  intros Hday st st'. fold st in Hday.
  assert (Hkeep : (temp_extremes st' = temp_extremes st
                   /\ hum_extremes st' = hum_extremes st
                   /\ wind_tracking st' = wind_tracking st)
                  \/ exists v rain,
                       json_at j "rain_mm" = Some v
                       /\ json_get_double v = Some rain
                       /\ ((rain <? d_of_Z 0)%D
                           || (d_of_Z 20000 <? rain)%D) = false
                       /\ (last_rain_mm st =? d_of_Z 0)%D = false).
  { subst st'. unfold process_ws90_json_locked.
    destruct (json_at j "rain_mm") as [v|] eqn:Hv;
      [|left; repeat split; reflexivity].
    destruct (json_get_double v) as [rain|] eqn:Hget;
      [|left; repeat split; reflexivity].
    destruct ((rain <? d_of_Z 0)%D || (d_of_Z 20000 <? rain)%D) eqn:Hin;
      [left; repeat split; reflexivity|].
    destruct (last_rain_mm st =? d_of_Z 0)%D eqn:Hseed.
    - left.
      set (st1 := fst (rollover_if_needed (store_telemetry j (g_state w))
                         (g_db w) now)).
      destruct (track_coverage_frame st1 now) as (Hl & _ & _ & Ht & Hh & Hw).
      rewrite Hl. subst st1. rewrite rollover_last_rain_mm.
      change (last_rain_mm (store_telemetry j (g_state w)))
        with (last_rain_mm st).
      rewrite Hseed. cbn [fst g_state].
      change (temp_extremes (set_last_update now (set_last_rain_mm rain ?s)))
        with (temp_extremes s).
      change (hum_extremes (set_last_update now (set_last_rain_mm rain ?s)))
        with (hum_extremes s).
      change (wind_tracking (set_last_update now (set_last_rain_mm rain ?s)))
        with (wind_tracking s).
      rewrite Ht, Hh, Hw, rollover_temp_extremes, rollover_hum_extremes,
        rollover_wind_tracking, day_fires_telemetry.
      fold st. rewrite Hday. repeat split; reflexivity.
    - right. exists v, rain. repeat split; assumption. }
  destruct Hkeep as [(Ht & Hh & Hw) | (v & rain & Hv & Hget & Hin & Hseed)].
  - pose proof (f_equal (fun t => fst (fst t)) Ht) as H1.
    pose proof (f_equal (fun t => fst (fst t)) Hh) as H2.
    pose proof (f_equal (fun t => fst (fst (fst t))) Hw) as H3.
    cbn [fst temp_extremes hum_extremes wind_tracking] in H1, H2, H3.
    rewrite H1, H2, H3. auto.
  - destruct (tracked_sample w j now v rain Hv Hget Hin Hseed)
      as (Ht & Hh & Hw & _).
    cbv zeta in Ht, Hh, Hw. rewrite day_fires_telemetry in Ht, Hh, Hw.
    fold st st' in Ht, Hh, Hw. rewrite Hday in Ht, Hh, Hw.
    pose proof (f_equal (fun t => fst (fst t)) Ht) as H1.
    pose proof (f_equal (fun t => fst (fst t)) Hh) as H2.
    pose proof (f_equal (fun t => fst (fst (fst t))) Hw) as H3.
    cbn [fst temp_extremes hum_extremes] in H1, H2.
    cbv beta in H3.
    change (fst (fst (fst (wind_tracking st')))) with (have_wind st') in H3.
    rewrite H1, H2, H3. unfold widen, wind_after, wind_tracking.
    repeat split; intros ->; split_ifs; reflexivity.
Qed.

End TrackerProperties.

Section Bracket.

Context {D : Type} {DD : Double D} {LC : Libc}.

(** X4: when the order on the numbers is irreflexive, the extremes
    bracket every tracked observation: after a tracked sample with a
    temperature, the high of the day is not below it and the low is not
    above it; the same holds for the humidity. *)
Theorem extremes_bracket_sample (w : World (D:=D)) (j : json (D:=D)) now v rain :
  (forall x : D, (x <? x)%D = false) ->
  json_at j "rain_mm" = Some v ->
  json_get_double v = Some rain ->
  ((rain <? d_of_Z 0)%D || (d_of_Z 20000 <? rain)%D) = false ->
  (last_rain_mm (g_state w) =? d_of_Z 0)%D = false ->
  let st' := g_state (fst (process_ws90_json_locked w j now)) in
  let tC := get_num j "temperature_C" dnan in
  let h := get_num j "humidity" dnan in
  (disnan tC = false ->
   have_temp st' = true
   /\ (temp_high_c st' <? tC)%D = false /\ (tC <? temp_low_c st')%D = false)
  /\ (disnan h = false ->
      have_hum st' = true
      /\ (hum_high st' <? h)%D = false /\ (h <? hum_low st')%D = false).
Proof.
  intros Hirr Hv Hget Hin Hseed st' tC h.
  destruct (tracked_sample w j now v rain Hv Hget Hin Hseed)
    as (Ht & Hh & _).
  cbv zeta in Ht, Hh. fold st' in Ht, Hh. fold tC in Ht. fold h in Hh.
  assert (Hwiden : forall (e : bool * D * D) x, disnan x = false ->
            fst (fst (widen e x)) = true
            /\ (snd (fst (widen e x)) <? x)%D = false
            /\ (x <? snd (widen e x))%D = false).
  { intros [[b hi] lo] x Hx. unfold widen. rewrite Hx.
    destruct b; cbn [fst snd]; unfold dmax, dmin.
    - split; [reflexivity|].
      destruct (hi <? x)%D eqn:E1; destruct (x <? lo)%D eqn:E2;
        rewrite ?Hirr, ?E1, ?E2; split; reflexivity.
    - rewrite Hirr. repeat split. }
  split; intros Hx.
  - change (have_temp st') with (fst (fst (temp_extremes st'))).
    change (temp_high_c st') with (snd (fst (temp_extremes st'))).
    change (temp_low_c st') with (snd (temp_extremes st')).
    rewrite Ht. apply Hwiden, Hx.
  - change (have_hum st') with (fst (fst (hum_extremes st'))).
    change (hum_high st') with (snd (fst (hum_extremes st'))).
    change (hum_low st') with (snd (hum_extremes st')).
    rewrite Hh. apply Hwiden, Hx.
Qed.

End Bracket.

Lemma event_accounting_rule_witness :
  let w := Run.seeded_world in
  let now := Run.t_morning + 60 in
  event_accounting
    (g_state (fst (process_ws90_json_locked (LC:=Libc_utc) w
                     (Run.sample 101 22) now)))
  = (dadd (d_of_Z 0) (inches_from_mm (dsub (d_of_Z 101) (d_of_Z 100))), now).
Proof.
  exact (event_accounting_rule (LC:=Libc_utc) Run.seeded_world
           (Run.sample 101 22) (Run.t_morning + 60) (JInt 101) (d_of_Z 101)
           eq_refl eq_refl eq_refl).
Defined.

Lemma extremes_widen_witness :
  let w := Run.seeded_world in
  let now := Run.t_morning + 60 in
  let st' := g_state (fst (process_ws90_json_locked (LC:=Libc_utc) w
                             (Run.sample 101 22) now)) in
  temp_extremes st' = (true, d_of_Z 22, d_of_Z 22)
  /\ hum_extremes st' = (true, d_of_Z 50, d_of_Z 50).
Proof.
  pose proof (extremes_widen (LC:=Libc_utc) Run.seeded_world
                (Run.sample 101 22) (Run.t_morning + 60) (JInt 101)
                (d_of_Z 101) eq_refl eq_refl eq_refl eq_refl) as H.
  split; [exact (proj1 H) | exact (proj1 (proj2 H))].
Defined.

Lemma extremes_bracket_sample_witness :
  let st' := g_state (fst (process_ws90_json_locked (LC:=Libc_utc)
                             RunExact.seeded_world
                             (RunExact.sample 101 22 50) (t_new_year + 60))) in
  have_temp st' = true
  /\ (temp_high_c st' <? d_of_Z 22)%D = false
  /\ (d_of_Z 22 <? temp_low_c st')%D = false.
Proof.
  exact (proj1 (extremes_bracket_sample (LC:=Libc_utc) RunExact.seeded_world
                  (RunExact.sample 101 22 50) (t_new_year + 60) (JInt 101)
                  (d_of_Z 101) exact_ltb_irrefl eq_refl eq_refl eq_refl
                  eq_refl) eq_refl).
Defined.

Lemma wind_running_mean_witness :
  let st' := g_state (fst (process_ws90_json_locked (LC:=Libc_utc)
                             RunExact.seeded_world
                             (RunExact.rain_only 101) (t_new_year + 60))) in
  have_wind st' = true /\ wind_sample_count st' = 1.
Proof.
  exact (proj2 (wind_running_mean (LC:=Libc_utc) RunExact.seeded_world
                  (RunExact.rain_only 101) (t_new_year + 60) (JInt 101)
                  (d_of_Z 101) eq_refl eq_refl eq_refl eq_refl)
           eq_refl eq_refl eq_refl).
Defined.

Lemma flags_persist_within_day_witness :
  let w := Run.seeded_world in
  let st' := g_state (fst (process_ws90_json_locked (LC:=Libc_utc)
                             (Run.ingest w (Run.sample 101 22)
                                (Run.t_morning + 60))
                             (JObj [("rain_mm", JInt 102)])
                             (Run.t_morning + 120))) in
  have_temp st' = true /\ have_hum st' = true.
Proof.
  pose proof (flags_persist_within_day (LC:=Libc_utc)
                (Run.ingest Run.seeded_world (Run.sample 101 22)
                   (Run.t_morning + 60))
                (JObj [("rain_mm", JInt 102)]) (Run.t_morning + 120)
                eq_refl) as H.
  split; [exact (proj1 H eq_refl) | exact (proj1 (proj2 H) eq_refl)].
Defined.

(** ** Calendar keys *)

Section CalendarKeys.

Context {D : Type} {DD : Double D} {LC : Libc}.

Implicit Types (st : WeatherStateV2 (D:=D)) (db : option (table (D:=D)))
  (w : World (D:=D)) (j : json (D:=D)).

Lemma set_daily_ymd_same st : set_daily_ymd (daily_ymd st) st = st.
Proof. destruct st; reflexivity. Qed.

Lemma set_month_ym_same st : set_month_ym (month_ym st) st = st.
Proof. destruct st; reflexivity. Qed.

Lemma set_year_y_same st : set_year_y (year_y st) st = st.
Proof. destruct st; reflexivity. Qed.

Lemma set_week_start_ymd_same st :
  set_week_start_ymd (week_start_ymd st) st = st.
Proof. destruct st; reflexivity. Qed.

(** Each check leaves its own key current. *)
Lemma day_rollover_key st db now :
  daily_ymd (fst (day_rollover st db now)) = ymd_from_time now.
Proof.
  unfold day_rollover, day_fires.
  destruct (Z.eqb_spec (ymd_from_time now) (daily_ymd st)) as [E | _];
    cbn [negb fst]; [symmetry; exact E | reflexivity].
Qed.

Lemma month_rollover_key st now :
  month_ym (month_rollover st now) = ym_from_time now
  /\ daily_ymd (month_rollover st now) = daily_ymd st.
Proof.
  unfold month_rollover, month_fires.
  destruct (Z.eqb_spec (ym_from_time now) (month_ym st)) as [E | _];
    cbn [negb]; split; try reflexivity. symmetry; exact E.
Qed.

Lemma year_rollover_key st now :
  year_y (year_rollover st now) = y_from_time now
  /\ month_ym (year_rollover st now) = month_ym st
  /\ daily_ymd (year_rollover st now) = daily_ymd st.
Proof.
  unfold year_rollover, year_fires.
  destruct (Z.eqb_spec (y_from_time now) (year_y st)) as [E | _];
    cbn [negb]; repeat split; try reflexivity. symmetry; exact E.
Qed.

Lemma week_rollover_key st now :
  (week_start_ymd (week_rollover st now) = ymd_from_time now
   \/ (week_rollover st now = st /\ week_fires st now = false))
  /\ year_y (week_rollover st now) = year_y st
  /\ month_ym (week_rollover st now) = month_ym st
  /\ daily_ymd (week_rollover st now) = daily_ymd st.
Proof.
  unfold week_rollover.
  destruct (week_fires st now) eqn:E; repeat split; try reflexivity.
  - left. reflexivity.
  - right. split; reflexivity.
Qed.

Lemma rollover_keys st db now :
  let st' := fst (rollover_if_needed st db now) in
  daily_ymd st' = ymd_from_time now
  /\ month_ym st' = ym_from_time now
  /\ year_y st' = y_from_time now
  /\ (week_start_ymd st' = ymd_from_time now \/ week_fires st' now = false).
Proof.
  cbv zeta. unfold rollover_if_needed. cbn [fst].
  set (s1 := fst (day_rollover (adopt_keys st now) db now)).
  destruct (week_rollover_key (year_rollover (month_rollover s1 now) now) now)
    as (Hw & Wy & Wm & Wd).
  destruct (year_rollover_key (month_rollover s1 now) now) as (Yy & Ym & Yd).
  destruct (month_rollover_key s1 now) as (Mm & Md).
  rewrite Wd, Wm, Wy, Yd, Ym, Yy, Md, Mm. subst s1.
  rewrite day_rollover_key. repeat split.
  destruct Hw as [Hw | [Hw Hf]]; [left; exact Hw | right].
  rewrite Hw. exact Hf.
Qed.

Lemma adopt_keys_week_start_ymd st now :
  week_start_ymd (adopt_keys st now) =
  if week_start_ymd st =? 0 then ymd_from_time now else week_start_ymd st.
Proof.
  unfold adopt_keys. split_ifs; try reflexivity; cbn in *; congruence.
Qed.

(** A week key that is zero after the rollover is today's date. *)
Lemma rollover_week_key_zero st db now :
  week_start_ymd (fst (rollover_if_needed st db now)) = 0 ->
  week_start_ymd (fst (rollover_if_needed st db now)) = ymd_from_time now.
Proof.
  unfold rollover_if_needed. cbn [fst].
  set (s1 := fst (day_rollover (adopt_keys st now) db now)).
  assert (H1 : week_start_ymd s1 = week_start_ymd (adopt_keys st now)).
  { subst s1. unfold day_rollover.
    destruct (day_fires (adopt_keys st now) now); reflexivity. }
  assert (H2 : week_start_ymd (year_rollover (month_rollover s1 now) now)
               = week_start_ymd s1).
  { unfold year_rollover, month_rollover. split_ifs; reflexivity. }
  unfold week_rollover.
  destruct (week_fires (year_rollover (month_rollover s1 now) now) now);
    [reflexivity|].
  rewrite H2, H1, adopt_keys_week_start_ymd.
  destruct (Z.eqb_spec (week_start_ymd st) 0); [reflexivity | congruence].
Qed.

(** The calendar keys are not touched after the rollover. *)
Lemma trackers_calendar_keys j st :
  calendar_keys (track_wind (track_humidity j (track_temperature j st)))
  = calendar_keys st.
Proof.
  assert (Ht : forall s, calendar_keys (track_temperature j s)
                         = calendar_keys s)
    by (intros s; unfold track_temperature; split_ifs; reflexivity).
  assert (Hh : forall s, calendar_keys (track_humidity j s) = calendar_keys s)
    by (intros s; unfold track_humidity; split_ifs; reflexivity).
  assert (Hw : forall s, calendar_keys (track_wind s) = calendar_keys s)
    by (intros s; unfold track_wind; split_ifs; reflexivity).
  rewrite Hw, Hh, Ht. reflexivity.
Qed.

(** X7: after a sample with a rain reading in range, the day, month and
    year keys of the state are those of the local date of [now], whatever
    they were before; the week key is either the date of [now] or a date
    less than seven days back. *)
Theorem ingest_keeps_calendar_current w j now v rain :
  json_at j "rain_mm" = Some v ->
  json_get_double v = Some rain ->
  ((rain <? d_of_Z 0)%D || (d_of_Z 20000 <? rain)%D) = false ->
  let st' := g_state (fst (process_ws90_json_locked w j now)) in
  daily_ymd st' = ymd_from_time now
  /\ month_ym st' = ym_from_time now
  /\ year_y st' = y_from_time now
  /\ (week_start_ymd st' = ymd_from_time now
      \/ day_start_ts now - mktime (week_start_tm (week_start_ymd st'))
         < 7 * 86400).
Proof.
  intros Hv Hget Hin st'.
  set (st1 := fst (rollover_if_needed (store_telemetry j (g_state w))
                     (g_db w) now)).
  assert (Hk : calendar_keys st' = calendar_keys st1).
  { subst st'. destruct (last_rain_mm (g_state w) =? d_of_Z 0)%D eqn:Hseed.
    - rewrite (process_seeding w j now v rain Hv Hget Hin Hseed).
      cbn zeta. cbn [fst g_state]. fold st1.
      change (calendar_keys (set_last_update now (set_last_rain_mm rain ?s)))
        with (calendar_keys s).
      pose proof (proj2 (track_coverage_views st1 now)) as Hview.
      unfold tracker_view in Hview. apply tuple6_eq in Hview. apply Hview.
    - rewrite (process_tracked w j now v rain Hv Hget Hin Hseed).
      cbn zeta. cbn [fst g_state]. fold st1.
      rewrite trackers_calendar_keys.
      change (calendar_keys (set_last_update now (set_last_rain_mm rain ?s)))
        with (calendar_keys s).
      pose proof (accumulate_rain_tracker_view (track_coverage st1 now)
                    rain now) as Hacc.
      pose proof (proj2 (track_coverage_views st1 now)) as Hview.
      unfold tracker_view in Hacc, Hview.
      apply tuple6_eq in Hacc. apply tuple6_eq in Hview.
      destruct Hacc as (_ & _ & _ & _ & _ & ->). apply Hview. }
  destruct (rollover_keys (store_telemetry j (g_state w)) (g_db w) now)
    as (Kd & Km & Ky & Kw). fold st1 in Kd, Km, Ky, Kw.
  unfold calendar_keys in Hk.
  assert (Ed : daily_ymd st' = daily_ymd st1)
    by exact (f_equal (fun t => fst (fst (fst t))) Hk).
  assert (Em : month_ym st' = month_ym st1)
    by exact (f_equal (fun t => snd (fst (fst t))) Hk).
  assert (Ey : year_y st' = year_y st1)
    by exact (f_equal (fun t => snd (fst t)) Hk).
  assert (Ew : week_start_ymd st' = week_start_ymd st1)
    by exact (f_equal snd Hk).
  rewrite Ed, Em, Ey, Ew. repeat split; try assumption.
  destruct Kw as [Kw | Kw]; [left; exact Kw | right].
  unfold week_fires in Kw. cbv zeta in Kw. apply Z.leb_gt in Kw. exact Kw.
Qed.

(** X8: a second rollover check at the same instant does nothing: no
    second reset and no second row.  The hypothesis says that the local
    midnight rebuilt from today's date is less than seven days before
    today's local midnight. *)
Theorem rollover_idempotent st db now :
  (7 * 86400 <=?
     day_start_ts now - mktime (week_start_tm (ymd_from_time now))) = false ->
  let r := rollover_if_needed st db now in
  rollover_if_needed (fst r) (snd r) now = r.
Proof.
  intros Hweek r.
  destruct (rollover_keys st db now) as (Kd & Km & Ky & Kw).
  fold r in Kd, Km, Ky, Kw.
  assert (Hfires : week_fires (fst r) now = false).
  { destruct Kw as [Kw | Kw]; [|exact Kw].
    unfold week_fires. cbv zeta. rewrite Kw. exact Hweek. }
  assert (Hadopt : adopt_keys (fst r) now = fst r).
  { unfold adopt_keys. cbv zeta.
    assert (E1 : (if daily_ymd (fst r) =? 0
                  then set_daily_ymd (ymd_from_time now) (fst r) else fst r)
                 = fst r).
    { destruct (daily_ymd (fst r) =? 0); [|reflexivity].
      rewrite <- Kd. apply set_daily_ymd_same. }
    rewrite E1.
    assert (E2 : (if month_ym (fst r) =? 0
                  then set_month_ym (ym_from_time now) (fst r) else fst r)
                 = fst r).
    { destruct (month_ym (fst r) =? 0); [|reflexivity].
      rewrite <- Km. apply set_month_ym_same. }
    rewrite E2.
    assert (E3 : (if year_y (fst r) =? 0
                  then set_year_y (y_from_time now) (fst r) else fst r)
                 = fst r).
    { destruct (year_y (fst r) =? 0); [|reflexivity].
      rewrite <- Ky. apply set_year_y_same. }
    rewrite E3.
    destruct (Z.eqb_spec (week_start_ymd (fst r)) 0) as [E0 | _];
      [|reflexivity].
    rewrite <- (rollover_week_key_zero st db now E0).
    apply set_week_start_ymd_same. }
  unfold rollover_if_needed at 1. rewrite Hadopt.
  assert (Hday : day_rollover (fst r) (snd r) now = (fst r, snd r)).
  { unfold day_rollover, day_fires. rewrite Kd, Z.eqb_refl. reflexivity. }
  rewrite Hday. cbn [fst snd].
  assert (Hmonth : month_rollover (fst r) now = fst r).
  { unfold month_rollover, month_fires. rewrite Km, Z.eqb_refl. reflexivity. }
  rewrite Hmonth.
  assert (Hyear : year_rollover (fst r) now = fst r).
  { unfold year_rollover, year_fires. rewrite Ky, Z.eqb_refl. reflexivity. }
  rewrite Hyear. unfold week_rollover. rewrite Hfires.
  subst r. unfold rollover_if_needed. reflexivity.
Qed.

End CalendarKeys.

(** ** The daily store *)

Section DailyStore.

Context {D : Type} {DD : Double D} {LC : Libc}.

Implicit Types (st : WeatherStateV2 (D:=D)) (db : option (table (D:=D)))
  (w : World (D:=D)) (j : json (D:=D)) (tbl : table (D:=D)).

(** What a rollover check can do to the store. *)
Lemma rollover_store st db now :
  snd (rollover_if_needed st db now) = db
  \/ (day_fires (adopt_keys st now) now = true
      /\ coverage_ok st = true
      /\ snd (rollover_if_needed st db now)
         = log_daily_to_db db (prev_day_ts st now) (adopt_keys st now)
             (rain_daily_in st)).
Proof.
  rewrite rollover_snd. unfold day_rollover.
  destruct (adopt_keys_frame st now) as (Hcov & _ & Hrain).
  assert (Hok : coverage_ok (adopt_keys st now) = coverage_ok st).
  { unfold coverage_ok.
    pose proof (f_equal fst Hcov) as H1. pose proof (f_equal snd Hcov) as H2.
    cbn [fst snd coverage] in H1, H2. rewrite H1, H2. reflexivity. }
  assert (Hprev : prev_day_ts (adopt_keys st now) now = prev_day_ts st now).
  { unfold prev_day_ts.
    pose proof (f_equal fst Hcov) as H1. cbn [fst coverage] in H1.
    rewrite H1. reflexivity. }
  destruct (day_fires (adopt_keys st now) now); [|left; reflexivity].
  cbn [snd]. rewrite Hok, Hprev, Hrain.
  destruct (coverage_ok st); [right | left]; repeat split; reflexivity.
Qed.

Lemma process_store w j now :
  g_db (fst (process_ws90_json_locked w j now)) = g_db w
  \/ g_db (fst (process_ws90_json_locked w j now))
     = snd (rollover_if_needed (store_telemetry j (g_state w)) (g_db w) now).
Proof.
  unfold process_ws90_json_locked.
  destruct (json_at j "rain_mm") as [v|]; [|left; reflexivity].
  destruct (json_get_double v) as [rain|]; [|left; reflexivity].
  destruct ((rain <? d_of_Z 0)%D || (d_of_Z 20000 <? rain)%D);
    [left; reflexivity|].
  right.
  match goal with |- context [if ?b then _ else _] => destruct b end;
    reflexivity.
Qed.

Lemma insert_or_replace_other r tbl x :
  day_ts x <> day_ts r ->
  (In x (insert_or_replace r tbl) <-> In x tbl).
Proof.
  intros Hne. unfold insert_or_replace. split.
  - intros [-> | H]; [contradiction Hne; reflexivity|].
    apply filter_In in H. apply H.
  - intros H. right. apply filter_In. split; [exact H|].
    apply negb_true_iff, Z.eqb_neq. exact Hne.
Qed.

(** X9: an ingest never opens or closes the store, keeps the days of
    the stored rows distinct, and touches at most the row of one day, the
    elapsed one: every row of another day is in the store afterwards if
    and only if it was there before.  The store changes only on a day
    rollover that passes the coverage gate. *)
Theorem ingest_touches_one_day w j now :
  let w' := fst (process_ws90_json_locked w j now) in
  let elapsed := prev_day_ts (g_state w) now in
  (g_db w = None -> g_db w' = None)
  /\ (forall tbl, g_db w = Some tbl ->
      exists tbl',
        g_db w' = Some tbl'
        /\ (NoDup (map day_ts tbl) -> NoDup (map day_ts tbl'))
        /\ (forall x, day_ts x <> elapsed -> (In x tbl' <-> In x tbl))
        /\ (tbl' <> tbl ->
            day_fires (adopt_keys (g_state w) now) now = true
            /\ coverage_ok (g_state w) = true
            /\ exists r, In r tbl' /\ day_ts r = elapsed)).
Proof.
  intros w' elapsed.
  assert (Hcases : g_db w' = g_db w
                   \/ (day_fires (adopt_keys (g_state w) now) now = true
                       /\ coverage_ok (g_state w) = true
                       /\ exists rowst rain,
                            g_db w' = log_daily_to_db (g_db w) elapsed
                                        rowst rain)).
  { destruct (process_store w j now) as [H | H]; [left; exact H|].
    fold w' in H.
    destruct (rollover_store (store_telemetry j (g_state w)) (g_db w) now)
      as [H2 | (Hf & Hok & H2)].
    - left. rewrite H, H2. reflexivity.
    - right. rewrite day_fires_telemetry in Hf.
      split; [exact Hf | split; [exact Hok|]].
      eexists. eexists. rewrite H, H2. reflexivity. }
  split.
  - intros Hnone.
    destruct Hcases as [H | (_ & _ & rowst & rain & H)]; rewrite H, Hnone;
      reflexivity.
  - intros tbl Hsome.
    destruct Hcases as [H | (Hf & Hok & rowst & rain & H)];
      rewrite Hsome in H.
    + exists tbl. split; [exact H|].
      split; [auto|]. split; [intros; reflexivity|].
      intros Hne. contradiction Hne. reflexivity.
    + cbn [log_daily_to_db] in H.
      exists (insert_or_replace (daily_row elapsed rowst rain) tbl).
      split; [exact H|].
      split; [apply insert_or_replace_keys|].
      split; [intros x Hx; apply insert_or_replace_other; exact Hx|].
      intros _. split; [exact Hf | split; [exact Hok|]].
      exists (daily_row elapsed rowst rain).
      split; [left; reflexivity | reflexivity].
Qed.

(** X10: when the days of the stored rows are distinct, every history
    query returns each day at most once, in strictly ascending order. *)
Theorem history_days_strictly_ascending tbl days limit offset now :
  NoDup (map day_ts tbl) ->
  let rows := history_rows tbl days limit offset now in
  NoDup (map day_ts rows)
  /\ StronglySorted (fun r1 r2 => day_ts r1 < day_ts r2) rows.
Proof.
  intros Hnd rows.
  assert (Hsorted : StronglySorted day_le rows) by apply run_query_sorted.
  assert (Hsub : forall (l : list (DailyRow (D:=D))) n,
            NoDup (map day_ts l) ->
            NoDup (map day_ts (firstn n l))
            /\ NoDup (map day_ts (skipn n l))).
  { intros l n H. rewrite <- (firstn_skipn n l), map_app in H.
    split; [eapply NoDup_app_remove_r | eapply NoDup_app_remove_l];
      exact H. }
  assert (Hfilter : forall f (l : list (DailyRow (D:=D))),
            NoDup (map day_ts l) -> NoDup (map day_ts (filter f l))).
  { intros f l. induction l as [|x rest IH]; intros H; [exact H|].
    cbn [map] in H. inversion H as [|? ? Hnotin Hrest]; subst.
    cbn [filter]. destruct (f x); [|apply IH, Hrest].
    cbn [map]. constructor; [|apply IH, Hrest].
    intros Hin. apply Hnotin. apply in_map_iff in Hin.
    destruct Hin as (y & Hy & Hf). apply filter_In in Hf.
    rewrite <- Hy. apply in_map. apply Hf. }
  assert (Horder : forall l : list (DailyRow (D:=D)),
            NoDup (map day_ts l) -> NoDup (map day_ts (order_by_day_ts l))).
  { intros l H. eapply Permutation_NoDup; [|exact H].
    apply Permutation_map, Permutation_sym, order_by_day_ts_perm. }
  assert (Hlimit : forall l o (rs : list (DailyRow (D:=D))),
            NoDup (map day_ts rs) -> NoDup (map day_ts (limit_offset l o rs))).
  { intros l o rs H. unfold limit_offset.
    destruct (l <? 0); [|apply Hsub]; apply Hsub; exact H. }
  assert (Hrows : NoDup (map day_ts rows)).
  { subst rows. unfold history_rows.
    destruct (history_query days limit offset now); cbn [run_query];
      unfold where_since; auto. }
  split; [exact Hrows|].
  clear - Hrows Hsorted. induction Hsorted as [|x rest Hs IH Hall].
  - constructor.
  - cbn [map] in Hrows. inversion Hrows as [|? ? Hnotin Hrest]; subst.
    constructor; [apply IH, Hrest|].
    rewrite Forall_forall in *. intros y Hy.
    specialize (Hall y Hy). unfold day_le in Hall.
    assert (day_ts x <> day_ts y).
    { intros E. apply Hnotin. rewrite E. apply in_map. exact Hy. }
    lia.
Qed.

(** X11: consecutive pages fit together: in a paged query, the page of
    [l1] rows at offset [o] followed by the page of [l2] rows at offset
    [o + l1] is the page of [l1 + l2] rows at offset [o]. *)
Theorem history_pages_concatenate tbl days l1 l2 o now :
  0 <= days -> 1 <= l1 -> 1 <= l2 -> 0 <= o ->
  history_rows tbl days l1 o now ++ history_rows tbl days l2 (o + l1) now
  = history_rows tbl days (l1 + l2) o now.
Proof.
  intros Hd H1 H2 Ho.
  rewrite !history_rows_paged by lia.
  set (m := order_by_day_ts
              (if 0 <? days
               then filter (fun r => now - days * 86400 <=? day_ts r) tbl
               else tbl)).
  rewrite !Z2Nat.inj_add by lia.
  rewrite Nat.add_comm, <- skipn_skipn.
  generalize (skipn (Z.to_nat o) m) as rest.
  generalize (Z.to_nat l2) as n2. generalize (Z.to_nat l1) as n1. clear.
  induction n1 as [|n1 IH]; intros n2 rest.
  - reflexivity.
  - destruct rest as [|x rest]; [cbn; rewrite firstn_nil; reflexivity|].
    cbn [firstn skipn Nat.add app]. f_equal. apply IH.
Qed.

End DailyStore.

(** ** Names of the query arguments *)

Section ArgumentNames.

Context {D : Type} {DD : Double D}.

Lemma get_query_value_ci_same conn conn' name :
  same_arguments conn conn' ->
  get_query_value_ci conn name = get_query_value_ci conn' name.
Proof.
  induction 1 as [|[k v] [k' v'] rest rest' [Hk Hv] _ IH]; [reflexivity|].
  cbn [fst snd] in Hk, Hv. subst v'. cbn [get_query_value_ci].
  destruct v as [val|]; [|exact IH].
  unfold strcasecmp_eq in *. apply String.eqb_eq in Hk. rewrite Hk, IH.
  reflexivity.
Qed.

(** X12: the names of the query arguments are matched without regard
    to case: two requests whose arguments differ only in the case of the
    names get the same response. *)
Theorem route_ignores_case_of_names (db : option (table (D:=D)))
    conn conn' url method now :
  same_arguments conn conn' ->
  route db conn url method now = route db conn' url method now.
Proof.
  intros Hsame.
  assert (Hp : route_params conn = route_params conn').
  { unfold route_params, has_value, get_query_int_ci.
    rewrite !(get_query_value_ci_same conn conn' _ Hsame). reflexivity. }
  unfold route. rewrite Hp. reflexivity.
Qed.

End ArgumentNames.

(** ** The hourly window, recomputed *)

Section HourlyAgain.

Context {D : Type} {DD : Double D}.

Lemma filter_in_window_later now now' (v : list (RainDelta (D:=D))) :
  now <= now' ->
  filter (in_window now') (filter (in_window now) v)
  = filter (in_window now') v.
Proof.
  intros Hle. induction v as [|x rest IH]; [reflexivity|].
  cbn [filter].
  destruct (in_window now x) eqn:E1; destruct (in_window now' x) eqn:E2;
    cbn [filter]; rewrite ?E2, ?IH; try reflexivity.
  exfalso. unfold in_window in E1, E2.
  apply Z.leb_gt in E1. apply Z.leb_le in E2. lia.
Qed.

(** X13: pruning the hourly window twice is pruning it once at the
    later time: for [now <= now'], [recompute_hourly] at [now] and then at
    [now'] gives the state that [recompute_hourly] at [now'] gives. *)
Theorem recompute_hourly_later (st : WeatherStateV2 (D:=D)) now now' :
  now <= now' ->
  recompute_hourly (recompute_hourly st now) now' = recompute_hourly st now'.
Proof.
  intros Hle. destruct st. unfold recompute_hourly. cbn.
  rewrite !hourly_scan_spec. cbn [fst snd app].
  rewrite (filter_in_window_later _ _ _ Hle). reflexivity.
Qed.

End HourlyAgain.

(** ** Loading a snapshot *)

Section LoadState.

Context {D : Type} {DD : Double D} {LC : Libc}.

Implicit Types (st : WeatherStateV2 (D:=D)) (j : json (D:=D)).

Lemma load_member_bad {A} j k (get : json -> option A) set v ost :
  json_at j k = Some v -> get v = None ->
  load_member j k get set ost = None.
Proof.
  intros Hat Hget. unfold load_member. destruct ost; [|reflexivity].
  rewrite Hat, Hget. reflexivity.
Qed.

Lemma load_member_step {A} j k (get : json -> option A) set st :
  (exists v, json_at j k = Some v /\ get v = None)
  \/ exists st', load_member j k get set (Some st) = Some st'.
Proof.
  unfold load_member. destruct (json_at j k) as [v|].
  - destruct (get v) as [a|] eqn:E.
    + right. eexists. reflexivity.
    + left. exists v. split; [reflexivity | exact E].
  - right. eexists. reflexivity.
Qed.

Lemma readable_false ty (v : json (D:=D)) :
  readable ty v = false ->
  match ty with
  | TDouble => json_get_double v = None
  | TInt => json_get_int v = None
  | TLongLong => json_get_long_long v = None
  | TUInt64 => json_get_uint64 v = None
  | TBool => json_get_bool v = None
  end.
Proof.
  unfold readable. destruct ty;
    match goal with |- context [match ?g with _ => _ end] => destruct g end;
    intros H; first [reflexivity | discriminate H].
Qed.

Lemma load_members_bad j now k ty v :
  In (k, ty) snapshot_members ->
  json_at j k = Some v -> readable ty v = false ->
  load_members j now = None.
Proof.
  intros Hin Hat Hbad. apply readable_false in Hbad.
  unfold snapshot_members in Hin. unfold load_members. cbv zeta.
  repeat (destruct Hin as [Hin | Hin];
          [injection Hin as <- <-;
           rewrite (load_member_bad j _ _ _ v _ Hat Hbad); reflexivity|]).
  contradiction Hin.
Qed.

Lemma load_members_good j now :
  (forall k ty v, In (k, ty) snapshot_members ->
                  json_at j k = Some v -> readable ty v = true) ->
  exists st, load_members j now = Some st.
Proof.
  intros Hgood. unfold load_members. cbv zeta.
  repeat match goal with
  | |- context [load_member j ?k ?get ?set (Some ?s)] =>
      let st' := fresh "st" in
      let E := fresh "E" in
      destruct (load_member_step j k get set s) as [(v & Hat & Hget) | [st' E]];
      [ exfalso;
        first
          [ specialize (Hgood k TDouble v); unfold readable in Hgood;
            rewrite Hget in Hgood;
            assert (false = true) by (apply Hgood; [cbn; tauto | exact Hat]);
            discriminate
          | specialize (Hgood k TInt v); unfold readable in Hgood;
            rewrite Hget in Hgood;
            assert (false = true) by (apply Hgood; [cbn; tauto | exact Hat]);
            discriminate
          | specialize (Hgood k TLongLong v); unfold readable in Hgood;
            rewrite Hget in Hgood;
            assert (false = true) by (apply Hgood; [cbn; tauto | exact Hat]);
            discriminate
          | specialize (Hgood k TUInt64 v); unfold readable in Hgood;
            rewrite Hget in Hgood;
            assert (false = true) by (apply Hgood; [cbn; tauto | exact Hat]);
            discriminate
          | specialize (Hgood k TBool v); unfold readable in Hgood;
            rewrite Hget in Hgood;
            assert (false = true) by (apply Hgood; [cbn; tauto | exact Hat]);
            discriminate ]
      | rewrite E; clear E ]
  end.
  eexists. reflexivity.
Qed.

(** X14: a snapshot is loaded as a whole or not at all.  The load
    fails exactly when some member that [load_state] reads is present with
    a value that its C++ type does not accept; then nothing of the file is
    used, not even the members before it: the state is the freshly
    initialized one. *)
Theorem load_state_all_or_nothing j now :
  (load_members j now = None <->
   exists k ty v, In (k, ty) snapshot_members
                  /\ json_at j k = Some v /\ readable ty v = false)
  /\ (load_members j now = None ->
      load_state (Some (FileJson j)) now = init_state_defaults now).
Proof.
  split; [split|].
  - intros Hnone.
    destruct (existsb (fun kt =>
                match json_at j (fst kt) with
                | Some v => negb (readable (snd kt) v)
                | None => false
                end) snapshot_members) eqn:Hex.
    + apply existsb_exists in Hex. destruct Hex as ([k ty] & Hin & Hb).
      cbn [fst snd] in Hb. destruct (json_at j k) as [v|] eqn:Hat;
        [|discriminate Hb].
      exists k, ty, v. split; [exact Hin | split; [exact Hat|]].
      apply negb_true_iff. exact Hb.
    + exfalso. destruct (load_members_good j now) as [st Hst];
        [|congruence].
      intros k ty v Hin Hat.
      destruct (readable ty v) eqn:Hr; [reflexivity|]. exfalso.
      assert (Hf : forall x, In x snapshot_members ->
                   match json_at j (fst x) with
                   | Some v => negb (readable (snd x) v)
                   | None => false
                   end = false).
      { intros x Hx. destruct (match json_at j (fst x) with
                               | Some v0 => negb (readable (snd x) v0)
                               | None => false end) eqn:E; [|reflexivity].
        assert (existsb (fun kt =>
                  match json_at j (fst kt) with
                  | Some v => negb (readable (snd kt) v)
                  | None => false
                  end) snapshot_members = true)
          by (apply existsb_exists; exists x; split; assumption).
        congruence. }
      specialize (Hf (k, ty) Hin). cbn [fst snd] in Hf.
      rewrite Hat, Hr in Hf. discriminate Hf.
  - intros (k & ty & v & Hin & Hat & Hbad).
    exact (load_members_bad j now k ty v Hin Hat Hbad).
  - intros Hnone. unfold load_state. rewrite Hnone. reflexivity.
Qed.

(** X15: [load_state] looks at the members that it knows and at
    nothing else: two files that agree on these members load the same
    state, so that unknown members are ignored, and an object with none of
    the known members loads the freshly initialized state. *)
Theorem load_state_known_members_only j j' now :
  (forall k, In k (map fst snapshot_members) -> json_at j k = json_at j' k) ->
  load_state (Some (FileJson j)) now = load_state (Some (FileJson j')) now.
Proof.
  intros Hsame. apply Forall_forall in Hsame.
  cbn [map fst snapshot_members] in Hsame.
  unfold load_state, load_members, load_member. cbv zeta.
  repeat match goal with
  | H : Forall _ (_ :: _) |- _ =>
      let E := fresh "E" in
      apply Forall_cons_iff in H; destruct H as [E H]; rewrite E; clear E
  end.
  reflexivity.
Qed.

Lemma json_at_saved st k :
  json_at (json_reparse (snapshot_json st)) k
  = option_map json_reparse (json_at (snapshot_json st) k).
Proof. unfold snapshot_json. cbn [json_reparse json_at]. apply assoc_find_reparse. Qed.

(** X16: a state with a persisted double that is not finite cannot be
    restored: [save_state] writes the member as [null], and the next
    [load_state] discards the whole file, so that all totals restart from
    the initial state. *)
Theorem snapshot_with_non_finite_double_is_lost st now :
  Exists (fun d => disfinite d = false) (persisted_doubles st) ->
  load_state (Some (save_state st)) now = init_state_defaults now.
Proof.
  intros Hex. unfold save_state, load_state.
  assert (Hnone : load_members (json_reparse (snapshot_json st)) now = None);
    [|rewrite Hnone; reflexivity].
  unfold persisted_doubles in Hex.
  assert (Hbad : forall k d,
            json_at (snapshot_json st) k = Some (JFloat d) ->
            disfinite d = false -> In (k, TDouble) snapshot_members ->
            load_members (json_reparse (snapshot_json st)) now = None).
  { intros k d Hat Hd Hin.
    apply (load_members_bad _ now k TDouble JNull Hin); [|reflexivity].
    rewrite json_at_saved, Hat. cbn [option_map json_reparse].
    rewrite Hd. reflexivity. }
  do 17 (apply Exists_cons in Hex; destruct Hex as [Hex | Hex];
         [ first
             [ refine (Hbad "last_rain_mm" _ _ Hex _); [reflexivity|]
             | refine (Hbad "rain_daily_in" _ _ Hex _); [reflexivity|]
             | refine (Hbad "rain_monthly_in" _ _ Hex _); [reflexivity|]
             | refine (Hbad "rain_yearly_in" _ _ Hex _); [reflexivity|]
             | refine (Hbad "rain_weekly_in" _ _ Hex _); [reflexivity|]
             | refine (Hbad "rain_hourly_in" _ _ Hex _); [reflexivity|]
             | refine (Hbad "rain_event_in" _ _ Hex _); [reflexivity|]
             | refine (Hbad "historical_total_in" _ _ Hex _); [reflexivity|]
             | refine (Hbad "historical_yearly_in" _ _ Hex _); [reflexivity|]
             | refine (Hbad "historical_monthly_in" _ _ Hex _); [reflexivity|]
             | refine (Hbad "historical_weekly_in" _ _ Hex _); [reflexivity|]
             | refine (Hbad "temp_high_c" _ _ Hex _); [reflexivity|]
             | refine (Hbad "temp_low_c" _ _ Hex _); [reflexivity|]
             | refine (Hbad "hum_high" _ _ Hex _); [reflexivity|]
             | refine (Hbad "hum_low" _ _ Hex _); [reflexivity|]
             | refine (Hbad "wind_mean_m_s" _ _ Hex _); [reflexivity|]
             | refine (Hbad "wind_max_gust_m_s" _ _ Hex _); [reflexivity|] ];
           cbn; tauto |]).
  inversion Hex.
Qed.

End LoadState.

(** ** Concrete instances *)

Lemma ingest_throws_iff_rain_not_a_number_witness :
  let j := JObj [("rain_mm", JStr "wet"); ("temperature_C", JInt 30)] in
  let w' := fst (process_ws90_json_locked (LC:=Libc_utc) Run.seeded_world j
                   (Run.t_morning + 60)) in
  aggregation (g_state w') = aggregation (g_state Run.seeded_world)
  /\ last_update (g_state w') = Run.t_morning.
Proof.
  pose proof (proj2 (ingest_throws_iff_rain_not_a_number (LC:=Libc_utc)
                       Run.seeded_world
                       (JObj [("rain_mm", JStr "wet");
                              ("temperature_C", JInt 30)])
                       (Run.t_morning + 60)) eq_refl) as H.
  split; [exact (proj1 (proj2 H)) | exact (proj1 (proj2 (proj2 H)))].
Defined.

Lemma ingest_keeps_calendar_current_witness :
  let st' := g_state (fst (process_ws90_json_locked (LC:=Libc_utc)
                             Run.seeded_world (Run.sample 101 22)
                             (Run.t_morning + 60))) in
  daily_ymd st' = 20240101 /\ month_ym st' = 202401 /\ year_y st' = 2024.
Proof.
  pose proof (ingest_keeps_calendar_current (LC:=Libc_utc) Run.seeded_world
                (Run.sample 101 22) (Run.t_morning + 60) (JInt 101)
                (d_of_Z 101) eq_refl eq_refl eq_refl) as H.
  split; [exact (proj1 H) | split;
          [exact (proj1 (proj2 H)) | exact (proj1 (proj2 (proj2 H)))]].
Defined.

Lemma rollover_idempotent_witness :
  let r := rollover_if_needed (LC:=Libc_utc) new_years_eve (Some [])
             t_new_year in
  rollover_if_needed (LC:=Libc_utc) (fst r) (snd r) t_new_year = r.
Proof.
  exact (rollover_idempotent (LC:=Libc_utc) new_years_eve (Some [])
           t_new_year eq_refl).
Defined.

Lemma ingest_touches_one_day_witness :
  exists tbl',
    g_db (fst (process_ws90_json_locked (LC:=Libc_utc) eve_world
                 (Run.sample 100 20) t_new_year)) = Some tbl'
    /\ In (row_of_day (t_new_year - 10 * 86400)) tbl'.
Proof.
  destruct (proj2 (ingest_touches_one_day (LC:=Libc_utc) eve_world
                     (Run.sample 100 20) t_new_year) two_days eq_refl)
    as (tbl' & Hdb & _ & Hother & _).
  exists tbl'. split; [exact Hdb|].
  apply Hother; [|right; left; reflexivity].
  vm_compute. intros H. discriminate H.
Defined.

Lemma two_days_keys : NoDup (map day_ts two_days).
Proof.
  constructor; [|constructor; [intros [] | constructor]].
  intros [H | []]. vm_compute in H. discriminate H.
Defined.

Lemma history_days_strictly_ascending_witness :
  NoDup (map day_ts (history_rows two_days 30 5 0 t_new_year)).
Proof.
  exact (proj1 (history_days_strictly_ascending two_days 30 5 0 t_new_year
                  two_days_keys)).
Defined.

Lemma history_pages_concatenate_witness :
  history_rows two_days 0 1 0 t_new_year
  ++ history_rows two_days 0 1 (0 + 1) t_new_year
  = history_rows two_days 0 (1 + 1) 0 t_new_year.
Proof.
  apply (history_pages_concatenate two_days 0 1 1 0 t_new_year); lia.
Defined.

Lemma route_ignores_case_of_names_witness :
  route (Some two_days) wild_args "/api/v2/history/rain" "GET" t_new_year
  = route (Some two_days) wild_args_lower "/api/v2/history/rain" "GET"
      t_new_year.
Proof.
  apply route_ignores_case_of_names.
  repeat (constructor; [split; reflexivity|]). constructor.
Defined.

Lemma recompute_hourly_later_witness :
  recompute_hourly (recompute_hourly two_deltas 3600) 4000
  = recompute_hourly two_deltas 4000.
Proof. apply recompute_hourly_later. lia. Defined.

Lemma load_state_all_or_nothing_witness :
  load_state (LC:=Libc_utc) (Some (FileJson mistyped_snapshot)) t_new_year
  = init_state_defaults (LC:=Libc_utc) t_new_year.
Proof.
  apply (proj2 (load_state_all_or_nothing (LC:=Libc_utc) mistyped_snapshot
                  t_new_year)).
  apply (proj2 (proj1 (load_state_all_or_nothing (LC:=Libc_utc)
                         mistyped_snapshot t_new_year))).
  exists "have_temp", TBool, (JInt 1).
  split; [|split; reflexivity].
  do 19 right. left. reflexivity.
Defined.

Lemma load_state_known_members_only_witness :
  load_state (LC:=Libc_utc) (Some (FileJson plain_snapshot)) t_new_year
  = load_state (LC:=Libc_utc) (Some (FileJson annotated_snapshot)) t_new_year.
Proof.
  apply load_state_known_members_only.
  intros k Hin. cbn [map fst snapshot_members] in Hin.
  repeat (destruct Hin as [<- | Hin]; [reflexivity|]).
  contradiction Hin.
Defined.

Lemma snapshot_with_non_finite_double_is_lost_witness :
  load_state (LC:=Libc_utc)
    (Some (save_state (set_rain_daily_in dnan
                         (state_zero : WeatherStateV2 (D:=exact)))))
    t_new_year
  = init_state_defaults (LC:=Libc_utc) t_new_year.
Proof.
  apply snapshot_with_non_finite_double_is_lost.
  apply Exists_cons_tl, Exists_cons_hd. reflexivity.
Defined.

(** * The poller and the current snapshot *)

Section PollerProperties.

Context {D : Type} {DD : Double D} {LC : Libc}.

Implicit Types (b : Backend (D:=D)) (t : transfer (D:=D))
  (j : json (D:=D)) (w : World (D:=D)).

(** An ingest that returns has set [last_update]. *)
Lemma returned_last_update w j now :
  snd (process_ws90_json_locked w j now) = Returned ->
  last_update (g_state (fst (process_ws90_json_locked w j now))) = now.
Proof.
  unfold process_ws90_json_locked.
  destruct (json_at j "rain_mm") as [v|]; [|reflexivity].
  destruct (json_get_double v) as [rain|]; [|discriminate].
  destruct ((rain <? d_of_Z 0)%D || (d_of_Z 20000 <? rain)%D);
    [reflexivity|].
  match goal with |- context [if ?c then _ else _] => destruct c end;
    intros _; cbn zeta; cbn [fst g_state].
  - reflexivity.
  - set (s := set_last_update now _).
    assert (Ht : forall s0, last_update (track_temperature j s0)
                            = last_update s0)
      by (intros s0; unfold track_temperature; split_ifs; reflexivity).
    assert (Hh : forall s0, last_update (track_humidity j s0)
                            = last_update s0)
      by (intros s0; unfold track_humidity; split_ifs; reflexivity).
    assert (Hw : forall s0, last_update (track_wind s0) = last_update s0)
      by (intros s0; unfold track_wind; split_ifs; reflexivity).
    rewrite Hw, Hh, Ht. reflexivity.
Qed.

(** X17: the health flags after a poll, whatever the transfer was.
    [g_rtlsdr_ok] holds exactly when the bridge answered 200 with a body
    that parsed and was ingested without an exception, and exactly when no
    error code is recorded; it implies [g_ws90_http_ok].  [g_ws90_http_ok]
    fails exactly on a transport error or a response code 0. *)
Theorem poll_health_flags b t now now_ingest :
  let h := health (poll_once b t now now_ingest) in
  g_ws90_last_poll h = now
  /\ (g_rtlsdr_ok h = true <->
      exists j, t = CurlOk 200 (Some (FileJson j))
                /\ snd (process_ws90_json_locked (world b) j now_ingest)
                   = Returned)
  /\ (g_rtlsdr_ok h = true <-> g_ws90_error_code h = EmptyString)
  /\ (g_rtlsdr_ok h = true ->
      g_ws90_http_ok h = true /\ g_ws90_http_status h = 200
      /\ g_ws90_error_msg h = EmptyString)
  /\ (g_ws90_http_ok h = false <->
      (exists e, t = CurlError e) \/ (exists c, t = CurlOk 0 c)).
Proof.
  cbv zeta. destruct t as [e | code chunk]; cbn [poll_once].
  - cbn [health g_ws90_last_poll g_rtlsdr_ok g_ws90_error_code
         g_ws90_http_ok g_ws90_http_status g_ws90_error_msg].
    split; [reflexivity|].
    split; [split; [discriminate | intros (j & Hj & _); discriminate Hj]|].
    split; [split; discriminate|].
    split; [discriminate|].
    split; [intros _; left; eexists; reflexivity | reflexivity].
  - assert (Hcode : forall s, (if String.eqb s EmptyString
                               then ("http_" ++ to_string code)%string
                               else s)
                              <> EmptyString).
    { intros s. destruct (String.eqb_spec s EmptyString) as [-> | Hs];
        [discriminate | exact Hs]. }
    destruct (Z.eqb_spec code 200) as [-> | Hne].
    + destruct chunk as [[| j]|].
      * (* garbage *)
        cbn.
        split; [reflexivity|].
        split; [split; [discriminate | intros (j & Hj & _); discriminate Hj]|].
        split; [split; discriminate|].
        split; [discriminate|].
        split; [discriminate|].
        intros [(e & He) | (c & Hc)]; discriminate.
      * destruct (snd (process_ws90_json_locked (world b) j now_ingest))
          eqn:Hout; cbn.
        -- split; [reflexivity|].
           split; [split; [intros _; exists j; split;
                           [reflexivity | exact Hout] | reflexivity]|].
           split; [split; reflexivity|].
           split; [intros _; repeat split|].
           split; [discriminate|].
           intros [(e & He) | (c & Hc)]; discriminate.
        -- split; [reflexivity|].
           split; [split; [discriminate|]|].
           { intros (j2 & Hj & Hr). injection Hj as <-. congruence. }
           split; [split; discriminate|].
           split; [discriminate|].
           split; [discriminate|].
           intros [(e & He) | (c & Hc)]; discriminate.
      * (* 200 without a body *)
        cbn.
        split; [reflexivity|].
        split; [split; [discriminate | intros (j & Hj & _); discriminate Hj]|].
        split; [split; discriminate|].
        split; [discriminate|].
        split; [discriminate|].
        intros [(e & He) | (c & Hc)]; discriminate.
    + cbn [health g_ws90_last_poll g_rtlsdr_ok g_ws90_error_code
           g_ws90_http_ok g_ws90_http_status g_ws90_error_msg].
      split; [reflexivity|].
      split; [split; [discriminate|]|].
      { intros (j & Hj & _). injection Hj as Hc _. contradiction. }
      split; [split; [discriminate|]|].
      { intros H. exfalso. revert H. apply Hcode. }
      split; [discriminate|].
      destruct (Z.eqb_spec code 0) as [-> | Hn0]; cbn [negb].
      * split; [intros _; right; eexists; reflexivity | reflexivity].
      * split; [discriminate|].
        intros [(e & He) | (c & Hc)]; [discriminate|].
        injection Hc as Hc _. contradiction.
Qed.

(** X18: the weather state, the store and the snapshot file change
    only when the bridge answers 200 with a body that parses.  A payload
    that parses but whose [rain_mm] is not a number is recorded as
    [parse_error], "invalid JSON from ws90", with [g_rtlsdr_ok] false,
    although its telemetry members have been stored; [last_update] is not
    advanced. *)
Theorem poll_effect_on_state b t now now_ingest :
  ((forall j, t <> CurlOk 200 (Some (FileJson j))) ->
   world (poll_once b t now now_ingest) = world b)
  /\ (forall j v,
        t = CurlOk 200 (Some (FileJson j)) ->
        json_at j "rain_mm" = Some v -> is_number v = false ->
        let b' := poll_once b t now now_ingest in
        g_state (world b') = store_telemetry j (g_state (world b))
        /\ last_update (g_state (world b')) = last_update (g_state (world b))
        /\ g_db (world b') = g_db (world b)
        /\ state_file (world b') = state_file (world b)
        /\ g_rtlsdr_ok (health b') = false
        /\ g_ws90_error_code (health b') = "parse_error"
        /\ g_ws90_error_msg (health b') = "invalid JSON from ws90").
Proof.
  split.
  - intros Hnot. destruct t as [e | code chunk]; [reflexivity|].
    cbn [poll_once].
    destruct (Z.eqb_spec code 200) as [-> | Hne];
      [|reflexivity].
    destruct chunk as [[| j]|]; try reflexivity.
    contradiction (Hnot j). reflexivity.
  - intros j v -> Hv Hnum. cbv zeta. cbn [poll_once Z.eqb Pos.eqb].
    assert (Hget : json_get_double v = None)
      by (apply get_double_is_number; exact Hnum).
    assert (Hp : process_ws90_json_locked (world b) j now_ingest
                 = (mk_world (store_telemetry j (g_state (world b)))
                      (g_db (world b)) (state_file (world b)), Threw)).
    { unfold process_ws90_json_locked. rewrite Hv, Hget. reflexivity. }
    rewrite Hp. cbn. repeat split.
Qed.

(** X19: what a client reads after a good poll.  When the ingest of
    the poll returned at [now_ingest], the status object built at [now']
    shows [rtlsdr_ok], no error, the age [now' - now_ingest], and [stale]
    exactly when that age exceeds 60 seconds. *)
Theorem status_after_good_poll b j now now_ingest now' :
  snd (process_ws90_json_locked (world b) j now_ingest) = Returned ->
  now_ingest <> 0 ->
  0 <= now' - now_ingest <= INT_MAX ->
  let b' := poll_once b (CurlOk 200 (Some (FileJson j))) now now_ingest in
  let ws := build_ws90_status (g_state (world b')) (health b') now' in
  json_at ws "http_ok" = Some (JBool true)
  /\ json_at ws "rtlsdr_ok" = Some (JBool true)
  /\ json_at ws "last_poll_ts" = Some (JInt now)
  /\ json_at ws "age_sec" = Some (JInt (now' - now_ingest))
  /\ json_at ws "stale" = Some (JBool (60 <? now' - now_ingest))
  /\ json_at ws "error" = None
  /\ json_at ws "error_message" = None.
Proof.
  intros Hret Hnz Hage. cbv zeta. cbn [poll_once Z.eqb Pos.eqb].
  rewrite Hret. cbn [world health].
  pose proof (returned_last_update (world b) j now_ingest Hret) as Hlast.
  unfold build_ws90_status, age_sec, is_stale, age_sec.
  rewrite Hlast.
  destruct (Z.eqb_spec now_ingest 0) as [E | _]; [contradiction|].
  rewrite wrap_int_small by (unfold INT_MIN, INT_MAX in *; lia).
  cbn. repeat split.
Qed.

End PollerProperties.

(** ** The response buffer *)

Lemma curl_write_cb_spec alloc_ok contents m :
  Z.of_nat (List.length m) <= MAX_BODY_SIZE - 1 ->
  let r := curl_write_cb alloc_ok contents m in
  snd r = m ++ firstn (Z.to_nat (fst r)) contents
  /\ 0 <= fst r <= Z.of_nat (List.length contents)
  /\ Z.of_nat (List.length (snd r)) = Z.of_nat (List.length m) + fst r
  /\ Z.of_nat (List.length (snd r)) <= MAX_BODY_SIZE - 1
  /\ (fst r = Z.of_nat (List.length contents) <->
      contents = []
      \/ (alloc_ok = true
          /\ Z.of_nat (List.length m) + Z.of_nat (List.length contents)
             <= MAX_BODY_SIZE - 1)).
Proof.
  intros Hm. cbv zeta. unfold curl_write_cb.
  set (size := Z.of_nat (List.length m)) in *.
  set (n := Z.of_nat (List.length contents)).
  assert (Hn : 0 <= n) by (subst n; lia).
  assert (Hsize : 0 <= size) by (subst size; lia).
  assert (Hnil : n = 0 <-> contents = []).
  { subst n. destruct contents; cbn [List.length]; split; intros H;
      try reflexivity; try discriminate; lia. }
  unfold MAX_BODY_SIZE in *.
  assert (Hwrap : wrap_uint64 (8192 - 1 - size) = 8192 - 1 - size)
    by (unfold wrap_uint64; apply Z.mod_small; lia).
  rewrite Hwrap.
  set (realsize := if 8192 - 1 <=? size + n then 8192 - 1 - size else n).
  assert (Hreal : 0 <= realsize <= n /\ size + realsize <= 8191
                  /\ (realsize = n <-> size + n <= 8191)).
  { subst realsize. destruct (Z.leb_spec (8192 - 1) (size + n)); lia. }
  destruct Hreal as (Hr1 & Hr2 & Hr3).
  assert (Hnone : (0, m) = (0, m) ->
            snd (0, m) = m ++ firstn (Z.to_nat (fst (0, m))) contents
            /\ Z.of_nat (List.length (snd (0, m))) = size + fst (0, m)).
  { intros _. cbn [fst snd Z.to_nat firstn]. rewrite app_nil_r.
    fold size. split; [reflexivity | lia]. }
  destruct (Z.eqb_spec realsize 0) as [E0 | Hn0].
  - destruct (Hnone eq_refl) as [H1 H2].
    split; [exact H1|]. cbn [fst snd]. fold size.
    split; [lia|]. split; [lia|]. split; [lia|].
    split.
    + intros H. left. apply Hnil. lia.
    + intros [H | [_ H]]; [apply Hnil in H; lia | lia].
  - destruct alloc_ok; cbn [negb].
    + cbn [fst snd]. split; [reflexivity|].
      split; [lia|].
      assert (Hlen : Z.of_nat (List.length
                        (m ++ firstn (Z.to_nat realsize) contents))
                     = size + realsize).
      { rewrite length_app, length_firstn, Nat2Z.inj_add. fold size.
        rewrite Nat2Z.inj_min, Z2Nat.id by lia. fold n. lia. }
      rewrite Hlen. split; [reflexivity|]. split; [lia|].
      split.
      * intros H. right. split; [reflexivity | lia].
      * intros [H | [_ H]]; [apply Hnil in H; lia | lia].
    + destruct (Hnone eq_refl) as [H1 H2].
      split; [exact H1|]. cbn [fst snd]. fold size.
      split; [lia|]. split; [lia|]. split; [lia|].
      split.
      * intros H. left. apply Hnil. lia.
      * intros [H | [H _]]; [apply Hnil in H; lia | discriminate H].
Qed.

(** X20: the response buffer never exceeds 8191 bytes, whatever
    libcurl delivers.  Each call appends a prefix of the delivered bytes
    and returns its length; the whole delivery is taken (the only return
    value that lets libcurl continue the transfer) exactly when it is
    empty, or the allocation succeeds and the total stays within 8191
    bytes. *)
Theorem response_buffer_bounded calls :
  Z.of_nat (List.length (receive calls [])) <= MAX_BODY_SIZE - 1
  /\ forall alloc_ok contents,
       let m := receive calls [] in
       let r := curl_write_cb alloc_ok contents m in
       snd r = m ++ firstn (Z.to_nat (fst r)) contents
       /\ 0 <= fst r <= Z.of_nat (List.length contents)
       /\ (fst r = Z.of_nat (List.length contents) <->
           contents = []
           \/ (alloc_ok = true
               /\ Z.of_nat (List.length m)
                  + Z.of_nat (List.length contents) <= MAX_BODY_SIZE - 1)).
Proof.
  assert (Hinv : forall calls m,
            Z.of_nat (List.length m) <= MAX_BODY_SIZE - 1 ->
            Z.of_nat (List.length (receive calls m)) <= MAX_BODY_SIZE - 1).
  { clear calls. induction calls as [|[ok c] rest IH]; intros m Hm;
      [exact Hm|].
    cbn [receive]. apply IH.
    apply (curl_write_cb_spec ok c m Hm). }
  assert (Hbound : Z.of_nat (List.length (receive calls []))
                   <= MAX_BODY_SIZE - 1)
    by (apply Hinv; unfold MAX_BODY_SIZE; cbn; lia).
  split; [exact Hbound|].
  intros alloc_ok contents. cbv zeta.
  destruct (curl_write_cb_spec alloc_ok contents (receive calls []) Hbound)
    as (H1 & H2 & _ & _ & H5).
  split; [exact H1 | split; [exact H2 | exact H5]].
Qed.

(** ** The daily summary of the current snapshot *)

Section DailySummaryJson.

Context {D : Type} {DD : Double D} {LC : Libc}.

(** X21: after a tracked sample whose wind speeds are not NaN (in
    particular one without wind members, which count as 0) the daily
    object of the current snapshot is marked meaningful and carries the
    wind summary, whatever else the payload holds; a daily value is null
    exactly when its flag is not set. *)
Theorem daily_meaningful_after_tracked_sample (w : World (D:=D))
    (j : json (D:=D)) now v rain :
  json_at j "rain_mm" = Some v ->
  json_get_double v = Some rain ->
  ((rain <? d_of_Z 0)%D || (d_of_Z 20000 <? rain)%D) = false ->
  (last_rain_mm (g_state w) =? d_of_Z 0)%D = false ->
  disnan (get_num j "wind_avg_m_s" (d_of_Z 0)) = false ->
  disnan (get_num j "wind_max_m_s" (d_of_Z 0)) = false ->
  let st' := g_state (fst (process_ws90_json_locked w j now)) in
  let daily := build_daily_json st' in
  json_at daily "meaningful" = Some (JBool true)
  /\ json_at daily "wind_mean_mph" = Some (JFloat (mph (wind_mean_m_s st')))
  /\ json_at daily "wind_gust_max_mph"
     = Some (JFloat (mph (wind_max_gust_m_s st')))
  /\ (json_at daily "temp_high_F" = Some JNull <-> have_temp st' = false)
  /\ (json_at daily "humidity_high" = Some JNull <-> have_hum st' = false).
Proof.
  intros Hv Hget Hin Hseed Havg Hgust st' daily.
  destruct (tracked_sample w j now v rain Hv Hget Hin Hseed)
    as (_ & _ & Hw & _).
  cbv zeta in Hw. fold st' in Hw.
  assert (Hwind : have_wind st' = true).
  { change (have_wind st') with (fst (fst (fst (wind_tracking st')))).
    rewrite Hw. unfold wind_after. rewrite Havg, Hgust. cbn [orb].
    match goal with |- context [day_fires ?s now] =>
      destruct (day_fires s now) end;
      unfold wind_tracking; destruct (have_wind (g_state w)); reflexivity. }
  subst daily. unfold build_daily_json. cbn [json_at assoc_find String.eqb
    Ascii.eqb Bool.eqb]. rewrite Hwind, !orb_true_r.
  repeat split; try reflexivity.
  - destruct (have_temp st'); [discriminate | reflexivity].
  - intros ->. reflexivity.
  - destruct (have_hum st'); [discriminate | reflexivity].
  - intros ->. reflexivity.
Qed.

End DailySummaryJson.

Lemma daily_meaningful_after_tracked_sample_witness :
  let st' := g_state (fst (process_ws90_json_locked (LC:=Libc_utc)
                             RunExact.seeded_world
                             (RunExact.rain_only 101) (t_new_year + 60))) in
  json_at (build_daily_json st') "meaningful" = Some (JBool true)
  /\ json_at (build_daily_json st') "temp_high_F" = Some JNull.
Proof.
  pose proof (daily_meaningful_after_tracked_sample (LC:=Libc_utc)
                RunExact.seeded_world (RunExact.rain_only 101)
                (t_new_year + 60) (JInt 101) (d_of_Z 101)
                eq_refl eq_refl eq_refl eq_refl eq_refl eq_refl) as H.
  split; [exact (proj1 H)|].
  apply (proj2 (proj1 (proj2 (proj2 (proj2 H))))). 
  apply (proj1 (proj1 (proj2 (proj2 (proj2 H))))).
  reflexivity.
Defined.

Lemma poll_health_flags_witness :
  let b := mk_backend Run.seeded_world health_at_start in
  let h := health (poll_once (LC:=Libc_utc) b
                     (CurlOk 200 (Some (FileJson (Run.sample 101 22))))
                     (Run.t_morning + 60) (Run.t_morning + 60)) in
  g_rtlsdr_ok h = true /\ g_ws90_http_ok h = true.
Proof.
  pose proof (poll_health_flags (LC:=Libc_utc)
                (mk_backend Run.seeded_world health_at_start)
                (CurlOk 200 (Some (FileJson (Run.sample 101 22))))
                (Run.t_morning + 60) (Run.t_morning + 60)) as H.
  cbv zeta in H. destruct H as (_ & Hok & _ & Himp & _).
  assert (Hr : g_rtlsdr_ok
                 (health (poll_once (LC:=Libc_utc)
                            (mk_backend Run.seeded_world health_at_start)
                            (CurlOk 200 (Some (FileJson (Run.sample 101 22))))
                            (Run.t_morning + 60) (Run.t_morning + 60)))
               = true).
  { apply Hok. exists (Run.sample 101 22). split; reflexivity. }
  split; [exact Hr | exact (proj1 (Himp Hr))].
Defined.

Lemma poll_effect_on_state_witness :
  let j := JObj [("rain_mm", JStr "wet"); ("temperature_C", JInt 30)] in
  let b := mk_backend Run.seeded_world health_at_start in
  let b' := poll_once (LC:=Libc_utc) b (CurlOk 200 (Some (FileJson j)))
              (Run.t_morning + 60) (Run.t_morning + 60) in
  g_state (world b') = store_telemetry j (g_state (world b))
  /\ g_ws90_error_code (health b') = "parse_error".
Proof.
  pose proof (proj2 (poll_effect_on_state (LC:=Libc_utc)
                (mk_backend Run.seeded_world health_at_start)
                (CurlOk 200 (Some (FileJson
                   (JObj [("rain_mm", JStr "wet");
                          ("temperature_C", JInt 30)]))))
                (Run.t_morning + 60) (Run.t_morning + 60))
                _ (JStr "wet") eq_refl eq_refl eq_refl) as H.
  cbv zeta in H. cbv zeta.
  destruct H as (H1 & _ & _ & _ & _ & H6 & _).
  split; [exact H1 | exact H6].
Defined.

Lemma status_after_good_poll_witness :
  let b := mk_backend Run.seeded_world health_at_start in
  let b' := poll_once (LC:=Libc_utc) b
              (CurlOk 200 (Some (FileJson (Run.sample 101 22))))
              (Run.t_morning + 60) (Run.t_morning + 60) in
  let ws := build_ws90_status (g_state (world b')) (health b')
              (Run.t_morning + 75) in
  json_at ws "age_sec" = Some (JInt (Run.t_morning + 75 - (Run.t_morning + 60)))
  /\ json_at ws "stale"
     = Some (JBool (60 <? Run.t_morning + 75 - (Run.t_morning + 60))).
Proof.
  assert (Hage : 0 <= Run.t_morning + 75 - (Run.t_morning + 60) <= INT_MAX)
    by (vm_compute; split; discriminate).
  assert (Hnz : Run.t_morning + 60 <> 0) by (vm_compute; discriminate).
  pose proof (status_after_good_poll (LC:=Libc_utc)
                (mk_backend Run.seeded_world health_at_start)
                (Run.sample 101 22) (Run.t_morning + 60) (Run.t_morning + 60)
                (Run.t_morning + 75) eq_refl Hnz Hage) as H.
  cbv zeta in H.
  split; [exact (proj1 (proj2 (proj2 (proj2 H))))
         | exact (proj1 (proj2 (proj2 (proj2 (proj2 H)))))].
Defined.

Lemma response_buffer_bounded_witness :
  let m := receive [(true, repeat Byte.x41 100)] [] in
  Z.of_nat (List.length m) <= MAX_BODY_SIZE - 1
  /\ fst (curl_write_cb true (repeat Byte.x42 50) m) = 50.
Proof.
  split.
  - exact (proj1 (response_buffer_bounded [(true, repeat Byte.x41 100)])).
  - apply (proj2 (proj2 (proj2 (response_buffer_bounded
                                  [(true, repeat Byte.x41 100)])
                           true (repeat Byte.x42 50)))).
    right. split; [reflexivity|]. vm_compute. discriminate.
Defined.

(** ** Decimal query values *)

Lemma read_digits_acc u : forall p,
  read_digits (DecimalString.NilEmpty.string_of_uint u) (Some (Zpos p))
  = Some (Zpos (Pos.of_uint_acc u p)).
Proof.
  induction u; intros p;
    cbn [DecimalString.NilEmpty.string_of_uint read_digits Pos.of_uint_acc];
    [reflexivity|..];
    match goal with
    | |- context [digit_value ?c] =>
        let d := eval vm_compute in (digit_value c) in
        change (digit_value c) with d
    end;
    cbv iota beta; rewrite <- IHu; do 2 f_equal; lia.
Qed.

Lemma read_digits_zero u :
  read_digits (DecimalString.NilEmpty.string_of_uint u) (Some 0)
  = Some (Z.of_N (Pos.of_uint u)).
Proof.
  induction u;
    cbn [DecimalString.NilEmpty.string_of_uint read_digits Pos.of_uint];
    [reflexivity|..];
    match goal with
    | |- context [digit_value ?c] =>
        let d := eval vm_compute in (digit_value c) in
        change (digit_value c) with d
    end;
    cbv iota beta; [exact IHu|..];
    match goal with
    | |- read_digits _ (Some ?a) = _ =>
        let a' := eval vm_compute in a in change a with a'
    end;
    rewrite read_digits_acc; reflexivity.
Qed.

Lemma read_digits_uint u :
  u <> Decimal.Nil ->
  read_digits (DecimalString.NilEmpty.string_of_uint u) None
  = Some (Z.of_N (Pos.of_uint u)).
Proof.
  intros Hu. rewrite <- read_digits_zero.
  destruct u; [contradiction Hu; reflexivity|..]; reflexivity.
Qed.

Lemma strtol_digit c rest d :
  digit_value c = Some d ->
  strtol (String c rest)
  = option_map saturate_long (read_digits (String c rest) None).
Proof.
  destruct c as [[] [] [] [] [] [] [] []]; intros H;
    vm_compute in H; try discriminate H; reflexivity.
Qed.

Lemma string_of_uint_digit u :
  u <> Decimal.Nil ->
  exists c rest d,
    DecimalString.NilEmpty.string_of_uint u = String c rest
    /\ digit_value c = Some d.
Proof.
  destruct u; intros Hu; [contradiction Hu; reflexivity|..];
    cbn [DecimalString.NilEmpty.string_of_uint];
    eexists; eexists; eexists; (split; [reflexivity|]);
    vm_compute; reflexivity.
Qed.

Lemma nilzero_string_of_uint u :
  u <> Decimal.Nil ->
  DecimalString.NilZero.string_of_uint u
  = DecimalString.NilEmpty.string_of_uint u.
Proof. destruct u; intros Hu; [contradiction Hu|..]; reflexivity. Qed.

(** X22: [strtol] reads back what the decimal notation of a [long]
    says: for every [z] in the range of [long], the text [to_string z]
    parses to [z].  Hence a query argument written in decimal is taken at
    its value and clamped to the bounds of the parameter. *)
Theorem strtol_reads_decimal z :
  LONG_MIN <= z <= LONG_MAX ->
  strtol (to_string z) = Some z
  /\ forall name def lo hi,
       INT_MIN <= lo -> lo <= hi -> hi <= INT_MAX ->
       get_query_int_ci [(name, Some (to_string z))] name def lo hi
       = Z.min hi (Z.max lo z).
Proof.
  intros Hz.
  assert (Hsat : saturate_long z = z).
  { unfold saturate_long.
    destruct (Z.ltb_spec z LONG_MIN); [lia|].
    destruct (Z.ltb_spec LONG_MAX z); [lia | reflexivity]. }
  assert (Hparse : strtol (to_string z) = Some z
                   /\ to_string z <> EmptyString).
  { unfold to_string. destruct z as [|p|p]; cbn [Z.to_int].
    - split; [reflexivity | discriminate].
    - pose proof (DecimalPos.Unsigned.to_uint_nonnil p) as Hnn.
      cbn [DecimalString.NilZero.string_of_int].
      rewrite (nilzero_string_of_uint _ Hnn).
      destruct (string_of_uint_digit _ Hnn) as (c & rest & d & Hs & Hd).
      split; [|rewrite Hs; discriminate].
      rewrite Hs, (strtol_digit c rest d Hd), <- Hs.
      rewrite (read_digits_uint _ Hnn), DecimalPos.Unsigned.of_to.
      cbn [option_map Z.of_N]. rewrite Hsat. reflexivity.
    - pose proof (DecimalPos.Unsigned.to_uint_nonnil p) as Hnn.
      cbn [DecimalString.NilZero.string_of_int].
      rewrite (nilzero_string_of_uint _ Hnn).
      split; [|discriminate].
      unfold strtol. cbn [skip_spaces].
      change (isspace "-") with false. cbv iota.
      rewrite (read_digits_uint _ Hnn), DecimalPos.Unsigned.of_to.
      cbn [option_map Z.of_N]. change (- Zpos p) with (Zneg p).
      rewrite Hsat. reflexivity. }
  destruct Hparse as [Hparse Hne].
  split; [exact Hparse|].
  intros name def lo hi Hlo Hle Hhi.
  apply (get_query_int_ci_clamp _ name (to_string z) z def lo hi);
    try assumption.
  cbn [get_query_value_ci]. unfold strcasecmp_eq.
  rewrite String.eqb_refl. reflexivity.
Qed.

Lemma strtol_reads_decimal_witness :
  strtol (to_string (-2024)) = Some (-2024)
  /\ get_query_int_ci [("limit", Some (to_string 1000))] "limit"
       DEFAULT_LIMIT 1 MAX_LIMIT = 365.
Proof.
  split.
  - apply (strtol_reads_decimal (-2024)). vm_compute. split; discriminate.
  - assert (H : LONG_MIN <= 1000 <= LONG_MAX)
      by (vm_compute; split; discriminate).
    apply (proj2 (strtol_reads_decimal 1000 H) "limit" DEFAULT_LIMIT 1
             MAX_LIMIT); vm_compute; discriminate.
Defined.

(** ** The configuration file *)

Section ConfigurationFile.

Context {D : Type} {DD : Double D}.

(** X23: [load_config] reports success exactly when it sets [loaded]:
    when the file is read, parses to an object, and each of the four
    members that is present has the type asked for; then the members that
    are absent take 0, 0, 0 and "UTC".  On a failure the members are not
    reset: they keep their former values, and the members assigned before
    the failing one keep the values of the file. *)
Theorem load_config_failure_keeps_assignments (cfg : Config (D:=D))
    (file : option (file_content (D:=D))) :
  let r := load_config file cfg in
  snd r = loaded (fst r)
  /\ (snd r = true <->
      exists j lat lon off name,
        file = Some (FileJson j)
        /\ json_value j "latitude" json_get_double (d_of_Z 0) = Some lat
        /\ json_value j "longitude" json_get_double (d_of_Z 0) = Some lon
        /\ json_value j "tz_offset" json_get_int 0 = Some off
        /\ json_value j "tz_name" json_get_string "UTC" = Some name
        /\ fst r = mk_config lat lon off name true)
  /\ (file = Some (FileJson (JObj [])) ->
      fst r = mk_config (d_of_Z 0) (d_of_Z 0) 0 "UTC" true)
  /\ (file = None \/ file = Some FileGarbage
      \/ (exists j, file = Some (FileJson j)
                    /\ forall m, j <> JObj m) ->
      fst r = mk_config (latitude cfg) (longitude cfg) (tz_offset cfg)
                (tz_name cfg) false)
  /\ (forall j lat,
        file = Some (FileJson j) ->
        json_value j "latitude" json_get_double (d_of_Z 0) = Some lat ->
        json_value j "longitude" json_get_double (d_of_Z 0) = None ->
        fst r = mk_config lat (longitude cfg) (tz_offset cfg) (tz_name cfg)
                  false).
Proof.
  cbv zeta. split; [|split; [|split; [|split]]].
  - unfold load_config. destruct file as [[| j]|]; try reflexivity.
    destruct (json_value j "latitude" _ _); [|reflexivity].
    destruct (json_value j "longitude" _ _); [|reflexivity].
    destruct (json_value j "tz_offset" _ _); [|reflexivity].
    destruct (json_value j "tz_name" _ _); reflexivity.
  - split.
    + unfold load_config. destruct file as [[| j]|]; try discriminate.
      destruct (json_value j "latitude" _ _) as [lat|] eqn:E1;
        [|discriminate].
      destruct (json_value j "longitude" _ _) as [lon|] eqn:E2;
        [|discriminate].
      destruct (json_value j "tz_offset" _ _) as [off|] eqn:E3;
        [|discriminate].
      destruct (json_value j "tz_name" _ _) as [name|] eqn:E4;
        [|discriminate].
      intros _. exists j, lat, lon, off, name. repeat split; assumption.
    + intros (j & lat & lon & off & name & -> & E1 & E2 & E3 & E4 & _).
      unfold load_config. rewrite E1, E2, E3, E4. reflexivity.
  - intros ->. reflexivity.
  - intros [-> | [-> | (j & -> & Hobj)]]; try reflexivity.
    unfold load_config. destruct j; try reflexivity.
    contradiction (Hobj m). reflexivity.
  - intros j lat -> E1 E2. unfold load_config. rewrite E1, E2. reflexivity.
Qed.

End ConfigurationFile.

(** ** What the feeders make of the served snapshot *)

Section Feeders.

Context {D : Type} {DD : Double D}.

Lemma json_at_reparse (j : json (D:=D)) k :
  json_at (json_reparse j) k = option_map json_reparse (json_at j k).
Proof.
  destruct j; cbn [json_reparse json_at option_map]; try reflexivity.
  - destruct (0 <=? z); reflexivity.
  - destruct (disfinite d); reflexivity.
  - apply assoc_find_reparse.
Qed.

Lemma served_status_unhealthy (st : WeatherStateV2 (D:=D)) h now :
  status_unhealthy (json_reparse (build_ws90_status st h now))
  = Some (negb (g_ws90_http_ok h && g_rtlsdr_ok h
                && negb (is_stale st now))).
Proof.
  unfold build_ws90_status, status_unhealthy, json_value.
  cbn [json_reparse]. rewrite !assoc_find_reparse.
  change (assoc_find "http_ok" _) with (Some (JBool (D:=D) (g_ws90_http_ok h))).
  change (assoc_find "rtlsdr_ok" _)
    with (Some (JBool (D:=D) (g_rtlsdr_ok h))).
  change (assoc_find "stale" _) with (Some (JBool (D:=D) (is_stale st now))).
  cbn [option_map json_reparse json_get_bool].
  destruct (g_ws90_http_ok h), (g_rtlsdr_ok h), (is_stale st now);
    reflexivity.
Qed.

(** X24: the feeders act on the health that the backend reports.  On
    the snapshot served by the backend, the checks of [build_wu_url] pass
    exactly when [http_ok] and [rtlsdr_ok] hold and the data are not stale;
    those of [build_windy_url] pass under the same condition when the
    temperature is a finite number, and end in an exception when it is not
    (it is served as [null]). *)
Theorem feeders_upload_only_when_healthy (st : WeatherStateV2 (D:=D))
    h astro now :
  let j := served_weather st h astro now in
  let healthy := g_ws90_http_ok h && g_rtlsdr_ok h
                 && negb (is_stale st now) in
  let tempF := c_to_f (temperature_C st) in
  wu_checks j = Some healthy
  /\ (disfinite tempF = true ->
      windy_checks j = Some (healthy && negb (disnan tempF)))
  /\ (disfinite tempF = false ->
      windy_checks j = if healthy then None else Some false).
Proof.
  cbv zeta.
  assert (Ht : json_at (served_weather st h astro now) "temperature_F"
               = Some (json_reparse (JFloat (c_to_f (temperature_C st))))).
  { unfold served_weather. rewrite json_at_reparse. reflexivity. }
  assert (Hh : json_at (served_weather st h astro now) "humidity"
               = Some (json_reparse (JFloat (humidity st)))).
  { unfold served_weather. rewrite json_at_reparse. reflexivity. }
  assert (Hs : json_at (served_weather st h astro now) "ws90_status"
               = Some (json_reparse (build_ws90_status st h now))).
  { unfold served_weather. rewrite json_at_reparse. reflexivity. }
  assert (Hv : json_value (served_weather st h astro now) "temperature_F"
                 json_get_double dnan
               = json_get_double
                   (json_reparse (JFloat (c_to_f (temperature_C st))))).
  { unfold served_weather, build_current_json, json_value.
    cbn [json_reparse]. rewrite assoc_find_reparse. reflexivity. }
  pose proof (served_status_unhealthy st h now) as Hu.
  split; [|split].
  - unfold wu_checks, contains. rewrite Ht, Hh, Hs, Hu.
    cbn [negb orb option_map]. rewrite negb_involutive. reflexivity.
  - intros Hfin. unfold windy_checks, contains. rewrite Ht, Hh, Hs, Hv.
    cbn [negb orb].
    assert (Hobj : exists m, json_reparse (build_ws90_status st h now)
                             = JObj m)
      by (unfold build_ws90_status; cbn [json_reparse]; eexists;
          reflexivity).
    destruct Hobj as [m Hm]. rewrite Hm, <- Hm, Hu.
    cbn [option_map json_reparse]. rewrite negb_involutive, Hfin.
    cbn [json_get_double].
    destruct (g_ws90_http_ok h && g_rtlsdr_ok h && negb (is_stale st now));
      reflexivity.
  - intros Hfin. unfold windy_checks, contains. rewrite Ht, Hh, Hs, Hv.
    cbn [negb orb].
    assert (Hobj : exists m, json_reparse (build_ws90_status st h now)
                             = JObj m)
      by (unfold build_ws90_status; cbn [json_reparse]; eexists;
          reflexivity).
    destruct Hobj as [m Hm]. rewrite Hm, <- Hm, Hu.
    cbn [option_map json_reparse]. rewrite negb_involutive, Hfin.
    cbn [json_get_double].
    destruct (g_ws90_http_ok h && g_rtlsdr_ok h && negb (is_stale st now));
      reflexivity.
Qed.

End Feeders.

Lemma load_config_failure_keeps_assignments_witness :
  let j := JObj [("latitude", JInt 30); ("longitude", JStr "west")] in
  fst (load_config (Some (FileJson j)) (config_at_start (D:=float)))
  = mk_config (d_of_Z 30) (d_of_Z 0) 0 EmptyString false.
Proof.
  exact (proj2 (proj2 (proj2 (proj2
           (load_config_failure_keeps_assignments
              (config_at_start (D:=float))
              (Some (FileJson (JObj [("latitude", JInt 30);
                                     ("longitude", JStr "west")])))))))
           _ (d_of_Z 30) eq_refl eq_refl eq_refl).
Defined.

Lemma feeders_upload_only_when_healthy_witness :
  let b := poll_once (LC:=Libc_utc)
             (mk_backend Run.seeded_world health_at_start)
             (CurlOk 503 (Some (FileJson (JObj [("error", JStr "stale_data")]))))
             (Run.t_morning + 60) (Run.t_morning + 60) in
  windy_checks (served_weather (g_state (world b)) (health b) JNull
                  (Run.t_morning + 60))
  = Some (g_ws90_http_ok (health b) && g_rtlsdr_ok (health b)
          && negb (is_stale (g_state (world b)) (Run.t_morning + 60))
          && negb (disnan (c_to_f (temperature_C (g_state (world b)))))).
Proof.
  apply (proj1 (proj2 (feeders_upload_only_when_healthy
                         (g_state (world (poll_once (LC:=Libc_utc)
                            (mk_backend Run.seeded_world health_at_start)
                            (CurlOk 503 (Some (FileJson
                               (JObj [("error", JStr "stale_data")]))))
                            (Run.t_morning + 60) (Run.t_morning + 60))))
                         (health (poll_once (LC:=Libc_utc)
                            (mk_backend Run.seeded_world health_at_start)
                            (CurlOk 503 (Some (FileJson
                               (JObj [("error", JStr "stale_data")]))))
                            (Run.t_morning + 60) (Run.t_morning + 60)))
                         JNull (Run.t_morning + 60)))).
  vm_compute. reflexivity.
Defined.
